(** * hms_front: the authentication service and the route guards

    A shallow embedding of [authService] (signUp, signIn, signOut,
    getCurrentUser) and of the two route guards of [App]
    ([ProtectedRoute] with its auth-state callback, [AuthRoute], and
    [getUserDataWithRetry]), and of the subtype bookkeeping of
    [testService.updateTestType] with the edit form of [TestManagement]
    that feeds it.

    The platform SDK is external: every SDK call is answered by a
    [World], which either returns a response object or raises an
    exception.  An asynchronous function of the source becomes a
    tree in the monad [Async]; running the tree against a world yields
    how it completes, normally with a value or abruptly with a thrown
    error, and the chronological trace of what it did.  A world fixes
    the answer to the n-th call of each SDK operation, so quantifying
    over worlds is quantifying over every sequence of external
    responses.  [console], [toast], [setTimeout] waits and the setters
    of component state are outputs: they are recorded and cannot
    throw. *)

From Stdlib Require Import String List Bool Arith Lia DecimalString.
Import ListNotations.
Local Open Scope string_scope.
Local Open Scope list_scope.

(* ================================================================== *)
(** ** Values exchanged with the platform *)

(** An error object made by the platform SDK, either handed back in the
    [error] field of a response or thrown. *)
Record PlatformError : Type := { perr_message : string }.

(** What a [catch] clause of the application can receive: an error that
    came from the platform, or one built by the application itself with
    [new Error(message)]. *)
Inductive Err : Type :=
| FromPlatform (e : PlatformError)
| NewError (message : string).

(** The SDK's [User]: [email] is optional in the SDK's type, which is why
    the source writes [user.email!]. *)
Record AuthUser : Type := { au_id : string; au_email : option string }.

(** [{ data: { user }, error }] of auth.signUp, auth.signInWithPassword,
    auth.getUser and auth.admin.deleteUser. *)
Record AuthUserResp : Type :=
  { auth_user : option AuthUser; auth_error : option PlatformError }.

(** [{ data: { session }, error }] of auth.getSession. *)
Record Session : Type := { session_user : AuthUser }.
Record SessionResp : Type :=
  { auth_session : option Session; session_error : option PlatformError }.

(** [{ error }] of auth.signOut. *)
Record SignOutResp : Type := { signout_error : option PlatformError }.

(** [{ data, error }] of a query ended by [.maybeSingle()] and of
    [rpc]. *)
Record PgResp (T : Type) : Type :=
  { pg_data : option T; pg_error : option PlatformError }.
Arguments Build_PgResp {T} _ _.
Arguments pg_data {T} _.
Arguments pg_error {T} _.

Record IdRow : Type := { row_id : string }.
Record RoleRow : Type := { rr_role : string }.
Record ProfileRow : Type := { pr_username : string; pr_role : string }.
Record UserRow : Type :=
  { ur_id : string; ur_email : string; ur_username : string; ur_role : string }.

(** The test [!error && data] that every retry loop of the source applies
    to a response. *)
Definition no_error_and_data {T} (r : PgResp T) : bool :=
  match pg_error r, pg_data r with
  | None, Some _ => true
  | _, _ => false
  end.

(* ================================================================== *)
(** ** Calls, outputs and traces *)

(** The SDK calls the modelled code awaits, indexed by the type of the
    response. *)
Inductive Cmd : Type -> Type :=
| users_select_id_by_email (email : string) : Cmd (PgResp IdRow)
| auth_signUp (email password role username : string) : Cmd AuthUserResp
| users_insert (id email username role : string) : Cmd (PgResp UserRow)
| auth_admin_deleteUser (id : string) : Cmd AuthUserResp
| auth_signInWithPassword (email password : string) : Cmd AuthUserResp
| users_select_username_role (id : string) : Cmd (PgResp ProfileRow)
| auth_signOut : Cmd SignOutResp
| rpc_create_doctor_profile : Cmd (PgResp unit)
| auth_getUser : Cmd AuthUserResp
| auth_getSession : Cmd SessionResp
| users_select_role (id : string) : Cmd (PgResp RoleRow)
| doctors_select_id (user_id : string) : Cmd (PgResp IdRow).

(** The operation a call belongs to, forgetting its arguments. *)
Inductive Op : Type :=
| op_users_select_id_by_email | op_auth_signUp | op_users_insert
| op_auth_admin_deleteUser | op_auth_signInWithPassword
| op_users_select_username_role | op_auth_signOut
| op_rpc_create_doctor_profile | op_auth_getUser | op_auth_getSession
| op_users_select_role | op_doctors_select_id.

Definition op_of {R} (c : Cmd R) : Op :=
  match c with
  | users_select_id_by_email _ => op_users_select_id_by_email
  | auth_signUp _ _ _ _ => op_auth_signUp
  | users_insert _ _ _ _ => op_users_insert
  | auth_admin_deleteUser _ => op_auth_admin_deleteUser
  | auth_signInWithPassword _ _ => op_auth_signInWithPassword
  | users_select_username_role _ => op_users_select_username_role
  | auth_signOut => op_auth_signOut
  | rpc_create_doctor_profile => op_rpc_create_doctor_profile
  | auth_getUser => op_auth_getUser
  | auth_getSession => op_auth_getSession
  | users_select_role _ => op_users_select_role
  | doctors_select_id _ => op_doctors_select_id
  end.

Definition Op_eqb (a b : Op) : bool :=
  match a, b with
  | op_users_select_id_by_email, op_users_select_id_by_email
  | op_auth_signUp, op_auth_signUp
  | op_users_insert, op_users_insert
  | op_auth_admin_deleteUser, op_auth_admin_deleteUser
  | op_auth_signInWithPassword, op_auth_signInWithPassword
  | op_users_select_username_role, op_users_select_username_role
  | op_auth_signOut, op_auth_signOut
  | op_rpc_create_doctor_profile, op_rpc_create_doctor_profile
  | op_auth_getUser, op_auth_getUser
  | op_auth_getSession, op_auth_getSession
  | op_users_select_role, op_users_select_role
  | op_doctors_select_id, op_doctors_select_id => true
  | _, _ => false
  end.

(** How an awaited SDK call ends. *)
Inductive Outcome (R : Type) : Type :=
| Returned (r : R)
| Threw (e : PlatformError).
Arguments Returned {R} r.
Arguments Threw {R} e.

(** Effects that produce no answer and cannot throw. *)
Inductive Output : Type :=
| Delay (ms : nat)
    (* await new Promise(resolve => setTimeout(resolve, ms)) *)
| ConsoleError (label : string) (payload : option Err)
| ConsoleLog (line : string)
| ToastError (message : string)
| SetIsAuthenticated (b : bool)
| SetUserRole (r : option string).

Inductive Event : Type :=
| EvCall {R : Type} (c : Cmd R) (o : Outcome R)
| EvOut (o : Output).

Definition Trace : Type := list Event.

Definition is_call_of (op : Op) (e : Event) : bool :=
  match e with
  | EvCall c _ => Op_eqb (op_of c) op
  | EvOut _ => false
  end.

(** How many calls of operation [op] the trace holds. *)
Definition count_op (op : Op) (tr : Trace) : nat :=
  length (filter (is_call_of op) tr).
Arguments count_op : simpl never.

(** The operations called, in order, without arguments and answers. *)
Definition ops_called (tr : Trace) : list Op :=
  flat_map (fun e => match e with
                     | EvCall c _ => [op_of c]
                     | EvOut _ => []
                     end) tr.

(** The platform as the code meets it during one invocation: the answer
    to the [n]-th call (counted from 0) of the operation of [c], given
    the call's arguments. *)
Definition World : Type := forall R : Type, Cmd R -> nat -> Outcome R.

(* ================================================================== *)
(** ** The monad of asynchronous functions *)

(** An asynchronous function is a tree: it returns, throws, awaits an
    SDK call and goes on with the way the call ended, or produces an
    output and goes on. *)
Inductive Async (A : Type) : Type :=
| Ret (a : A)
| Throw (e : Err)
| Call {R : Type} (c : Cmd R) (k : Outcome R -> Async A)
| Emit (o : Output) (k : Async A).
Arguments Ret {A} a.
Arguments Throw {A} e.
Arguments Call {A R} c k.
Arguments Emit {A} o k.

Definition ret {A} (a : A) : Async A := Ret a.

Definition throw {A} (e : Err) : Async A := Throw e.

Fixpoint bind {A B} (m : Async A) (f : A -> Async B) : Async B :=
  match m with
  | Ret a => f a
  | Throw e => Throw e
  | Call c k => Call c (fun o => bind (k o) f)
  | Emit o k => Emit o (bind k f)
  end.

(** [try { body } catch (error) { handler }]. *)
Fixpoint try_catch {A} (body : Async A) (handler : Err -> Async A) : Async A :=
  match body with
  | Ret a => Ret a
  | Throw e => handler e
  | Call c k => Call c (fun o => try_catch (k o) handler)
  | Emit o k => Emit o (try_catch k handler)
  end.

(** [await sdk.call(...)]: a thrown error becomes a throw of the
    caller. *)
Definition call {R} (c : Cmd R) : Async R :=
  Call c (fun o => match o with
                   | Returned r => Ret r
                   | Threw e => Throw (FromPlatform e)
                   end).

Definition emit (o : Output) : Async unit := Emit o (Ret tt).

(** [if (cond) { body }] for a body run for its effects. *)
Definition when (cond : bool) (body : Async unit) : Async unit :=
  if cond then body else ret tt.

Notation "x <- m ;; k" := (bind m (fun x => k))
  (at level 61, m at next level, right associativity).
Notation "m ;;; k" := (bind m (fun _ => k))
  (at level 61, right associativity).

(** How an asynchronous function completes. *)
Inductive Completion (A : Type) : Type :=
| Normal (a : A)
| Abrupt (e : Err).
Arguments Normal {A} a.
Arguments Abrupt {A} e.

(** Running against a world, from the trace so far: each awaited call is
    answered by the world and recorded with its answer. *)
Fixpoint run {A} (w : World) (p : Async A) (tr : Trace) : Completion A * Trace :=
  match p with
  | Ret a => (Normal a, tr)
  | Throw e => (Abrupt e, tr)
  | Call c k =>
      let o := w _ c (count_op (op_of c) tr) in
      run w (k o) (tr ++ [EvCall c o])
  | Emit o k => run w k (tr ++ [EvOut o])
  end.

(** One invocation, from an empty trace. *)
Definition exec {A} (w : World) (p : Async A) : Completion A * Trace :=
  run w p [].

(* ================================================================== *)
(** ** authService *)

Record SignUpCredentials : Type :=
  { su_email : string; su_password : string; su_role : string; su_username : string }.

Record SignInCredentials : Type :=
  { si_email : string; si_password : string }.

(** The [user] of an [AuthResponse].  [email] is [user.email!] in signIn
    and getCurrentUser, so it is as optional as the SDK's field. *)
Record User : Type :=
  { id : string; email : option string; role : string; username : string }.

Record AuthResponse : Type := { user : option User; error : option Err }.

(** The error a retry loop leaves behind, as the value later thrown by
    [throw err || new Error(fallback)]. *)
Definition or_new_error (e : option Err) (fallback : string) : Err :=
  match e with
  | Some e => e
  | None => NewError fallback
  end.

Definition platform (e : option PlatformError) : option Err :=
  option_map FromPlatform e.

(** The [while (retries > 0)] loop of signUp.  It carries [profileError]
    and yields [(userData, profileError)]. *)
Fixpoint signUp_insert_loop (c : SignUpCredentials) (u : AuthUser) (retries : nat)
    (profileError : option PlatformError)
  : Async (option UserRow * option PlatformError) :=
  match retries with
  | 0 => ret (None, profileError)
  | S retries' =>
      r <- call (users_insert (au_id u) (su_email c) (su_username c) (su_role c)) ;;
      if no_error_and_data r then ret (pg_data r, profileError)
      else
        when (0 <? retries')%nat (emit (Delay 2000)) ;;;
        signUp_insert_loop c u retries' (pg_error r)
  end.

Definition signUp (c : SignUpCredentials) : Async AuthResponse :=
  try_catch
    (existing <- call (users_select_id_by_email (su_email c)) ;;
     match pg_data existing with
     | Some _ =>
         ret {| user := None; error := Some (NewError "User already exists") |}
     | None =>
         r <- call (auth_signUp (su_email c) (su_password c) (su_role c) (su_username c)) ;;
         match auth_error r with
         | Some signUpError => throw (FromPlatform signUpError)
         | None =>
             match auth_user r with
             | None => throw (NewError "Failed to create user")
             | Some u =>
                 emit (Delay 2000) ;;;
                 res <- signUp_insert_loop c u 3 None ;;
                 match fst res with
                 | None =>
                     call (auth_admin_deleteUser (au_id u)) ;;;
                     throw (or_new_error (platform (snd res))
                                         "Failed to create user profile")
                 | Some _ =>
                     ret {| user := Some {| id := au_id u;
                                            email := Some (su_email c);
                                            role := su_role c;
                                            username := su_username c |};
                            error := None |}
                 end
             end
         end
     end)
    (fun e =>
       emit (ConsoleError "SignUp error:" (Some e)) ;;;
       ret {| user := None; error := Some e |}).

(** The line signIn logs after a failed lookup:
    [`Retry ${6 - retries} failed, waiting before next attempt...`]. *)
Definition retry_line (n : nat) : string :=
  "Retry " ++ NilZero.string_of_uint (Nat.to_uint n)
           ++ " failed, waiting before next attempt...".

(** The [while (retries > 0)] loop of signIn; the body is a [try] whose
    [catch] also counts as a failed attempt.  A step yields [inl data]
    on [break] and [inr userError] otherwise. *)
Fixpoint signIn_profile_loop (u : AuthUser) (retries : nat) (userError : option Err)
  : Async (option ProfileRow * option Err) :=
  match retries with
  | 0 => ret (None, userError)
  | S retries' =>
      step <- try_catch
                (r <- call (users_select_username_role (au_id u)) ;;
                 if no_error_and_data r then ret (inl (pg_data r))
                 else
                   emit (ConsoleLog (retry_line (6 - S retries'))) ;;;
                   emit (Delay 2000) ;;;
                   ret (inr (platform (pg_error r))))
                (fun e => emit (Delay 2000) ;;; ret (inr (Some e))) ;;
      match step with
      | inl userData => ret (userData, userError)
      | inr userError' => signIn_profile_loop u retries' userError'
      end
  end.
Arguments signIn_profile_loop : simpl never.

Definition signIn (c : SignInCredentials) : Async AuthResponse :=
  try_catch
    (r <- call (auth_signInWithPassword (si_email c) (si_password c)) ;;
     match auth_error r with
     | Some signInError => throw (FromPlatform signInError)
     | None =>
         match auth_user r with
         | None => throw (NewError "User not found")
         | Some u =>
             res <- signIn_profile_loop u 5 None ;;
             match fst res with
             | None =>
                 call auth_signOut ;;;
                 throw (or_new_error (snd res) "Failed to load user data")
             | Some userData =>
                 when (pr_role userData =? "doctor")
                   (d <- call rpc_create_doctor_profile ;;
                    match pg_error d with
                    | Some doctorError =>
                        emit (ConsoleError "Doctor profile error:"
                                           (Some (FromPlatform doctorError))) ;;;
                        call auth_signOut ;;;
                        throw (NewError "Failed to verify doctor profile")
                    | None => ret tt
                    end) ;;;
                 ret {| user := Some {| id := au_id u;
                                        email := au_email u;
                                        role := pr_role userData;
                                        username := pr_username userData |};
                        error := None |}
             end
         end
     end)
    (fun e =>
       emit (ConsoleError "SignIn error:" (Some e)) ;;;
       ret {| user := None; error := Some e |}).

Record SignOutResult : Type := { signOut_error : option Err }.

Definition signOut : Async SignOutResult :=
  try_catch
    (r <- call auth_signOut ;;
     match signout_error r with
     | Some e => throw (FromPlatform e)
     | None => ret {| signOut_error := None |}
     end)
    (fun e =>
       emit (ConsoleError "SignOut error:" (Some e)) ;;;
       ret {| signOut_error := Some e |}).

(** The retry loop of getCurrentUser: that of signIn without the log
    line. *)
Fixpoint getCurrentUser_profile_loop (u : AuthUser) (retries : nat)
    (userError : option Err)
  : Async (option ProfileRow * option Err) :=
  match retries with
  | 0 => ret (None, userError)
  | S retries' =>
      step <- try_catch
                (r <- call (users_select_username_role (au_id u)) ;;
                 if no_error_and_data r then ret (inl (pg_data r))
                 else
                   emit (Delay 2000) ;;;
                   ret (inr (platform (pg_error r))))
                (fun e => emit (Delay 2000) ;;; ret (inr (Some e))) ;;
      match step with
      | inl userData => ret (userData, userError)
      | inr userError' => getCurrentUser_profile_loop u retries' userError'
      end
  end.
Arguments getCurrentUser_profile_loop : simpl never.

Definition getCurrentUser : Async AuthResponse :=
  try_catch
    (r <- call auth_getUser ;;
     match auth_user r with
     | None => ret {| user := None; error := None |}
     | Some u =>
         res <- getCurrentUser_profile_loop u 5 None ;;
         match fst res with
         | None => throw (or_new_error (snd res) "User profile not found")
         | Some userData =>
             when (pr_role userData =? "doctor")
               (d <- call rpc_create_doctor_profile ;;
                match pg_error d with
                | Some doctorError =>
                    emit (ConsoleError "Doctor profile error:"
                                       (Some (FromPlatform doctorError))) ;;;
                    throw (NewError "Failed to verify doctor profile")
                | None => ret tt
                end) ;;;
             ret {| user := Some {| id := au_id u;
                                    email := au_email u;
                                    role := pr_role userData;
                                    username := pr_username userData |};
                    error := None |}
         end
     end)
    (fun e =>
       emit (ConsoleError "Get current user error:" (Some e)) ;;;
       ret {| user := None; error := Some e |}).

(* ================================================================== *)
(** ** The route guards of App *)

(** What [getUserDataWithRetry] resolves to: [{ data, error }]. *)
Record UserDataResult : Type :=
  { ud_data : option RoleRow; ud_error : option Err }.

(** The [for (let i = 0; i < maxRetries; i++)] loop of
    getUserDataWithRetry, with [remaining = maxRetries - i].  A step
    yields [Some result] when the body returns and [None] when the loop
    goes on. *)
Fixpoint getUserData_loop (userId : string) (maxRetries delayMs : nat)
    (remaining i : nat) : Async UserDataResult :=
  match remaining with
  | 0 =>
      ret {| ud_data := None;
             ud_error := Some (NewError "Failed to get user data after retries") |}
  | S remaining' =>
      step <- try_catch
                (r <- call (users_select_role userId) ;;
                 if no_error_and_data r
                 then ret (Some {| ud_data := pg_data r; ud_error := None |})
                 else
                   when (i <? maxRetries - 1)%nat (emit (Delay delayMs)) ;;;
                   ret None)
                (fun e =>
                   if (i =? maxRetries - 1)%nat
                   then ret (Some {| ud_data := None; ud_error := Some e |})
                   else emit (Delay delayMs) ;;; ret None) ;;
      match step with
      | Some result => ret result
      | None => getUserData_loop userId maxRetries delayMs remaining' (S i)
      end
  end.
Arguments getUserData_loop : simpl never.

(** Called with its defaults only: [maxRetries = 5], [delayMs = 1000]. *)
Definition getUserDataWithRetry (userId : string) : Async UserDataResult :=
  getUserData_loop userId 5 1000 5 0.

(** [allowedRoles.includes(role)]. *)
Definition includes (allowedRoles : list string) (r : string) : bool :=
  existsb (String.eqb r) allowedRoles.

Definition access_denied_message (r : string) : string :=
  "Access denied. Your role (" ++ r
    ++ ") does not have permission to access this area.".
Arguments access_denied_message : simpl never.

(** The doctor block of ProtectedRoute's checkAuth; [false] stands for
    its early [return]. *)
Definition ProtectedRoute_verify_doctor (userId : string) : Async bool :=
  d <- call (doctors_select_id userId) ;;
  if negb (no_error_and_data d)   (* doctorError || !doctorData *)
  then
    c <- call rpc_create_doctor_profile ;;
    match pg_error c with
    | Some createError =>
        emit (ConsoleError "Doctor profile creation failed:"
                           (Some (FromPlatform createError))) ;;;
        call auth_signOut ;;;
        emit (SetIsAuthenticated false) ;;;
        emit (SetUserRole None) ;;;
        emit (ToastError
                "Failed to create doctor profile. Please contact your administrator.") ;;;
        ret false
    | None => ret true
    end
  else ret true.

(** [checkAuth] of ProtectedRoute's effect. *)
Definition ProtectedRoute_checkAuth (allowedRoles : list string) : Async unit :=
  try_catch
    (s <- call auth_getSession ;;
     match auth_session s with
     | None =>
         emit (SetIsAuthenticated false) ;;;
         emit (SetUserRole None)
     | Some session =>
         res <- getUserDataWithRetry (au_id (session_user session)) ;;
         match ud_error res, ud_data res with
         | None, Some userData =>
             go_on <- (if rr_role userData =? "doctor"
                       then ProtectedRoute_verify_doctor (au_id (session_user session))
                       else ret true) ;;
             if go_on then
               emit (SetIsAuthenticated true) ;;;
               emit (SetUserRole (Some (rr_role userData))) ;;;
               when (negb (includes allowedRoles (rr_role userData)))
                 (emit (ToastError (access_denied_message (rr_role userData))) ;;;
                  call auth_signOut ;;;
                  emit (SetIsAuthenticated false) ;;;
                  emit (SetUserRole None))
             else ret tt
         | _, _ =>
             emit (ConsoleError "Failed to get user data:" (ud_error res)) ;;;
             call auth_signOut ;;;
             emit (SetIsAuthenticated false) ;;;
             emit (SetUserRole None) ;;;
             emit (ToastError
                     "Failed to load user data. Please try logging in again.")
         end
     end)
    (fun e =>
       emit (ConsoleError "Auth check error:" (Some e)) ;;;
       emit (SetIsAuthenticated false) ;;;
       emit (SetUserRole None) ;;;
       emit (ToastError "Authentication error. Please try logging in again.")).

(** The component state of a guard: two [useState] cells, both [null] at
    first. *)
Record GuardState : Type :=
  { isAuthenticated : option bool; userRole : option string }.

Definition initial_state : GuardState :=
  {| isAuthenticated := None; userRole := None |}.

Definition apply_event (st : GuardState) (e : Event) : GuardState :=
  match e with
  | EvOut (SetIsAuthenticated b) =>
      {| isAuthenticated := Some b; userRole := userRole st |}
  | EvOut (SetUserRole r) =>
      {| isAuthenticated := isAuthenticated st; userRole := r |}
  | _ => st
  end.

(** The component state once the setters of a trace have been applied. *)
Definition state_after (tr : Trace) : GuardState :=
  fold_left apply_event tr initial_state.

(** What a guard renders. *)
Inductive View : Type :=
| Loading
| Navigate (to : string) (from : string)   (* replace, state = { from } *)
| Children.

Definition ProtectedRoute_render (allowedRoles : list string) (location : string)
    (st : GuardState) : View :=
  match isAuthenticated st, userRole st with
  | None, _ | _, None => Loading
  | Some a, Some r =>
      if negb a || negb (includes allowedRoles r)
      then Navigate "/login" location
      else Children
  end.

(** [checkAuth] of AuthRoute's effect. *)
Definition AuthRoute_checkAuth : Async unit :=
  try_catch
    (s <- call auth_getSession ;;
     match auth_session s with
     | None =>
         emit (SetIsAuthenticated false) ;;;
         emit (SetUserRole None)
     | Some session =>
         res <- getUserDataWithRetry (au_id (session_user session)) ;;
         match ud_error res, ud_data res with
         | None, Some userData =>
             emit (SetIsAuthenticated true) ;;;
             emit (SetUserRole (Some (rr_role userData)))
         | _, _ =>
             emit (SetIsAuthenticated false) ;;;
             emit (SetUserRole None)
         end
     end)
    (fun e =>
       emit (ConsoleError "Auth check error:" (Some e)) ;;;
       emit (SetIsAuthenticated false) ;;;
       emit (SetUserRole None)).

Definition dashboardPath (userRole : option string) : string :=
  match userRole with
  | Some r =>
      if r =? "admin" then "/admin"
      else if r =? "doctor" then "/doctor"
      else if r =? "department" then "/department"
      else "/login"
  | None => "/login"
  end.

Definition AuthRoute_render (location : string) (st : GuardState) : View :=
  match isAuthenticated st with
  | None => Loading
  | Some true => Navigate (dashboardPath (userRole st)) location
  | Some false => Children
  end.

(* ================================================================== *)
(** ** Vocabulary of the properties *)

(* ------------------------------------------------------------------ *)
(** *** Sign-up *)

Definition insert_cmd (c : SignUpCredentials) (u : AuthUser) : Cmd (PgResp UserRow) :=
  users_insert (au_id u) (su_email c) (su_username c) (su_role c).

(** The pre-check of signUp lets the flow through: the query returns and
    carries no row. *)
Definition precheck_clear (w : World) (c : SignUpCredentials) : bool :=
  match w _ (users_select_id_by_email (su_email c)) 0 with
  | Returned r => match pg_data r with None => true | Some _ => false end
  | Threw _ => false
  end.

(** Principal creation succeeds: the flow reaches auth.signUp, which
    returns a user and no error. *)
Definition principal_created (w : World) (c : SignUpCredentials) : option AuthUser :=
  if precheck_clear w c then
    match w _ (auth_signUp (su_email c) (su_password c) (su_role c) (su_username c)) 0 with
    | Returned r => match auth_error r with None => auth_user r | Some _ => None end
    | Threw _ => None
    end
  else None.

(** An attempt of a retry loop of signUp fails: the query returns, with
    an error or without data. *)
Definition attempt_fails {T} (o : Outcome (PgResp T)) : bool :=
  match o with
  | Returned r => negb (no_error_and_data r)
  | Threw _ => false
  end.

Definition attempt_succeeds {T} (o : Outcome (PgResp T)) : bool :=
  match o with
  | Returned r => no_error_and_data r
  | Threw _ => false
  end.

(** The error field of an answer, if it returned one. *)
Definition returned_error {T} (o : Outcome (PgResp T)) : option PlatformError :=
  match o with
  | Returned r => pg_error r
  | Threw _ => None
  end.

Definition returned_data {T} (o : Outcome (PgResp T)) : option T :=
  match o with
  | Returned r => pg_data r
  | Threw _ => None
  end.

(** The world of [w] in which the pre-check of signUp is answered by
    [o]. *)
Definition with_precheck_answer (w : World) (o : Outcome (PgResp IdRow)) : World :=
  fun R c n =>
    match c in Cmd R return Outcome R -> Outcome R with
    | users_select_id_by_email _ =>
        fun d => match n with 0 => o | S _ => d end
    | _ => fun d => d
    end (w R c n).

(** What signUp reports as error in a result. *)
Definition result_error (x : Completion AuthResponse * Trace) : option Err :=
  match fst x with
  | Normal r => error r
  | Abrupt _ => None
  end.

(* ------------------------------------------------------------------ *)
(** *** Profile lookups, sign-in and session restore *)

(** A lookup attempt of signIn, getCurrentUser or getUserDataWithRetry
    fails: the query raises, or returns with an error or without data. *)
Definition lookup_fails {T} (o : Outcome (PgResp T)) : bool :=
  match o with
  | Returned r => negb (no_error_and_data r)
  | Threw _ => true
  end.

(** The [userError] a failed lookup attempt leaves: the returned error
    (possibly none) or the caught exception. *)
Definition failure_error {T} (o : Outcome (PgResp T)) : option Err :=
  match o with
  | Returned r => platform (pg_error r)
  | Threw e => Some (FromPlatform e)
  end.

(** The lookup answers [answers 0], [answers 1], ... fail up to attempt
    [k] (counted from 0), which succeeds with [row]. *)
Definition first_success {T} (answers : nat -> Outcome (PgResp T)) (k : nat)
    (row : T) : Prop :=
  (forall i, i < k -> lookup_fails (answers i) = true)
  /\ attempt_succeeds (answers k) = true
  /\ returned_data (answers k) = Some row.

(** auth.signInWithPassword returns a user and no error. *)
Definition signed_in (w : World) (c : SignInCredentials) : option AuthUser :=
  match w _ (auth_signInWithPassword (si_email c) (si_password c)) 0 with
  | Returned r => match auth_error r with None => auth_user r | Some _ => None end
  | Threw _ => None
  end.

(** auth.getUser returns a user. *)
Definition current_user (w : World) : option AuthUser :=
  match w _ auth_getUser 0 with
  | Returned r => auth_user r
  | Threw _ => None
  end.

(** auth.getUser returns and reports no user. *)
Definition no_current_user (w : World) : bool :=
  match w _ auth_getUser 0 with
  | Returned r => match auth_user r with None => true | Some _ => false end
  | Threw _ => false
  end.

(** A call reports failure: it returns with an error. *)
Definition reports_error {T} (o : Outcome (PgResp T)) : bool :=
  match o with
  | Returned r => match pg_error r with Some _ => true | None => false end
  | Threw _ => false
  end.

(** The error with which signIn ends once it has decided to fail with
    [e] after signing out: the exception of the sign-out call if that
    call raises, [e] otherwise. *)
Definition after_sign_out (o : Outcome SignOutResp) (e : Err) : Err :=
  match o with
  | Threw x => FromPlatform x
  | Returned _ => e
  end.

(** The sign-out call returns and reports no error. *)
Definition sign_out_succeeds (o : Outcome SignOutResp) : bool :=
  match o with
  | Returned r => match signout_error r with None => true | Some _ => false end
  | Threw _ => false
  end.

(* ------------------------------------------------------------------ *)
(** *** The session store *)

(** The session store belongs to the platform, not to the repository.
    The properties about the current session read its contract in the
    smallest way: a password sign-in that returns a user and no error
    installs that user as the current session; a sign-out that returns
    no error clears it; nothing else the modelled code calls changes
    it. *)
Definition session_step (s : option AuthUser) (e : Event) : option AuthUser :=
  match e with
  | EvCall c o =>
      match c in Cmd R return Outcome R -> option AuthUser with
      | auth_signInWithPassword _ _ =>
          fun o => match o with
                   | Returned r =>
                       match auth_error r, auth_user r with
                       | None, Some u => Some u
                       | _, _ => s
                       end
                   | Threw _ => s
                   end
      | auth_signOut =>
          fun o => match o with
                   | Returned r =>
                       match signout_error r with
                       | None => None
                       | Some _ => s
                       end
                   | Threw _ => s
                   end
      | _ => fun _ => s
      end o
  | EvOut _ => s
  end.

Definition session_after (s : option AuthUser) (tr : Trace) : option AuthUser :=
  fold_left session_step tr s.

(* ------------------------------------------------------------------ *)
(** *** Results and the ways a flow can end *)

(** The two shapes of a result-with-error value: a user and no error, or
    no user and an error. *)
Definition user_xor_error (r : AuthResponse) : Prop :=
  (exists u, user r = Some u /\ error r = None)
  \/ (user r = None /\ exists e, error r = Some e).

(** Every way a tree can end: each returned value satisfies [P], each
    thrown error satisfies [Q]. *)
Fixpoint leaves {A} (P : A -> Prop) (Q : Err -> Prop) (p : Async A) : Prop :=
  match p with
  | Ret a => P a
  | Throw e => Q e
  | Call c k => forall o, leaves P Q (k o)
  | Emit _ k => leaves P Q k
  end.

(* ------------------------------------------------------------------ *)
(** *** Events of a retry loop *)

(** What a retry loop on operation [op] leaves in the trace: calls of
    [op], waits and log lines. *)
Definition retry_event (op : Op) (e : Event) : bool :=
  match e with
  | EvCall c _ => Op_eqb (op_of c) op
  | EvOut (Delay _) | EvOut (ConsoleLog _) => true
  | EvOut _ => false
  end.

Definition retry_events (op : Op) (evs : Trace) : Prop :=
  forallb (retry_event op) evs = true.

(* ------------------------------------------------------------------ *)
(** *** States and views of a guard *)

(** The component states a guard goes through along a trace, the first
    one included: the state after each prefix of the trace.  React
    renders the component in some of these states (those held when the
    effect yields), so what holds of all of them holds of every
    render. *)
Fixpoint states_from (st : GuardState) (tr : Trace) : list GuardState :=
  match tr with
  | [] => [st]
  | e :: tr' => st :: states_from (apply_event st e) tr'
  end.

Definition states_along (tr : Trace) : list GuardState :=
  states_from initial_state tr.

(** The component state a guard holds when it issues its first call of
    [op]. *)
Fixpoint state_at_call_from (op : Op) (st : GuardState) (tr : Trace)
  : option GuardState :=
  match tr with
  | [] => None
  | e :: tr' =>
      if is_call_of op e then Some st
      else state_at_call_from op (apply_event st e) tr'
  end.

Definition state_at_call (op : Op) (tr : Trace) : option GuardState :=
  state_at_call_from op initial_state tr.

(** The first thing a guard shows once it shows anything but the
    loading placeholder: with a redirect the router leaves the route and
    unmounts the guard, with the children the page is on screen. *)
Definition settled (v : View) : bool :=
  match v with
  | Loading => false
  | Navigate _ _ | Children => true
  end.

Definition first_settled_view (render : GuardState -> View) (tr : Trace)
  : option View :=
  find settled (map render (states_along tr)).

(** auth.getSession returns a session. *)
Definition active_session (w : World) : option Session :=
  match w _ auth_getSession 0 with
  | Returned s => auth_session s
  | Threw _ => None
  end.

(** The doctor step of the Session Resolution Flow, as ProtectedRoute
    runs it, lets the guard go on: the role is not doctor, or a doctor
    record is found, or create_doctor_profile returns no error. *)
Definition doctor_verified (w : World) (userId r : string) : bool :=
  if r =? "doctor" then
    match w _ (doctors_select_id userId) 0 with
    | Returned d =>
        if no_error_and_data d then true
        else
          match w _ rpc_create_doctor_profile 0 with
          | Returned c =>
              match pg_error c with None => true | Some _ => false end
          | Threw _ => false
          end
    | Threw _ => false
    end
  else true.

(* ------------------------------------------------------------------ *)
(** *** Concrete worlds *)

Definition alice : SignUpCredentials :=
  {| su_email := "a@x.com"; su_password := "secret1";
     su_role := "admin"; su_username := "alice" |}.

Definition alice_login : SignInCredentials :=
  {| si_email := "a@x.com"; si_password := "secret1" |}.

Definition alice_principal : AuthUser :=
  {| au_id := "p-1"; au_email := Some "a@x.com" |}.

Definition alice_row : UserRow :=
  {| ur_id := "p-1"; ur_email := "a@x.com"; ur_username := "alice"; ur_role := "admin" |}.

Definition unscripted {R} : Outcome R := Threw {| perr_message := "unscripted" |}.

Definition no_row {T} : Outcome (PgResp T) :=
  Returned {| pg_data := None; pg_error := None |}.

Definition query_error {T} (m : string) : Outcome (PgResp T) :=
  Returned {| pg_data := None; pg_error := Some {| perr_message := m |} |}.

Definition one_row {T} (row : T) : Outcome (PgResp T) :=
  Returned {| pg_data := Some row; pg_error := None |}.

Definition principal (u : AuthUser) : Outcome AuthUserResp :=
  Returned {| auth_user := Some u; auth_error := None |}.

Definition signed_out_ok : Outcome SignOutResp :=
  Returned {| signout_error := None |}.

Definition alice_session : Outcome SessionResp :=
  Returned {| auth_session := Some {| session_user := alice_principal |};
              session_error := None |}.

(** The email is free, the Principal is created, two inserts report an
    error and the third comes back with neither a row nor an error; the
    delete goes through. *)
Definition world_insert_never_lands : World :=
  fun R c n =>
    match c in Cmd R return Outcome R with
    | users_select_id_by_email _ => no_row
    | auth_signUp _ _ _ _ => principal alice_principal
    | users_insert _ _ _ _ =>
        match n with
        | 0 => query_error "timeout 1"
        | 1 => query_error "timeout 2"
        | _ => no_row
        end
    | auth_admin_deleteUser _ =>
        Returned {| auth_user := None; auth_error := None |}
    | _ => unscripted
    end.

(** As above, but every insert reports an error and the delete raises. *)
Definition world_delete_raises : World :=
  fun R c n =>
    match c in Cmd R return Outcome R with
    | users_select_id_by_email _ => no_row
    | auth_signUp _ _ _ _ => principal alice_principal
    | users_insert _ _ _ _ => query_error "duplicate key"
    | auth_admin_deleteUser _ => Threw {| perr_message := "network down" |}
    | _ => unscripted
    end.

(** Two inserts report an error and the third one raises. *)
Definition world_insert_raises : World :=
  fun R c n =>
    match c in Cmd R return Outcome R with
    | users_select_id_by_email _ => no_row
    | auth_signUp _ _ _ _ => principal alice_principal
    | users_insert _ _ _ _ =>
        match n with
        | 0 => query_error "timeout 1"
        | 1 => query_error "timeout 2"
        | _ => Threw {| perr_message := "fetch failed" |}
        end
    | _ => unscripted
    end.

(** The email is free and the insert lands at once. *)
Definition world_insert_first_try : World :=
  fun R c n =>
    match c in Cmd R return Outcome R with
    | users_select_id_by_email _ => no_row
    | auth_signUp _ _ _ _ => principal alice_principal
    | users_insert _ _ _ _ => one_row alice_row
    | _ => unscripted
    end.

(** The email is free; the insert lands on the second attempt. *)
Definition world_insert_second_try : World :=
  fun R c n =>
    match c in Cmd R return Outcome R with
    | users_select_id_by_email _ => no_row
    | auth_signUp _ _ _ _ => principal alice_principal
    | users_insert _ _ _ _ =>
        match n with
        | 0 => query_error "not yet"
        | _ => one_row alice_row
        end
    | _ => unscripted
    end.

(** A Profile with the email exists. *)
Definition world_email_taken : World :=
  fun R c n =>
    match c in Cmd R return Outcome R with
    | users_select_id_by_email _ => one_row {| row_id := "p-0" |}
    | _ => unscripted
    end.

(** The pre-check query reports an error; everything after it works. *)
Definition world_precheck_errors : World :=
  fun R c n =>
    match c in Cmd R return Outcome R with
    | users_select_id_by_email _ => query_error "permission denied"
    | auth_signUp _ _ _ _ => principal alice_principal
    | users_insert _ _ _ _ => one_row alice_row
    | _ => unscripted
    end.

(** The Principal authenticates and has a session, but no Profile row is
    ever visible; signing out works. *)
Definition world_profile_missing : World :=
  fun R c n =>
    match c in Cmd R return Outcome R with
    | auth_signInWithPassword _ _ => principal alice_principal
    | auth_getUser => principal alice_principal
    | users_select_username_role _ => no_row
    | auth_signOut => signed_out_ok
    | _ => unscripted
    end.

(** The Principal is a doctor whose Profile shows up on the second
    lookup; the ensure-doctor-record procedure reports an error. *)
Definition world_doctor_bootstrap_fails : World :=
  fun R c n =>
    match c in Cmd R return Outcome R with
    | auth_signInWithPassword _ _ => principal alice_principal
    | auth_getUser => principal alice_principal
    | users_select_username_role _ =>
        match n with
        | 0 => no_row
        | _ => one_row {| pr_username := "alice"; pr_role := "doctor" |}
        end
    | rpc_create_doctor_profile => query_error "no department"
    | auth_signOut => signed_out_ok
    | _ => unscripted
    end.

(** The session store reports no current user. *)
Definition world_no_session : World :=
  fun R c n =>
    match c in Cmd R return Outcome R with
    | auth_getUser =>
        Returned {| auth_user := None;
                    auth_error := Some {| perr_message := "Auth session missing!" |} |}
    | auth_getSession =>
        Returned {| auth_session := None; session_error := None |}
    | _ => unscripted
    end.

(** A session is active; the role row shows up on the second lookup and
    says [registration]; signing out works. *)
Definition world_registration_clerk : World :=
  fun R c n =>
    match c in Cmd R return Outcome R with
    | auth_getSession => alice_session
    | users_select_role _ =>
        match n with
        | 0 => no_row
        | _ => one_row {| rr_role := "registration" |}
        end
    | auth_signOut => signed_out_ok
    | _ => unscripted
    end.

(** A session is active and the role row says [department]. *)
Definition world_department_user : World :=
  fun R c n =>
    match c in Cmd R return Outcome R with
    | auth_getSession => alice_session
    | users_select_role _ => one_row {| rr_role := "department" |}
    | _ => unscripted
    end.

(* ================================================================== *)
(** ** The auth-state callback of ProtectedRoute *)

(** The callback ProtectedRoute's effect registers with
    [auth.onAuthStateChange].  On [SIGNED_IN] with a session it repeats
    what checkAuth does once it holds a session; on [SIGNED_OUT] it
    clears the component state.  Its body has no [try]: what an awaited
    call raises rejects the callback. *)
Definition ProtectedRoute_onAuthStateChange (allowedRoles : list string)
    (event : string) (session : option Session) : Async unit :=
  match (event =? "SIGNED_IN"), session with
  | true, Some session =>
      res <- getUserDataWithRetry (au_id (session_user session)) ;;
      match ud_error res, ud_data res with
      | None, Some userData =>
          go_on <- (if rr_role userData =? "doctor"
                    then ProtectedRoute_verify_doctor (au_id (session_user session))
                    else ret true) ;;
          if go_on then
            emit (SetIsAuthenticated true) ;;;
            emit (SetUserRole (Some (rr_role userData))) ;;;
            when (negb (includes allowedRoles (rr_role userData)))
              (emit (ToastError (access_denied_message (rr_role userData))) ;;;
               call auth_signOut ;;;
               emit (SetIsAuthenticated false) ;;;
               emit (SetUserRole None))
          else ret tt
      | _, _ =>
          emit (ConsoleError "Failed to get user data:" (ud_error res)) ;;;
          call auth_signOut ;;;
          emit (SetIsAuthenticated false) ;;;
          emit (SetUserRole None) ;;;
          emit (ToastError
                  "Failed to load user data. Please try logging in again.")
      end
  | _, _ =>
      if event =? "SIGNED_OUT"
      then emit (SetIsAuthenticated false) ;;; emit (SetUserRole None)
      else ret tt
  end.

(* ================================================================== *)
(** ** Vocabulary of the properties that hold in every world *)

(** Every run of a tree at once: [P evs x] holds of the events [evs] a
    run adds to the trace and of the way [x] it completes, whatever the
    platform answers to each call. *)
Fixpoint always {A} (P : Trace -> Completion A -> Prop) (p : Async A) : Prop :=
  match p with
  | Ret a => P [] (Normal a)
  | Throw e => P [] (Abrupt e)
  | Call c k => forall o, always (fun evs x => P (EvCall c o :: evs) x) (k o)
  | Emit o k => always (fun evs x => P (EvOut o :: evs) x) k
  end.

(** The time a trace spends in [setTimeout] waits, in milliseconds. *)
Definition wait_of (e : Event) : nat :=
  match e with
  | EvOut (Delay ms) => ms
  | _ => 0
  end.

Definition total_wait (tr : Trace) : nat := list_sum (map wait_of tr).

(** The error toasts of a trace, in order. *)
Definition toasts (tr : Trace) : list string :=
  flat_map (fun e => match e with
                     | EvOut (ToastError m) => [m]
                     | _ => []
                     end) tr.

(** Whether an event is a call. *)
Definition is_call (e : Event) : bool :=
  match e with
  | EvCall _ _ => true
  | EvOut _ => false
  end.

(** The last event of a trace is a call: nothing was done, and no wait
    spent, after its answer came. *)
Definition ends_with_call (tr : Trace) : bool :=
  match rev tr with
  | e :: _ => is_call e
  | [] => false
  end.

(** The two shapes of what getUserDataWithRetry resolves to. *)
Definition data_xor_error (res : UserDataResult) : Prop :=
  (exists row, ud_data res = Some row /\ ud_error res = None)
  \/ (ud_data res = None /\ exists e, ud_error res = Some e).

(** What getUserDataWithRetry reports when its last attempt has failed:
    the exception of that attempt if it raised, a generic error if it
    returned. *)
Definition exhausted_error (o : Outcome (PgResp RoleRow)) : Err :=
  match o with
  | Threw e => FromPlatform e
  | Returned _ => NewError "Failed to get user data after retries"
  end.

(** Whether a guard state is one in which ProtectedRoute lets the
    user in: authenticated, with a role in the allow-list. *)
Definition let_in (allowedRoles : list string) (st : GuardState) : Prop :=
  exists r,
    st = {| isAuthenticated := Some true; userRole := Some r |}
    /\ includes allowedRoles r = true.

Definition signed_off : GuardState :=
  {| isAuthenticated := Some false; userRole := None |}.

(** What getUserDataWithRetry resolves to when the attempt answered by
    [o] is its last one. *)
Definition result_of_attempt (o : Outcome (PgResp RoleRow)) : UserDataResult :=
  if attempt_succeeds o
  then {| ud_data := returned_data o; ud_error := None |}
  else {| ud_data := None; ud_error := Some (exhausted_error o) |}.

(** The answer an event records, when it is a call of the role lookup
    for [userId]. *)
Definition role_lookup_answer (userId : string) (e : Event)
  : option (Outcome (PgResp RoleRow)) :=
  match e with
  | EvCall c o =>
      match c in Cmd R return Outcome R -> option (Outcome (PgResp RoleRow)) with
      | users_select_role uid => fun o => if uid =? userId then Some o else None
      | _ => fun _ => None
      end o
  | EvOut _ => None
  end.

(** The answers of the role lookups of a trace, in order. *)
Definition role_lookup_answers (userId : string) (tr : Trace)
  : list (Outcome (PgResp RoleRow)) :=
  flat_map (fun e => match role_lookup_answer userId e with
                     | Some o => [o]
                     | None => []
                     end) tr.

(** The events [evs], added to the trace [tr], record the answers of
    the world [w]. *)
Fixpoint answered (w : World) (tr evs : Trace) : Prop :=
  match evs with
  | [] => True
  | e :: evs' =>
      match e with
      | EvCall c o => o = w _ c (count_op (op_of c) tr)
      | EvOut _ => True
      end
      /\ answered w (tr ++ [e]) evs'
  end.

(** What a run of the loop of getUserDataWithRetry looks like, with
    [remaining] rounds left: the lookups made but the last one failed;
    the result is that of the last one, which is a failure only if no
    round is left; a wait follows each lookup but the last. *)
Definition lookup_run (userId : string) (delayMs remaining : nat)
    (evs : Trace) (x : Completion UserDataResult) : Prop :=
  exists answers o,
    x = Normal (result_of_attempt o)
    /\ retry_events op_users_select_role evs
    /\ role_lookup_answers userId evs = answers ++ [o]
    /\ count_op op_users_select_role evs = S (length answers)
    /\ S (length answers) <= remaining
    /\ Forall (fun a => lookup_fails a = true) answers
    /\ (lookup_fails o = true -> S (length answers) = remaining)
    /\ total_wait evs = length answers * delayMs
    /\ ends_with_call evs = true.

(** What a run of the lookup loop of signIn or getCurrentUser looks
    like, started with [n] retries: lookups, log lines and waits only, at
    most [n] lookups, a wait of 2000 ms after each failed lookup (the
    last one included); it ends with the row of a successful lookup,
    straight after its answer, or without a row once [n] lookups have
    failed. *)
Definition profile_run (n : nat) (evs : Trace)
    (x : Completion (option ProfileRow * option Err)) : Prop :=
  exists res,
    x = Normal res
    /\ retry_events op_users_select_username_role evs
    /\ count_op op_users_select_username_role evs <= n
    /\ match fst res with
       | Some _ =>
           1 <= count_op op_users_select_username_role evs
           /\ total_wait evs
              = (count_op op_users_select_username_role evs - 1) * 2000
           /\ ends_with_call evs = true
       | None =>
           count_op op_users_select_username_role evs = n
           /\ total_wait evs = n * 2000
       end.

(** What a run of the insert loop of signUp looks like, started with
    [n] retries: inserts and waits only, at most [n] inserts, a wait of
    2000 ms between two inserts and none after the last.  It ends with
    the row of a successful insert or with the exception of an insert
    that raised, straight after that answer, or without a row once [n]
    inserts have failed. *)
Definition insert_run (n : nat) (evs : Trace)
    (x : Completion (option UserRow * option PlatformError)) : Prop :=
  retry_events op_users_insert evs
  /\ count_op op_users_insert evs <= n
  /\ total_wait evs = (count_op op_users_insert evs - 1) * 2000
  /\ match x with
     | Normal (Some _, _) | Abrupt _ =>
         1 <= count_op op_users_insert evs /\ ends_with_call evs = true
     | Normal (None, _) => count_op op_users_insert evs = n
     end.

(* ------------------------------------------------------------------ *)
(** *** More concrete worlds *)

(** A session is active, but the role lookup reports an error four
    times and then comes back without a row; signing out works. *)
Definition world_role_lookup_fails : World :=
  fun R c n =>
    match c in Cmd R return Outcome R with
    | auth_getSession => alice_session
    | users_select_role _ =>
        match n with
        | 0 | 1 | 2 | 3 => query_error "timeout"
        | _ => no_row
        end
    | auth_signOut => signed_out_ok
    | _ => unscripted
    end.

(** The email is free, but the platform refuses to create the
    Principal. *)
Definition world_signup_rejected : World :=
  fun R c n =>
    match c in Cmd R return Outcome R with
    | users_select_id_by_email _ => no_row
    | auth_signUp _ _ _ _ =>
        Returned {| auth_user := None;
                    auth_error := Some {| perr_message := "Signups not allowed" |} |}
    | _ => unscripted
    end.

(** The platform rejects the credentials. *)
Definition world_wrong_password : World :=
  fun R c n =>
    match c in Cmd R return Outcome R with
    | auth_signInWithPassword _ _ =>
        Returned {| auth_user := None;
                    auth_error :=
                      Some {| perr_message := "Invalid login credentials" |} |}
    | _ => unscripted
    end.

(** The Principal authenticates and has a session; the Profile row, of
    an admin, shows up on the second lookup. *)
Definition world_admin_signs_in : World :=
  fun R c n =>
    match c in Cmd R return Outcome R with
    | auth_signInWithPassword _ _ => principal alice_principal
    | auth_getUser => principal alice_principal
    | users_select_username_role _ =>
        match n with
        | 0 => no_row
        | _ => one_row {| pr_username := "alice"; pr_role := "admin" |}
        end
    | _ => unscripted
    end.

(** The Principal is a doctor whose Profile is there at once; the call
    of the ensure-doctor-record procedure raises. *)
Definition world_doctor_rpc_raises : World :=
  fun R c n =>
    match c in Cmd R return Outcome R with
    | auth_signInWithPassword _ _ => principal alice_principal
    | auth_getUser => principal alice_principal
    | users_select_username_role _ =>
        one_row {| pr_username := "alice"; pr_role := "doctor" |}
    | rpc_create_doctor_profile => Threw {| perr_message := "fetch failed" |}
    | auth_signOut => signed_out_ok
    | _ => unscripted
    end.

(** A session is active, the role row says [doctor] and the doctor
    record is there. *)
Definition world_doctor_with_record : World :=
  fun R c n =>
    match c in Cmd R return Outcome R with
    | auth_getSession => alice_session
    | users_select_role _ => one_row {| rr_role := "doctor" |}
    | doctors_select_id _ => one_row {| row_id := "d-1" |}
    | _ => unscripted
    end.

(** As above, but there is no doctor record and the procedure that
    should create it reports an error; signing out works. *)
Definition world_doctor_without_record : World :=
  fun R c n =>
    match c in Cmd R return Outcome R with
    | auth_getSession => alice_session
    | users_select_role _ => one_row {| rr_role := "doctor" |}
    | doctors_select_id _ => no_row
    | rpc_create_doctor_profile => query_error "no department"
    | auth_signOut => signed_out_ok
    | _ => unscripted
    end.

(** The call of auth.getUser fails for want of a network, and says so
    in the error of its answer. *)
Definition world_getUser_fails : World :=
  fun R c n =>
    match c in Cmd R return Outcome R with
    | auth_getUser =>
        Returned {| auth_user := None;
                    auth_error := Some {| perr_message := "Failed to fetch" |} |}
    | _ => unscripted
    end.

(** The registration clerk of [world_registration_clerk], but the
    sign-out call comes back with an error. *)
Definition world_sign_out_refused : World :=
  fun R c n =>
    match c in Cmd R return Outcome R with
    | auth_getSession => alice_session
    | users_select_role _ =>
        match n with
        | 0 => no_row
        | _ => one_row {| rr_role := "registration" |}
        end
    | auth_signOut =>
        Returned {| signout_error := Some {| perr_message := "Failed to fetch" |} |}
    | _ => unscripted
    end.

(* ================================================================== *)
(** ** testService.updateTestType and the form of TestManagement *)

(** An entry of [UpdateTestTypeDTO.subtypes] and of the form's
    [formData.subtypes]: [{ id?: string; name: string }]. *)
Record SubtypeEntry : Type := { entry_id : option string; entry_name : string }.

(** A subtype with the fields the modelled code reads: [id] and
    [name] of a row of [test_subtypes] (updateTestType selects
    ['id, name']; the form reads [s.id] and [s.name]). *)
Record SubtypeRow : Type := { subtype_id : string; subtype_name : string }.

(** Truthiness of [s.id]: [undefined] and the empty string are falsy. *)
Definition truthy (id : option string) : bool :=
  match id with
  | Some s => negb (s =? "")
  | None => false
  end.

(** [ns.id === s.id], the left id being optional. *)
Definition same_id (a : option string) (b : string) : bool :=
  match a with
  | Some s => s =? b
  | None => false
  end.

(** [data.subtypes.filter(s => !s.id)]. *)
Definition newSubtypes (subtypes : list SubtypeEntry) : list SubtypeEntry :=
  filter (fun s => negb (truthy (entry_id s))) subtypes.

(** [data.subtypes.filter(s => s.id)]. *)
Definition updateSubtypes (subtypes : list SubtypeEntry) : list SubtypeEntry :=
  filter (fun s => truthy (entry_id s)) subtypes.

(** [existingSubtypes
       .filter(s => !data.subtypes.some(ns => ns.id === s.id))
       .map(s => s.id)]. *)
Definition deleteIds (existingSubtypes : list SubtypeRow)
    (subtypes : list SubtypeEntry) : list string :=
  map subtype_id
    (filter (fun s =>
               negb (existsb (fun ns => same_id (entry_id ns) (subtype_id s))
                       subtypes))
       existingSubtypes).

(** The elements of an array with their indices, as the callbacks of
    [filter((_, i) => ...)] and [map((x, i) => ...)] receive them. *)
Definition indexed {A} (l : list A) : list (nat * A) :=
  combine (seq 0 (length l)) l.

(** The subtypes of the form once the effect on [editingTest] has run:
    [editingTest.subtypes?.map(s => ({ id: s.id, name: s.name }))
       || [{ id: undefined, name: '' }]]. *)
Definition edit_form_subtypes (subtypes : option (list SubtypeRow))
  : list SubtypeEntry :=
  match subtypes with
  | Some l =>
      map (fun s => {| entry_id := Some (subtype_id s);
                       entry_name := subtype_name s |}) l
  | None => [{| entry_id := None; entry_name := "" |}]
  end.


(** [handleRemoveSubtype(index)]:
    [prev.subtypes.filter((_, i) => i !== index)]. *)
Definition handleRemoveSubtype (index : nat) (subtypes : list SubtypeEntry)
  : list SubtypeEntry :=
  map snd (filter (fun p => negb (fst p =? index)%nat) (indexed subtypes)).

(** [handleSubtypeChange(index, value)]:
    [prev.subtypes.map((subtype, i) =>
       i === index ? { ...subtype, name: value } : subtype)]. *)
Definition handleSubtypeChange (index : nat) (value : string)
    (subtypes : list SubtypeEntry) : list SubtypeEntry :=
  map (fun p =>
         if (fst p =? index)%nat
         then {| entry_id := entry_id (snd p); entry_name := value |}
         else snd p)
    (indexed subtypes).

(** The subtypes handleSubmit passes to updateTestType:
    [formData.subtypes.filter(s => s.name.trim() !== '')].  [trim] is
    the string's own method and stays a parameter. *)
Definition handleSubmit_subtypes (trim : string -> string)
    (subtypes : list SubtypeEntry) : list SubtypeEntry :=
  filter (fun s => negb (trim (entry_name s) =? "")) subtypes.

(** A subtype row the form can hold and send back: its id is not the
    empty string and its name is not blank. *)
Definition well_formed_row (trim : string -> string) (s : SubtypeRow) : Prop :=
  subtype_id s <> "" /\ trim (subtype_name s) <> "".

(** Three subtypes of a test type, for the examples. *)
Definition cbc_subtypes : list SubtypeRow :=
  [{| subtype_id := "s-1"; subtype_name := "Hemoglobin" |};
   {| subtype_id := "s-2"; subtype_name := "Platelets" |};
   {| subtype_id := "s-3"; subtype_name := "WBC" |}].

(* ================================================================== *)
(** ** Facts about traces *)

Lemma count_op_app op (a b : Trace) :
  count_op op (a ++ b) = count_op op a + count_op op b.
Proof. unfold count_op. rewrite filter_app, length_app. reflexivity. Qed.

Lemma count_op_cons op (e : Event) (tr : Trace) :
  count_op op (e :: tr) = (if is_call_of op e then 1 else 0) + count_op op tr.
Proof. unfold count_op. simpl. destruct (is_call_of op e); reflexivity. Qed.

Lemma count_op_nil op : count_op op [] = 0.
Proof. reflexivity. Qed.

Lemma ops_called_app (a b : Trace) :
  ops_called (a ++ b) = ops_called a ++ ops_called b.
Proof. unfold ops_called. apply flat_map_app. Qed.

Lemma Op_eqb_refl op : Op_eqb op op = true.
Proof. destruct op; reflexivity. Qed.

Lemma Op_eqb_eq a b : Op_eqb a b = true -> a = b.
Proof. destruct a, b; simpl; intros H; try reflexivity; discriminate. Qed.

(* ================================================================== *)
(** ** Running a tree step by step *)

Section Steps.
Variable w : World.

Lemma run_bind {A B} (m : Async A) (f : A -> Async B) tr :
  run w (bind m f) tr
  = match run w m tr with
    | (Normal a, tr') => run w (f a) tr'
    | (Abrupt e, tr') => (Abrupt e, tr')
    end.
Proof.
  revert tr. induction m as [a|e|R c k IH|o k IH]; intros tr; simpl; auto.
Qed.

Lemma run_try_catch {A} (body : Async A) (h : Err -> Async A) tr :
  run w (try_catch body h) tr
  = match run w body tr with
    | (Normal a, tr') => (Normal a, tr')
    | (Abrupt e, tr') => run w (h e) tr'
    end.
Proof.
  revert tr. induction body as [a|e|R c k IH|o k IH]; intros tr; simpl; auto.
Qed.

Lemma run_bind_call_returned {R B} (c : Cmd R) (k : R -> Async B) {r : R} tr :
  w R c (count_op (op_of c) tr) = Returned r ->
  run w (bind (call c) k) tr = run w (k r) (tr ++ [EvCall c (Returned r)]).
Proof. intros H. simpl. rewrite H. reflexivity. Qed.

End Steps.

(** Two worlds that agree on every call still to come drive a tree the
    same way: same completion, same events added. *)
Lemma run_frame {A} (p : Async A) (w w' : World) tr tr' :
  (forall op, count_op op tr = count_op op tr') ->
  (forall R (c : Cmd R) n, count_op (op_of c) tr <= n -> w R c n = w' R c n) ->
  exists x evs,
    run w p tr = (x, tr ++ evs) /\ run w' p tr' = (x, tr' ++ evs).
Proof.
  revert tr tr'.
  induction p as [a|e|R c k IH|o k IH]; intros tr tr' Hcount Hagree; simpl.
  - exists (Normal a), []. rewrite !app_nil_r. auto.
  - exists (Abrupt e), []. rewrite !app_nil_r. auto.
  - rewrite <- (Hcount (op_of c)).
    rewrite <- (Hagree R c (count_op (op_of c) tr) (le_n _)).
    set (o := w R c (count_op (op_of c) tr)).
    destruct (IH o (tr ++ [EvCall c o]) (tr' ++ [EvCall c o])) as (x & evs & H1 & H2).
    + intros op. rewrite !count_op_app, Hcount. reflexivity.
    + intros R' c' n Hn. apply Hagree. rewrite count_op_app in Hn. lia.
    + exists x, (EvCall c o :: evs). rewrite H1, H2, <- !app_assoc. auto.
  - destruct (IH (tr ++ [EvOut o]) (tr' ++ [EvOut o])) as (x & evs & H1 & H2).
    + intros op. rewrite !count_op_app, Hcount. reflexivity.
    + intros R' c' n Hn. apply Hagree. rewrite count_op_app in Hn. lia.
    + exists x, (EvOut o :: evs). rewrite H1, H2, <- !app_assoc. auto.
Qed.

Lemma retry_events_app op a b :
  retry_events op a -> retry_events op b -> retry_events op (a ++ b).
Proof. unfold retry_events. rewrite forallb_app. intros -> ->. reflexivity. Qed.

Lemma retry_events_count_other op op' evs :
  retry_events op evs -> Op_eqb op op' = false -> count_op op' evs = 0.
Proof.
  unfold retry_events, count_op. intros H Hne.
  induction evs as [|e evs IH]; simpl in *; [reflexivity|].
  apply andb_true_iff in H. destruct H as [He Hevs].
  destruct e as [R c o|o]; simpl in *.
  - apply Op_eqb_eq in He. rewrite He, Hne. auto.
  - auto.
Qed.

Lemma retry_events_ops op evs :
  retry_events op evs -> ops_called evs = repeat op (count_op op evs).
Proof.
  unfold retry_events, count_op, ops_called. intros H.
  induction evs as [|e evs IH]; simpl in *; [reflexivity|].
  apply andb_true_iff in H. destruct H as [He Hevs].
  destruct e as [R c o|o]; simpl in *.
  - rewrite He. simpl. apply Op_eqb_eq in He. rewrite He at 1.
    f_equal. auto.
  - auto.
Qed.

Lemma retry_events_state op evs st :
  retry_events op evs -> fold_left apply_event evs st = st.
Proof.
  unfold retry_events. revert st.
  induction evs as [|e evs IH]; intros st H; simpl in *; [reflexivity|].
  apply andb_true_iff in H. destruct H as [He Hevs].
  destruct e as [R c o|[]]; simpl in *; try discriminate; auto.
Qed.

Lemma retry_events_session op evs s :
  retry_events op evs ->
  Op_eqb op op_auth_signOut = false ->
  Op_eqb op op_auth_signInWithPassword = false ->
  session_after s evs = s.
Proof.
  unfold retry_events, session_after. intros H Hout Hin. revert s.
  induction evs as [|e evs IH]; intros s; simpl in *; [reflexivity|].
  apply andb_true_iff in H. destruct H as [He Hevs].
  destruct e as [R c o|o]; simpl in *; auto.
  apply Op_eqb_eq in He. subst op.
  destruct c; simpl in *; try discriminate; auto.
Qed.

(* ================================================================== *)
(** ** Symbolic execution *)

Lemma no_error_and_data_true {T} (r : PgResp T) :
  no_error_and_data r = true ->
  pg_error r = None /\ exists d, pg_data r = Some d.
Proof.
  unfold no_error_and_data.
  destruct (pg_error r), (pg_data r); try discriminate; eauto.
Qed.

Ltac case_on x :=
  let E := fresh "E" in destruct x eqn:E.

(** The index of the call the run is waiting for, computed: the events
    of a retry loop on another operation do not count. *)
Ltac count_calls :=
  repeat first [ rewrite count_op_app | rewrite count_op_cons
               | rewrite count_op_nil ];
  repeat match goal with
         | H : retry_events ?op ?evs |- context [count_op ?op' ?evs] =>
             rewrite (retry_events_count_other op op' evs H eq_refl)
         | H : count_op ?op ?evs = _ |- context [count_op ?op ?evs] =>
             rewrite H
         end;
  cbn [is_call_of Op_eqb op_of Nat.add]; reflexivity.

(** The run is stuck on an answer whose index is still a count over
    the trace so far: the count is replaced by its value. *)
Ltac run_count :=
  match goal with
  | |- context [?W ?R ?c (count_op ?op ?tr)] =>
      let H := fresh "Hcount" in
      eassert (H : count_op op tr = _) by count_calls;
      lazymatch type of H with
      | _ = ?v => lazymatch v with
                  | context [count_op] => fail
                  | context [@filter] => fail
                  | _ => idtac
                  end
      end;
      rewrite H; clear H
  end.

(** The answer of the world the run is waiting for: taken from a
    hypothesis when one fixes it, both ways otherwise. *)
Ltac run_answer :=
  match goal with
  | |- context [match ?o with Returned _ => _ | Threw _ => _ end] =>
      first [ match goal with H : o = _ |- _ => rewrite H end
            | case_on o ]
  end.

(** The run is stuck on a field of a response: by a hypothesis that
    fixes the field, or by cases. *)
Ltac run_match :=
  match goal with
  | H : ?x = _ |- context [match ?x with _ => _ end] => rewrite H
  | |- context [if no_error_and_data ?r then _ else _] =>
      let E := fresh "E" in
      destruct (no_error_and_data r) eqn:E;
      [ let Hd := fresh "Hd" in
        let d := fresh "d" in
        destruct (no_error_and_data_true r E) as [? [d Hd]]; try rewrite Hd
      | ]
  | |- context [match pg_data ?r with _ => _ end] => case_on (pg_data r)
  | |- context [match pg_error ?r with _ => _ end] => case_on (pg_error r)
  | |- context [match auth_error ?r with _ => _ end] => case_on (auth_error r)
  | |- context [match auth_user ?r with _ => _ end] => case_on (auth_user r)
  | |- context [match auth_session ?r with _ => _ end] => case_on (auth_session r)
  | |- context [match signout_error ?r with _ => _ end] => case_on (signout_error r)
  end.

(** Symbolic execution of [run w p tr]: compute as far as the tree is
    known, then resolve what the run is stuck on. *)
Ltac run_step := first [ run_count | run_answer | run_match ]; cbn.
Ltac run := cbn; repeat run_step.

(* ================================================================== *)
(** ** signUp *)

Lemma principal_created_inv (w : World) c u :
  principal_created w c = Some u ->
  exists r0 r1,
    w _ (users_select_id_by_email (su_email c)) 0 = Returned r0
    /\ pg_data r0 = None
    /\ w _ (auth_signUp (su_email c) (su_password c) (su_role c) (su_username c)) 0
       = Returned r1
    /\ auth_error r1 = None
    /\ auth_user r1 = Some u.
Proof.
  unfold principal_created, precheck_clear.
  destruct (w _ (users_select_id_by_email (su_email c)) 0) as [r0|]; try discriminate.
  destruct (pg_data r0) eqn:E0; try discriminate.
  destruct (w _ (auth_signUp _ _ _ _) 0) as [r1|]; try discriminate.
  destruct (auth_error r1) eqn:E1; try discriminate.
  intros H. exists r0, r1. auto.
Qed.

Lemma attempt_fails_inv {T} (o : Outcome (PgResp T)) :
  attempt_fails o = true ->
  exists r, o = Returned r /\ no_error_and_data r = false.
Proof.
  destruct o as [r|e]; simpl; try discriminate.
  intros H. exists r. split; [reflexivity|].
  destruct (no_error_and_data r); [discriminate|reflexivity].
Qed.

Lemma attempt_succeeds_inv {T} (o : Outcome (PgResp T)) :
  attempt_succeeds o = true ->
  exists r, o = Returned r /\ no_error_and_data r = true.
Proof.
  destruct o as [r|e]; simpl; try discriminate. eauto.
Qed.

(** C4. When the pre-check finds a Profile with the email, signUp
    answers [{ user: null, error: Error('User already exists') }] and the
    pre-check is all it did: no Principal is created, no insert is
    attempted, no delete is issued. *)
Theorem signUp_existing_profile (w : World) c r row :
  w _ (users_select_id_by_email (su_email c)) 0 = Returned r ->
  pg_data r = Some row ->
  exec w (signUp c)
  = (Normal {| user := None; error := Some (NewError "User already exists") |},
     [EvCall (users_select_id_by_email (su_email c)) (Returned r)])
  /\ count_op op_auth_signUp (snd (exec w (signUp c))) = 0
  /\ count_op op_users_insert (snd (exec w (signUp c))) = 0
  /\ count_op op_auth_admin_deleteUser (snd (exec w (signUp c))) = 0.
Proof.
  intros Hw Hrow.
  assert (Hrun : exec w (signUp c)
    = (Normal {| user := None; error := Some (NewError "User already exists") |},
       [EvCall (users_select_id_by_email (su_email c)) (Returned r)])).
  { unfold exec, signUp. run. reflexivity. }
  rewrite Hrun. repeat split; reflexivity.
Qed.

Lemma signUp_existing_profile_witness :
  exec world_email_taken (signUp alice)
  = (Normal {| user := None; error := Some (NewError "User already exists") |},
     [EvCall (users_select_id_by_email "a@x.com") (one_row {| row_id := "p-0" |})]).
Proof.
  apply (signUp_existing_profile world_email_taken alice
           {| pg_data := Some {| row_id := "p-0" |}; pg_error := None |}
           {| row_id := "p-0" |}); reflexivity.
Defined.

(** C5. When the Principal is created and the insert lands on attempt
    [k] of 3, signUp makes exactly [k] insert attempts (and calls nothing
    else after them) and answers with the user built from the created
    Principal's id and the input email, role and username, and no
    error. *)
Theorem signUp_succeeds_on_attempt (w : World) c u k :
  principal_created w c = Some u ->
  1 <= k <= 3 ->
  (forall i, i < k - 1 -> attempt_fails (w _ (insert_cmd c u) i) = true) ->
  attempt_succeeds (w _ (insert_cmd c u) (k - 1)) = true ->
  fst (exec w (signUp c))
  = Normal {| user := Some {| id := au_id u;
                              email := Some (su_email c);
                              role := su_role c;
                              username := su_username c |};
              error := None |}
  /\ count_op op_users_insert (snd (exec w (signUp c))) = k
  /\ ops_called (snd (exec w (signUp c)))
     = [op_users_select_id_by_email; op_auth_signUp] ++ repeat op_users_insert k.
Proof.
  intros Hc Hk Hfail Hok.
  destruct (principal_created_inv w c u Hc) as (r0 & r1 & H0 & Hd0 & H1 & He1 & Hu1).
  apply attempt_succeeds_inv in Hok. destruct Hok as (rk & Hrk & Hokk).
  destruct (no_error_and_data_true rk Hokk) as [Hek [dk Hdk]].
  assert (F0 : 1 < k -> exists r, w _ (insert_cmd c u) 0 = Returned r
                                  /\ no_error_and_data r = false).
  { intros Hlt. apply attempt_fails_inv, Hfail. lia. }
  assert (F1 : 2 < k -> exists r, w _ (insert_cmd c u) 1 = Returned r
                                  /\ no_error_and_data r = false).
  { intros Hlt. apply attempt_fails_inv, Hfail. lia. }
  unfold insert_cmd in *.
  enough (Hrun : exists tr,
             exec w (signUp c)
             = (Normal {| user := Some {| id := au_id u;
                                          email := Some (su_email c);
                                          role := su_role c;
                                          username := su_username c |};
                          error := None |}, tr)
             /\ count_op op_users_insert tr = k
             /\ ops_called tr
                = [op_users_select_id_by_email; op_auth_signUp]
                    ++ repeat op_users_insert k).
  { destruct Hrun as (tr & -> & Hn & Hops). auto. }
  unfold exec, signUp.
  destruct k as [|[|[|[|k]]]]; try lia; cbn [Nat.sub] in Hrk.
  - run. eexists. split; [reflexivity|]. split; reflexivity.
  - destruct F0 as (f0 & Hf0 & Hn0); [lia|].
    run. eexists. split; [reflexivity|]. split; reflexivity.
  - destruct F0 as (f0 & Hf0 & Hn0); [lia|].
    destruct F1 as (f1 & Hf1 & Hn1); [lia|].
    run. eexists. split; [reflexivity|]. split; reflexivity.
Qed.

Lemma signUp_succeeds_on_attempt_witness :
  fst (exec world_insert_second_try (signUp alice))
  = Normal {| user := Some {| id := "p-1"; email := Some "a@x.com";
                              role := "admin"; username := "alice" |};
              error := None |}
  /\ count_op op_users_insert (snd (exec world_insert_second_try (signUp alice))) = 2
  /\ ops_called (snd (exec world_insert_second_try (signUp alice)))
     = [op_users_select_id_by_email; op_auth_signUp; op_users_insert; op_users_insert].
Proof.
  apply (signUp_succeeds_on_attempt world_insert_second_try alice alice_principal 2).
  - reflexivity.
  - lia.
  - intros i Hi. destruct i; [reflexivity | simpl in Hi; lia].
  - reflexivity.
Defined.

(** The end-to-end scenario of the specification: the whole run of a
    sign-up whose insert succeeds on attempt 1. *)
Example signUp_end_to_end :
  exec world_insert_first_try (signUp alice)
  = (Normal {| user := Some {| id := "p-1"; email := Some "a@x.com";
                               role := "admin"; username := "alice" |};
               error := None |},
     [EvCall (users_select_id_by_email "a@x.com") no_row;
      EvCall (auth_signUp "a@x.com" "secret1" "admin" "alice")
             (principal alice_principal);
      EvOut (Delay 2000);
      EvCall (users_insert "p-1" "a@x.com" "alice" "admin") (one_row alice_row)]).
Proof. reflexivity. Qed.

(** C1, as the code has it.  When the Principal is created and each of
    the 3 insert attempts fails, signUp issues the administrative delete
    of that Principal, and answers with no user and an error: the
    exception of the delete call if that call raises; otherwise the error
    of the third attempt, or [Error('Failed to create user profile')]
    when the third attempt reported none. *)
Theorem signUp_insert_exhausted (w : World) c u :
  principal_created w c = Some u ->
  (forall i, i < 3 -> attempt_fails (w _ (insert_cmd c u) i) = true) ->
  let deleted := w _ (auth_admin_deleteUser (au_id u)) 0 in
  fst (exec w (signUp c))
  = Normal {| user := None;
              error :=
                Some match deleted with
                     | Threw x => FromPlatform x
                     | Returned _ =>
                         or_new_error
                           (platform (returned_error (w _ (insert_cmd c u) 2)))
                           "Failed to create user profile"
                     end |}
  /\ In (EvCall (auth_admin_deleteUser (au_id u)) deleted) (snd (exec w (signUp c)))
  /\ ops_called (snd (exec w (signUp c)))
     = [op_users_select_id_by_email; op_auth_signUp; op_users_insert;
        op_users_insert; op_users_insert; op_auth_admin_deleteUser].
Proof.
  intros Hc Hfail deleted.
  destruct (principal_created_inv w c u Hc) as (r0 & r1 & H0 & Hd0 & H1 & He1 & Hu1).
  destruct (attempt_fails_inv _ (Hfail 0 ltac:(lia))) as (f0 & Hf0 & Hn0).
  destruct (attempt_fails_inv _ (Hfail 1 ltac:(lia))) as (f1 & Hf1 & Hn1).
  destruct (attempt_fails_inv _ (Hfail 2 ltac:(lia))) as (f2 & Hf2 & Hn2).
  rewrite Hf2. cbn [returned_error].
  unfold insert_cmd in *. subst deleted.
  enough (Hrun : exists tr,
             exec w (signUp c)
             = (Normal {| user := None;
                          error :=
                            Some match w _ (auth_admin_deleteUser (au_id u)) 0 with
                                 | Threw x => FromPlatform x
                                 | Returned _ =>
                                     or_new_error (platform (pg_error f2))
                                                  "Failed to create user profile"
                                 end |}, tr)
             /\ In (EvCall (auth_admin_deleteUser (au_id u))
                           (w _ (auth_admin_deleteUser (au_id u)) 0)) tr
             /\ ops_called tr
                = [op_users_select_id_by_email; op_auth_signUp; op_users_insert;
                   op_users_insert; op_users_insert; op_auth_admin_deleteUser]).
  { destruct Hrun as (tr & -> & Hin & Hops). auto. }
  unfold exec, signUp.
  run.
  - eexists. split; [reflexivity|]. split; [|reflexivity].
    cbn. repeat (first [left; reflexivity | right]).
  - eexists. split; [reflexivity|]. split; [|reflexivity].
    cbn. repeat (first [left; reflexivity | right]).
Qed.

Lemma signUp_insert_exhausted_witness :
  fst (exec world_delete_raises (signUp alice))
  = Normal {| user := None;
              error := Some (FromPlatform {| perr_message := "network down" |}) |}
  /\ In (EvCall (auth_admin_deleteUser "p-1")
                (Threw {| perr_message := "network down" |}))
        (snd (exec world_delete_raises (signUp alice)))
  /\ ops_called (snd (exec world_delete_raises (signUp alice)))
     = [op_users_select_id_by_email; op_auth_signUp; op_users_insert;
        op_users_insert; op_users_insert; op_auth_admin_deleteUser].
Proof.
  apply (signUp_insert_exhausted world_delete_raises alice alice_principal).
  - reflexivity.
  - intros i Hi. do 3 (destruct i; [reflexivity|]). lia.
Defined.

(** C1 as stated fails.  In [world_insert_never_lands] the Principal is
    created and all 3 insert attempts fail, the second one with an error
    and the third one with neither data nor error; the error signUp
    returns is the generic one, which is the error of no insert
    attempt. *)
Lemma signUp_exhausted_error_is_no_insert_error :
  principal_created world_insert_never_lands alice = Some alice_principal
  /\ (forall i, i < 3 ->
        attempt_fails
          (world_insert_never_lands _ (insert_cmd alice alice_principal) i) = true)
  /\ returned_error (world_insert_never_lands _ (insert_cmd alice alice_principal) 1)
     = Some {| perr_message := "timeout 2" |}
  /\ fst (exec world_insert_never_lands (signUp alice))
     = Normal {| user := None;
                 error := Some (NewError "Failed to create user profile") |}
  /\ ~ (exists i e,
          i < 3
          /\ returned_error
               (world_insert_never_lands _ (insert_cmd alice alice_principal) i)
             = Some e
          /\ result_error (exec world_insert_never_lands (signUp alice))
             = Some (FromPlatform e)).
Proof.
  split; [reflexivity|].
  split; [intros i Hi; do 3 (destruct i; [reflexivity|]); lia|].
  split; [reflexivity|].
  split; [reflexivity|].
  intros (i & e & _ & _ & H). vm_compute in H. discriminate.
Qed.

(** A second way C1 as stated fails: every insert reports an error, the
    delete call raises, and signUp returns the exception of the delete
    rather than the last insert error. *)
Lemma signUp_exhausted_delete_raises :
  fst (exec world_delete_raises (signUp alice))
  = Normal {| user := None;
              error := Some (FromPlatform {| perr_message := "network down" |}) |}
  /\ returned_error (world_delete_raises _ (insert_cmd alice alice_principal) 2)
     = Some {| perr_message := "duplicate key" |}.
Proof. split; reflexivity. Qed.

(** The insert loop of signUp has no [try] of its own: an insert that
    raises leaves the loop at once, and the outer [catch] returns the
    exception without any delete of the Principal. *)
Lemma signUp_insert_raises_skips_delete :
  fst (exec world_insert_raises (signUp alice))
  = Normal {| user := None;
              error := Some (FromPlatform {| perr_message := "fetch failed" |}) |}
  /\ ops_called (snd (exec world_insert_raises (signUp alice)))
     = [op_users_select_id_by_email; op_auth_signUp; op_users_insert;
        op_users_insert; op_users_insert].
Proof. split; reflexivity. Qed.

(** C9. The pre-check of signUp is best effort.  When the pre-check
    query returns an error and no row, signUp goes on to auth.signUp and
    behaves, result and every later effect alike, as in the world where
    the query returned neither row nor error; and once auth.signUp has
    returned the Principal it waits 2000 ms and attempts the insert of
    the Profile, with the Principal's id and the email, username and
    role of the input.  The error [Error('User already exists')] is
    returned only when the pre-check query returned a row. *)
Theorem signUp_precheck_error_discarded (w : World) c :
  (forall r,
      w _ (users_select_id_by_email (su_email c)) 0 = Returned r ->
      pg_data r = None ->
      fst (exec w (signUp c)) = fst (exec (with_precheck_answer w no_row) (signUp c))
      /\ tl (snd (exec w (signUp c)))
         = tl (snd (exec (with_precheck_answer w no_row) (signUp c)))
      /\ hd_error (snd (exec w (signUp c)))
         = Some (EvCall (users_select_id_by_email (su_email c)) (Returned r))
      /\ count_op op_auth_signUp (snd (exec w (signUp c))) = 1
      /\ (forall r1 u,
            w _ (auth_signUp (su_email c) (su_password c) (su_role c) (su_username c)) 0
            = Returned r1 ->
            auth_error r1 = None ->
            auth_user r1 = Some u ->
            exists rest,
              snd (exec w (signUp c))
              = EvCall (users_select_id_by_email (su_email c)) (Returned r)
                  :: EvCall (auth_signUp (su_email c) (su_password c)
                               (su_role c) (su_username c)) (Returned r1)
                  :: EvOut (Delay 2000)
                  :: EvCall (users_insert (au_id u) (su_email c) (su_username c)
                               (su_role c))
                       (w _ (users_insert (au_id u) (su_email c) (su_username c)
                               (su_role c)) 0)
                  :: rest))
  /\ (result_error (exec w (signUp c)) = Some (NewError "User already exists") ->
      exists r row,
        w _ (users_select_id_by_email (su_email c)) 0 = Returned r
        /\ pg_data r = Some row).
Proof.
  split.
  - intros r Hw Hd.
    assert (Hcount : count_op op_auth_signUp (snd (exec w (signUp c))) = 1).
    { unfold exec, signUp. run; reflexivity. }
    assert (Hpair : exists x evs,
               exec w (signUp c)
               = (x, EvCall (users_select_id_by_email (su_email c)) (Returned r) :: evs)
               /\ exec (with_precheck_answer w no_row) (signUp c)
                  = (x, EvCall (users_select_id_by_email (su_email c)) no_row :: evs)).
    { unfold exec, signUp. rewrite !run_try_catch.
      rewrite (run_bind_call_returned w _ _ [] Hw).
      rewrite (run_bind_call_returned (with_precheck_answer w no_row)
                 (users_select_id_by_email (su_email c)) _ []
                 (r := {| pg_data := None; pg_error := None |}) eq_refl).
      cbv beta. rewrite Hd. cbn [pg_data].
      match goal with
      | |- context [run w ?p ?tr] =>
          destruct (run_frame p w (with_precheck_answer w no_row) tr
                      ([] ++ [EvCall (users_select_id_by_email (su_email c))
                                     (Returned {| pg_data := None;
                                                  pg_error := None |})]))
            as (x & evs & Hrun & Hrun')
      end.
      - intros op. destruct op; reflexivity.
      - intros R c' n Hn. destruct c'; try reflexivity.
        destruct n; [cbv in Hn; lia | reflexivity].
      - rewrite Hrun, Hrun'. destruct x as [a|e]; cbn; eauto. }
    assert (Hinsert :
              forall r1 u,
                w _ (auth_signUp (su_email c) (su_password c) (su_role c)
                       (su_username c)) 0
                = Returned r1 ->
                auth_error r1 = None ->
                auth_user r1 = Some u ->
                exists rest,
                  snd (exec w (signUp c))
                  = EvCall (users_select_id_by_email (su_email c)) (Returned r)
                      :: EvCall (auth_signUp (su_email c) (su_password c)
                                   (su_role c) (su_username c)) (Returned r1)
                      :: EvOut (Delay 2000)
                      :: EvCall (users_insert (au_id u) (su_email c) (su_username c)
                                   (su_role c))
                           (w _ (users_insert (au_id u) (su_email c) (su_username c)
                                   (su_role c)) 0)
                      :: rest).
    { intros r1 u Hr1 He1 Hu1.
      enough (Hrun : exists x rest,
                 exec w (signUp c)
                 = (x,
                    EvCall (users_select_id_by_email (su_email c)) (Returned r)
                      :: EvCall (auth_signUp (su_email c) (su_password c)
                                   (su_role c) (su_username c)) (Returned r1)
                      :: EvOut (Delay 2000)
                      :: EvCall (users_insert (au_id u) (su_email c) (su_username c)
                                   (su_role c))
                           (w _ (users_insert (au_id u) (su_email c) (su_username c)
                                   (su_role c)) 0)
                      :: rest)).
      { destruct Hrun as (x & rest & ->). exists rest. reflexivity. }
      unfold exec, signUp. run.
      all: eexists; eexists; reflexivity. }
    destruct Hpair as (x & evs & Hrun & Hrun').
    rewrite Hrun in *. rewrite Hrun'. cbn. auto.
  - unfold result_error, exec, signUp.
    run; intros Hres; try discriminate; eauto.
    all: match type of Hres with
         | context [pg_error ?r] => destruct (pg_error r); discriminate
         end.
Qed.

Lemma signUp_precheck_error_discarded_witness :
  fst (exec world_precheck_errors (signUp alice))
  = fst (exec (with_precheck_answer world_precheck_errors no_row) (signUp alice))
  /\ tl (snd (exec world_precheck_errors (signUp alice)))
     = tl (snd (exec (with_precheck_answer world_precheck_errors no_row) (signUp alice)))
  /\ hd_error (snd (exec world_precheck_errors (signUp alice)))
     = Some (EvCall (users_select_id_by_email "a@x.com")
                    (query_error "permission denied"))
  /\ count_op op_auth_signUp (snd (exec world_precheck_errors (signUp alice))) = 1
  /\ exists rest,
       snd (exec world_precheck_errors (signUp alice))
       = EvCall (users_select_id_by_email "a@x.com") (query_error "permission denied")
           :: EvCall (auth_signUp "a@x.com" "secret1" "admin" "alice")
                (principal alice_principal)
           :: EvOut (Delay 2000)
           :: EvCall (users_insert "p-1" "a@x.com" "alice" "admin") (one_row alice_row)
           :: rest.
Proof.
  destruct (proj1 (signUp_precheck_error_discarded world_precheck_errors alice)
              {| pg_data := None;
                 pg_error := Some {| perr_message := "permission denied" |} |}
              eq_refl eq_refl)
    as (H1 & H2 & H3 & H4 & H5).
  split; [exact H1|]. split; [exact H2|]. split; [exact H3|]. split; [exact H4|].
  exact (H5 {| auth_user := Some alice_principal; auth_error := None |}
            alice_principal eq_refl eq_refl eq_refl).
Defined.

(* ================================================================== *)
(** ** Every way a tree can end *)

Lemma leaves_run {A} (P : A -> Prop) (Q : Err -> Prop) (p : Async A) :
  leaves P Q p ->
  forall w tr,
    match fst (run w p tr) with
    | Normal a => P a
    | Abrupt e => Q e
    end.
Proof.
  induction p as [a|e|R c k IH|o k IH]; simpl; intros H w tr; auto.
  - apply IH, H.
  - apply IH, H.
Qed.

Lemma leaves_bind {A B} (P' : A -> Prop) (P : B -> Prop) (Q : Err -> Prop)
    (m : Async A) (f : A -> Async B) :
  leaves P' Q m ->
  (forall a, P' a -> leaves P Q (f a)) ->
  leaves P Q (bind m f).
Proof.
  induction m as [a|e|R c k IH|o k IH]; simpl; intros H Hf; auto.
Qed.

Lemma leaves_try_catch {A} (P : A -> Prop) (Q' Q : Err -> Prop)
    (body : Async A) (h : Err -> Async A) :
  leaves P Q' body ->
  (forall e, Q' e -> leaves P Q (h e)) ->
  leaves P Q (try_catch body h).
Proof.
  induction body as [a|e|R c k IH|o k IH]; simpl; intros H Hh; auto.
Qed.

(** A tree none of whose ways to end is a throw completes normally in
    every world. *)
Lemma leaves_total {A} (P : A -> Prop) (p : Async A) :
  leaves P (fun _ => False) p ->
  forall w tr, exists a tr', run w p tr = (Normal a, tr') /\ P a.
Proof.
  intros H w tr. pose proof (leaves_run _ _ p H w tr) as Hr.
  destruct (run w p tr) as [[a|e] tr']; simpl in Hr; [eauto | contradiction].
Qed.

(* ================================================================== *)
(** ** Retry loops *)

Lemma count_op_call {R} (c : Cmd R) (o : Outcome R) :
  count_op (op_of c) [EvCall c o] = 1.
Proof. unfold count_op. simpl. rewrite Op_eqb_refl. reflexivity. Qed.

Lemma retry_events_call {R} (c : Cmd R) (o : Outcome R) :
  retry_events (op_of c) [EvCall c o].
Proof. unfold retry_events. simpl. rewrite Op_eqb_refl. reflexivity. Qed.

Section RetryLoop.
Variable w : World.
Variable T : Type.
Variable cmd : Cmd (PgResp T).
Variable loop : nat -> option Err -> Async (option T * option Err).

Hypothesis loop_0 : forall uE tr, run w (loop 0 uE) tr = (Normal (None, uE), tr).

Hypothesis loop_fail : forall n uE tr,
  lookup_fails (w _ cmd (count_op (op_of cmd) tr)) = true ->
  exists evs,
    run w (loop (S n) uE) tr
    = run w (loop n (failure_error (w _ cmd (count_op (op_of cmd) tr)))) (tr ++ evs)
    /\ retry_events (op_of cmd) evs /\ count_op (op_of cmd) evs = 1.

Hypothesis loop_success : forall n uE tr r,
  w _ cmd (count_op (op_of cmd) tr) = Returned r ->
  no_error_and_data r = true ->
  run w (loop (S n) uE) tr
  = (Normal (pg_data r, uE), tr ++ [EvCall cmd (Returned r)]).

(** [k] failed attempts take the loop from [k + n] retries to [n]. *)
Lemma loop_failures k : forall n uE tr,
  (forall i, i < k -> lookup_fails (w _ cmd (count_op (op_of cmd) tr + i)) = true) ->
  exists evs,
    run w (loop (k + n) uE) tr
    = run w (loop n match k with
                    | 0 => uE
                    | S k' => failure_error (w _ cmd (count_op (op_of cmd) tr + k'))
                    end) (tr ++ evs)
    /\ retry_events (op_of cmd) evs /\ count_op (op_of cmd) evs = k.
Proof.
  induction k as [|k IH]; intros n uE tr Hfail.
  - exists []. rewrite app_nil_r. repeat split; reflexivity.
  - destruct (loop_fail (k + n) uE tr) as (evs1 & Hrun1 & Hev1 & Hc1).
    { pose proof (Hfail 0 ltac:(lia)) as H0. rewrite Nat.add_0_r in H0. exact H0. }
    assert (Hcount : count_op (op_of cmd) (tr ++ evs1) = S (count_op (op_of cmd) tr)).
    { rewrite count_op_app, Hc1. lia. }
    destruct (IH n (failure_error (w _ cmd (count_op (op_of cmd) tr))) (tr ++ evs1))
      as (evs2 & Hrun2 & Hev2 & Hc2).
    { intros i Hi. rewrite Hcount.
      replace (S (count_op (op_of cmd) tr) + i) with (count_op (op_of cmd) tr + S i) by lia.
      apply Hfail. lia. }
    exists (evs1 ++ evs2). split; [|split].
    + simpl. rewrite Hrun1, Hrun2, app_assoc.
      destruct k as [|k']; [rewrite Nat.add_0_r; reflexivity|].
      rewrite Hcount.
      replace (S (count_op (op_of cmd) tr) + k') with (count_op (op_of cmd) tr + S k') by lia.
      reflexivity.
    + apply retry_events_app; assumption.
    + rewrite count_op_app, Hc1, Hc2. reflexivity.
Qed.

(** Every one of the [n] attempts fails: the loop ends without data,
    holding the error of the last attempt. *)
Lemma loop_exhausted n uE tr :
  (forall i, i < n -> lookup_fails (w _ cmd (count_op (op_of cmd) tr + i)) = true) ->
  exists evs,
    run w (loop n uE) tr
    = (Normal (None, match n with
                     | 0 => uE
                     | S n' => failure_error (w _ cmd (count_op (op_of cmd) tr + n'))
                     end), tr ++ evs)
    /\ retry_events (op_of cmd) evs /\ count_op (op_of cmd) evs = n.
Proof.
  intros Hfail.
  destruct (loop_failures n 0 uE tr Hfail) as (evs & Hrun & Hev & Hc).
  exists evs. rewrite Nat.add_0_r in Hrun. rewrite Hrun, loop_0. auto.
Qed.

(** Attempt [k] succeeds after [k] failures: the loop breaks with its
    data, having made [k + 1] attempts. *)
Lemma loop_first_success n k row uE tr :
  k < n ->
  first_success (fun i => w _ cmd (count_op (op_of cmd) tr + i)) k row ->
  exists evs uE',
    run w (loop n uE) tr = (Normal (Some row, uE'), tr ++ evs)
    /\ retry_events (op_of cmd) evs /\ count_op (op_of cmd) evs = S k.
Proof.
  intros Hk (Hfail & Hok & Hrow).
  destruct (attempt_succeeds_inv _ Hok) as (r & Hr & Hokr).
  rewrite Hr in Hrow. simpl in Hrow.
  replace n with (k + S (n - S k)) by lia.
  destruct (loop_failures k (S (n - S k)) uE tr Hfail) as (evs & Hrun & Hev & Hc).
  assert (Hcount : count_op (op_of cmd) (tr ++ evs) = count_op (op_of cmd) tr + k).
  { rewrite count_op_app, Hc. reflexivity. }
  rewrite Hrun.
  erewrite loop_success; [| rewrite Hcount; exact Hr | exact Hokr].
  rewrite Hrow, <- app_assoc.
  eexists. eexists. split; [reflexivity|]. split.
  - apply retry_events_app; [assumption | apply retry_events_call].
  - rewrite count_op_app, Hc. rewrite count_op_call. lia.
Qed.
End RetryLoop.

(* ================================================================== *)
(** ** The lookup loops of signIn and getCurrentUser *)

Lemma signIn_profile_loop_S u n uE :
  signIn_profile_loop u (S n) uE
  = (step <- try_catch
               (r <- call (users_select_username_role (au_id u)) ;;
                if no_error_and_data r then ret (inl (pg_data r))
                else
                  emit (ConsoleLog (retry_line (6 - S n))) ;;;
                  emit (Delay 2000) ;;;
                  ret (inr (platform (pg_error r))))
               (fun e => emit (Delay 2000) ;;; ret (inr (Some e))) ;;
     match step with
     | inl userData => ret (userData, uE)
     | inr userError' => signIn_profile_loop u n userError'
     end).
Proof. reflexivity. Qed.

Lemma getCurrentUser_profile_loop_S u n uE :
  getCurrentUser_profile_loop u (S n) uE
  = (step <- try_catch
               (r <- call (users_select_username_role (au_id u)) ;;
                if no_error_and_data r then ret (inl (pg_data r))
                else
                  emit (Delay 2000) ;;;
                  ret (inr (platform (pg_error r))))
               (fun e => emit (Delay 2000) ;;; ret (inr (Some e))) ;;
     match step with
     | inl userData => ret (userData, uE)
     | inr userError' => getCurrentUser_profile_loop u n userError'
     end).
Proof. reflexivity. Qed.

Section ProfileLoops.
Variable w : World.
Variable u : AuthUser.

Lemma signIn_profile_loop_fail n uE tr :
  lookup_fails (w _ (users_select_username_role (au_id u)) (count_op op_users_select_username_role tr)) = true ->
  exists evs,
    run w (signIn_profile_loop u (S n) uE) tr
    = run w (signIn_profile_loop u n
               (failure_error (w _ (users_select_username_role (au_id u)) (count_op op_users_select_username_role tr)))) (tr ++ evs)
    /\ retry_events op_users_select_username_role evs /\ count_op op_users_select_username_role evs = 1.
Proof.
  intros Hfail. rewrite signIn_profile_loop_S. cbn in *.
  destruct (w _ (users_select_username_role (au_id u))
              (count_op op_users_select_username_role tr)) as [r|e]; cbn in *.
  - destruct (no_error_and_data r); [discriminate|]. cbn.
    rewrite <- !app_assoc. eexists. split; [reflexivity|].
    split; reflexivity.
  - rewrite <- !app_assoc. eexists. split; [reflexivity|].
    split; reflexivity.
Qed.

Lemma signIn_profile_loop_success n uE tr r :
  w _ (users_select_username_role (au_id u)) (count_op op_users_select_username_role tr) = Returned r ->
  no_error_and_data r = true ->
  run w (signIn_profile_loop u (S n) uE) tr
  = (Normal (pg_data r, uE), tr ++ [EvCall (users_select_username_role (au_id u)) (Returned r)]).
Proof.
  intros Hr Hok. rewrite signIn_profile_loop_S. cbn in *.
  rewrite Hr. cbn. rewrite Hok. reflexivity.
Qed.

Lemma getCurrentUser_profile_loop_fail n uE tr :
  lookup_fails (w _ (users_select_username_role (au_id u)) (count_op op_users_select_username_role tr)) = true ->
  exists evs,
    run w (getCurrentUser_profile_loop u (S n) uE) tr
    = run w (getCurrentUser_profile_loop u n
               (failure_error (w _ (users_select_username_role (au_id u)) (count_op op_users_select_username_role tr)))) (tr ++ evs)
    /\ retry_events op_users_select_username_role evs /\ count_op op_users_select_username_role evs = 1.
Proof.
  intros Hfail. rewrite getCurrentUser_profile_loop_S. cbn in *.
  destruct (w _ (users_select_username_role (au_id u))
              (count_op op_users_select_username_role tr)) as [r|e]; cbn in *.
  - destruct (no_error_and_data r); [discriminate|]. cbn.
    rewrite <- !app_assoc. eexists. split; [reflexivity|].
    split; reflexivity.
  - rewrite <- !app_assoc. eexists. split; [reflexivity|].
    split; reflexivity.
Qed.

Lemma getCurrentUser_profile_loop_success n uE tr r :
  w _ (users_select_username_role (au_id u)) (count_op op_users_select_username_role tr) = Returned r ->
  no_error_and_data r = true ->
  run w (getCurrentUser_profile_loop u (S n) uE) tr
  = (Normal (pg_data r, uE), tr ++ [EvCall (users_select_username_role (au_id u)) (Returned r)]).
Proof.
  intros Hr Hok. rewrite getCurrentUser_profile_loop_S. cbn in *.
  rewrite Hr. cbn. rewrite Hok. reflexivity.
Qed.

(** All [n] lookups of signIn fail, [i0] lookups having been made. *)
Lemma signIn_profile_loop_exhausted n uE tr i0 :
  count_op op_users_select_username_role tr = i0 ->
  (forall i, i < n -> lookup_fails (w _ (users_select_username_role (au_id u)) (i0 + i)) = true) ->
  exists evs,
    run w (signIn_profile_loop u n uE) tr
    = (Normal (None,
               match n with
               | 0 => uE
               | S n' => failure_error (w _ (users_select_username_role (au_id u)) (i0 + n'))
               end), tr ++ evs)
    /\ retry_events op_users_select_username_role evs /\ count_op op_users_select_username_role evs = n.
Proof.
  intros <-. apply (loop_exhausted w _ (users_select_username_role (au_id u)) (signIn_profile_loop u)).
  - reflexivity.
  - apply signIn_profile_loop_fail.
Qed.

Lemma signIn_profile_loop_first_success n k row uE tr i0 :
  count_op op_users_select_username_role tr = i0 ->
  k < n ->
  first_success (fun i => w _ (users_select_username_role (au_id u)) (i0 + i)) k row ->
  exists evs uE',
    run w (signIn_profile_loop u n uE) tr = (Normal (Some row, uE'), tr ++ evs)
    /\ retry_events op_users_select_username_role evs /\ count_op op_users_select_username_role evs = S k.
Proof.
  intros <-. apply (loop_first_success w _ (users_select_username_role (au_id u)) (signIn_profile_loop u)).
  - apply signIn_profile_loop_fail.
  - apply signIn_profile_loop_success.
Qed.

Lemma getCurrentUser_profile_loop_exhausted n uE tr i0 :
  count_op op_users_select_username_role tr = i0 ->
  (forall i, i < n -> lookup_fails (w _ (users_select_username_role (au_id u)) (i0 + i)) = true) ->
  exists evs,
    run w (getCurrentUser_profile_loop u n uE) tr
    = (Normal (None,
               match n with
               | 0 => uE
               | S n' => failure_error (w _ (users_select_username_role (au_id u)) (i0 + n'))
               end), tr ++ evs)
    /\ retry_events op_users_select_username_role evs /\ count_op op_users_select_username_role evs = n.
Proof.
  intros <-. apply (loop_exhausted w _ (users_select_username_role (au_id u)) (getCurrentUser_profile_loop u)).
  - reflexivity.
  - apply getCurrentUser_profile_loop_fail.
Qed.

Lemma getCurrentUser_profile_loop_first_success n k row uE tr i0 :
  count_op op_users_select_username_role tr = i0 ->
  k < n ->
  first_success (fun i => w _ (users_select_username_role (au_id u)) (i0 + i)) k row ->
  exists evs uE',
    run w (getCurrentUser_profile_loop u n uE) tr
    = (Normal (Some row, uE'), tr ++ evs)
    /\ retry_events op_users_select_username_role evs /\ count_op op_users_select_username_role evs = S k.
Proof.
  intros <-. apply (loop_first_success w _ (users_select_username_role (au_id u)) (getCurrentUser_profile_loop u)).
  - apply getCurrentUser_profile_loop_fail.
  - apply getCurrentUser_profile_loop_success.
Qed.
End ProfileLoops.

(* ================================================================== *)
(** ** signIn and getCurrentUser *)

Lemma signed_in_inv (w : World) c u :
  signed_in w c = Some u ->
  exists r,
    w _ (auth_signInWithPassword (si_email c) (si_password c)) 0 = Returned r
    /\ auth_error r = None /\ auth_user r = Some u.
Proof.
  unfold signed_in.
  destruct (w _ (auth_signInWithPassword _ _) 0) as [r|]; try discriminate.
  destruct (auth_error r) eqn:E; try discriminate. eauto.
Qed.

Lemma current_user_inv (w : World) u :
  current_user w = Some u ->
  exists r, w _ auth_getUser 0 = Returned r /\ auth_user r = Some u.
Proof.
  unfold current_user.
  destruct (w _ auth_getUser 0) as [r|]; try discriminate. eauto.
Qed.

Lemma session_after_app s (a b : Trace) :
  session_after s (a ++ b) = session_after (session_after s a) b.
Proof. unfold session_after. apply fold_left_app. Qed.

Lemma session_after_cons s (e : Event) (tr : Trace) :
  session_after s (e :: tr) = session_after (session_step s e) tr.
Proof. reflexivity. Qed.

Lemma session_after_nil s : session_after s [] = s.
Proof. reflexivity. Qed.

Lemma ops_called_cons_call {R} (c : Cmd R) (o : Outcome R) (tr : Trace) :
  ops_called (EvCall c o :: tr) = op_of c :: ops_called tr.
Proof. reflexivity. Qed.

Lemma ops_called_cons_out (o : Output) (tr : Trace) :
  ops_called (EvOut o :: tr) = ops_called tr.
Proof. reflexivity. Qed.

Lemma ops_called_nil : ops_called [] = [].
Proof. reflexivity. Qed.

(** The operations called along a trace made of known events and of the
    events of a retry loop. *)
Ltac trace_ops :=
  repeat first [ rewrite ops_called_app | rewrite ops_called_cons_call
               | rewrite ops_called_cons_out | rewrite ops_called_nil ];
  repeat match goal with
         | H : retry_events ?op ?evs |- context [ops_called ?evs] =>
             rewrite (retry_events_ops op evs H)
         end;
  repeat match goal with
         | H : count_op ?op ?evs = _ |- context [count_op ?op ?evs] => rewrite H
         end;
  cbn [op_of repeat app]; try reflexivity.

(** The session left by such a trace. *)
Ltac trace_session :=
  repeat first [ rewrite session_after_app | rewrite session_after_cons
               | rewrite session_after_nil ];
  repeat match goal with
         | H : retry_events ?op ?evs |- context [session_after ?s ?evs] =>
             rewrite (retry_events_session op evs s H eq_refl eq_refl)
         end;
  cbn [session_step]; try reflexivity.

(** C2, as the code has it.  When the Profile lookup fails on each of
    the 5 attempts: signIn issues a sign-out and answers with no user
    and an error (the exception of the sign-out call if it raises,
    otherwise the error of the fifth attempt or a generic one), and no
    session is left when the sign-out reports success; getCurrentUser
    answers with no user and an error too, but makes no sign-out call,
    so the session is as it was. *)
Theorem profile_lookup_exhausted (w : World) u :
  (forall i, i < 5 ->
     lookup_fails (w _ (users_select_username_role (au_id u)) i) = true) ->
  let last_error :=
    failure_error (w _ (users_select_username_role (au_id u)) 4) in
  (forall c,
      signed_in w c = Some u ->
      fst (exec w (signIn c))
      = Normal {| user := None;
                  error := Some (after_sign_out (w _ auth_signOut 0)
                                   (or_new_error last_error
                                      "Failed to load user data")) |}
      /\ ops_called (snd (exec w (signIn c)))
         = op_auth_signInWithPassword
             :: repeat op_users_select_username_role 5 ++ [op_auth_signOut]
      /\ (sign_out_succeeds (w _ auth_signOut 0) = true ->
          forall s, session_after s (snd (exec w (signIn c))) = None))
  /\ (current_user w = Some u ->
      fst (exec w getCurrentUser)
      = Normal {| user := None;
                  error := Some (or_new_error last_error
                                   "User profile not found") |}
      /\ ops_called (snd (exec w getCurrentUser))
         = op_auth_getUser :: repeat op_users_select_username_role 5
      /\ count_op op_auth_signOut (snd (exec w getCurrentUser)) = 0
      /\ forall s, session_after s (snd (exec w getCurrentUser)) = s).
Proof.
  intros Hfail last_error. subst last_error. split.
  - intros c Hin.
    destruct (signed_in_inv w c u Hin) as (r & Hr & He & Hu).
    enough (Hrun : exists tr,
               exec w (signIn c)
               = (Normal {| user := None;
                            error :=
                              Some (after_sign_out (w _ auth_signOut 0)
                                      (or_new_error
                                         (failure_error
                                            (w _ (users_select_username_role
                                                    (au_id u)) 4))
                                         "Failed to load user data")) |}, tr)
               /\ ops_called tr
                  = op_auth_signInWithPassword
                      :: repeat op_users_select_username_role 5
                      ++ [op_auth_signOut]
               /\ (sign_out_succeeds (w _ auth_signOut 0) = true ->
                   forall s, session_after s tr = None)).
    { destruct Hrun as (tr & -> & Hops & Hs). auto. }
    unfold exec, signIn. run.
    match goal with
    | |- context [run w (try_catch (bind (signIn_profile_loop u 5 None) _) _) ?tr] =>
        destruct (signIn_profile_loop_exhausted w u 5 None tr 0 eq_refl Hfail)
          as (evs & Hrun & Hev & Hc)
    end.
    rewrite run_try_catch, run_bind, Hrun.
    run.
    all: eexists; split; [reflexivity|]; split; [trace_ops|].
    all: intros Hout s; cbn in Hout; try discriminate Hout; trace_session.
    destruct (signout_error _); [discriminate | reflexivity].
  - intros Hcur.
    destruct (current_user_inv w u Hcur) as (r & Hr & Hu).
    enough (Hrun : exists tr,
               exec w getCurrentUser
               = (Normal {| user := None;
                            error :=
                              Some (or_new_error
                                      (failure_error
                                         (w _ (users_select_username_role
                                                 (au_id u)) 4))
                                      "User profile not found") |}, tr)
               /\ ops_called tr
                  = op_auth_getUser :: repeat op_users_select_username_role 5
               /\ count_op op_auth_signOut tr = 0
               /\ forall s, session_after s tr = s).
    { destruct Hrun as (tr & -> & Hops & Hn & Hs). auto. }
    unfold exec, getCurrentUser. run.
    match goal with
    | |- context [run w (try_catch (bind (getCurrentUser_profile_loop u 5 None) _) _) ?tr] =>
        destruct (getCurrentUser_profile_loop_exhausted w u 5 None tr 0 eq_refl Hfail)
          as (evs & Hrun & Hev & Hc)
    end.
    rewrite run_try_catch, run_bind, Hrun.
    run.
    eexists; split; [reflexivity|]; split; [trace_ops|]; split; [count_calls|].
    intros s. trace_session.
Qed.

Lemma profile_lookup_exhausted_witness :
  fst (exec world_profile_missing (signIn alice_login))
  = Normal {| user := None; error := Some (NewError "Failed to load user data") |}
  /\ fst (exec world_profile_missing getCurrentUser)
     = Normal {| user := None; error := Some (NewError "User profile not found") |}.
Proof.
  assert (Hfail : forall i, i < 5 ->
            lookup_fails
              (world_profile_missing _
                 (users_select_username_role (au_id alice_principal)) i) = true)
    by (intros i _; reflexivity).
  destruct (profile_lookup_exhausted world_profile_missing alice_principal Hfail)
    as [Hin Hcur].
  split.
  - apply (Hin alice_login). reflexivity.
  - apply Hcur. reflexivity.
Defined.

(** C2 as stated fails for getCurrentUser: with a current user whose
    Profile lookup fails 5 times, getCurrentUser returns its failure
    without any sign-out call, and a session that was there is still
    there. *)
Lemma getCurrentUser_exhausted_keeps_session :
  current_user world_profile_missing = Some alice_principal
  /\ (forall i, i < 5 ->
        lookup_fails
          (world_profile_missing _
             (users_select_username_role (au_id alice_principal)) i) = true)
  /\ fst (exec world_profile_missing getCurrentUser)
     = Normal {| user := None; error := Some (NewError "User profile not found") |}
  /\ count_op op_auth_signOut (snd (exec world_profile_missing getCurrentUser)) = 0
  /\ session_after (Some alice_principal)
       (snd (exec world_profile_missing getCurrentUser))
     = Some alice_principal.
Proof.
  split; [reflexivity|].
  split; [intros i _; reflexivity|].
  repeat split; reflexivity.
Qed.

(** C3, as the code has it.  When the lookup resolves the role doctor,
    both signIn and getCurrentUser call create_doctor_profile, once and
    without first looking for a doctor record.  When that call returns
    an error, signIn issues a sign-out and answers with no user and an
    error (the exception of the sign-out call if it raises, otherwise
    [Error('Failed to verify doctor profile')]); getCurrentUser answers
    with no user and that same error, but makes no sign-out call and
    leaves the session as it was. *)
Theorem doctor_bootstrap (w : World) u k row :
  k < 5 ->
  first_success (w _ (users_select_username_role (au_id u))) k row ->
  pr_role row = "doctor" ->
  (forall c,
      signed_in w c = Some u ->
      count_op op_rpc_create_doctor_profile (snd (exec w (signIn c))) = 1
      /\ count_op op_doctors_select_id (snd (exec w (signIn c))) = 0
      /\ (reports_error (w _ rpc_create_doctor_profile 0) = true ->
          fst (exec w (signIn c))
          = Normal {| user := None;
                      error := Some (after_sign_out (w _ auth_signOut 0)
                                       (NewError "Failed to verify doctor profile")) |}
          /\ count_op op_auth_signOut (snd (exec w (signIn c))) = 1))
  /\ (current_user w = Some u ->
      count_op op_rpc_create_doctor_profile (snd (exec w getCurrentUser)) = 1
      /\ count_op op_doctors_select_id (snd (exec w getCurrentUser)) = 0
      /\ (reports_error (w _ rpc_create_doctor_profile 0) = true ->
          fst (exec w getCurrentUser)
          = Normal {| user := None;
                      error := Some (NewError "Failed to verify doctor profile") |}
          /\ count_op op_auth_signOut (snd (exec w getCurrentUser)) = 0
          /\ forall s, session_after s (snd (exec w getCurrentUser)) = s)).
Proof.
  intros Hk Hfirst Hrole. split.
  - intros c Hin.
    destruct (signed_in_inv w c u Hin) as (r & Hr & He & Hu).
    enough (Hrun : exists x tr,
               exec w (signIn c) = (x, tr)
               /\ count_op op_rpc_create_doctor_profile tr = 1
               /\ count_op op_doctors_select_id tr = 0
               /\ (reports_error (w _ rpc_create_doctor_profile 0) = true ->
                   x = Normal {| user := None;
                                 error :=
                                   Some (after_sign_out (w _ auth_signOut 0)
                                           (NewError
                                              "Failed to verify doctor profile")) |}
                   /\ count_op op_auth_signOut tr = 1)).
    { destruct Hrun as (x & tr & -> & H1 & H2 & H3). auto. }
    unfold exec, signIn. run.
    match goal with
    | |- context [run w (try_catch (bind (signIn_profile_loop u 5 None) _) _) ?tr] =>
        destruct (signIn_profile_loop_first_success w u 5 k row None tr 0
                    eq_refl Hk Hfirst)
          as (evs & uE' & Hrun & Hev & Hc)
    end.
    rewrite run_try_catch, run_bind, Hrun. cbn. rewrite Hrole.
    run.
    all: eexists; eexists; split; [reflexivity|].
    all: split; [count_calls|]; split; [count_calls|].
    all: intros Hrep; cbn in Hrep; try discriminate Hrep.
    all: split; [reflexivity | count_calls].
  - intros Hcur.
    destruct (current_user_inv w u Hcur) as (r & Hr & Hu).
    enough (Hrun : exists x tr,
               exec w getCurrentUser = (x, tr)
               /\ count_op op_rpc_create_doctor_profile tr = 1
               /\ count_op op_doctors_select_id tr = 0
               /\ (reports_error (w _ rpc_create_doctor_profile 0) = true ->
                   x = Normal {| user := None;
                                 error :=
                                   Some (NewError
                                           "Failed to verify doctor profile") |}
                   /\ count_op op_auth_signOut tr = 0
                   /\ forall s, session_after s tr = s)).
    { destruct Hrun as (x & tr & -> & H1 & H2 & H3). auto. }
    unfold exec, getCurrentUser. run.
    match goal with
    | |- context [run w (try_catch (bind (getCurrentUser_profile_loop u 5 None) _) _) ?tr] =>
        destruct (getCurrentUser_profile_loop_first_success w u 5 k row None tr 0
                    eq_refl Hk Hfirst)
          as (evs & uE' & Hrun & Hev & Hc)
    end.
    rewrite run_try_catch, run_bind, Hrun. cbn. rewrite Hrole.
    run.
    all: eexists; eexists; split; [reflexivity|].
    all: split; [count_calls|]; split; [count_calls|].
    all: intros Hrep; cbn in Hrep; try discriminate Hrep.
    all: split; [reflexivity|]; split; [count_calls|].
    all: intros s; trace_session.
Qed.

Lemma doctor_bootstrap_witness :
  fst (exec world_doctor_bootstrap_fails (signIn alice_login))
  = Normal {| user := None;
              error := Some (NewError "Failed to verify doctor profile") |}
  /\ count_op op_auth_signOut
       (snd (exec world_doctor_bootstrap_fails (signIn alice_login))) = 1
  /\ fst (exec world_doctor_bootstrap_fails getCurrentUser)
     = Normal {| user := None;
                 error := Some (NewError "Failed to verify doctor profile") |}
  /\ count_op op_auth_signOut
       (snd (exec world_doctor_bootstrap_fails getCurrentUser)) = 0.
Proof.
  assert (Hfirst : first_success
                     (world_doctor_bootstrap_fails _
                        (users_select_username_role (au_id alice_principal)))
                     1 {| pr_username := "alice"; pr_role := "doctor" |}).
  { split; [|split; reflexivity].
    intros i Hi. destruct i; [reflexivity | lia]. }
  destruct (doctor_bootstrap world_doctor_bootstrap_fails alice_principal 1
              {| pr_username := "alice"; pr_role := "doctor" |}
              ltac:(lia) Hfirst eq_refl) as [Hin Hcur].
  destruct (Hin alice_login eq_refl) as (_ & _ & Hin').
  destruct (Hin' eq_refl) as [Hres Hout].
  destruct (Hcur eq_refl) as (_ & _ & Hcur').
  destruct (Hcur' eq_refl) as (Hres' & Hout' & _).
  repeat split; assumption.
Defined.

(** C3 as stated fails for getCurrentUser: the doctor's bootstrap call
    reports an error, and getCurrentUser returns its failure without any
    sign-out call; a session that was there is still there. *)
Lemma getCurrentUser_doctor_failure_keeps_session :
  current_user world_doctor_bootstrap_fails = Some alice_principal
  /\ first_success
       (world_doctor_bootstrap_fails _
          (users_select_username_role (au_id alice_principal)))
       1 {| pr_username := "alice"; pr_role := "doctor" |}
  /\ reports_error (world_doctor_bootstrap_fails _ rpc_create_doctor_profile 0) = true
  /\ fst (exec world_doctor_bootstrap_fails getCurrentUser)
     = Normal {| user := None;
                 error := Some (NewError "Failed to verify doctor profile") |}
  /\ count_op op_auth_signOut
       (snd (exec world_doctor_bootstrap_fails getCurrentUser)) = 0
  /\ session_after (Some alice_principal)
       (snd (exec world_doctor_bootstrap_fails getCurrentUser))
     = Some alice_principal.
Proof.
  split; [reflexivity|].
  split.
  { split; [|split; reflexivity].
    intros i Hi. destruct i; [reflexivity | lia]. }
  repeat split; reflexivity.
Qed.

(* ================================================================== *)
(** ** The flows never throw *)

Lemma leaves_trivial {A} (p : Async A) :
  leaves (fun _ => True) (fun _ => True) p.
Proof. induction p as [a|e|R c k IH|o k IH]; simpl; auto. Qed.

(** One step of a proof that every way a flow ends is a return of an
    acceptable value: whatever a sub-computation returns or throws, what
    follows it is examined. *)
Ltac leaves_step :=
  match goal with
  | |- leaves _ _ (try_catch _ _) =>
      eapply leaves_try_catch with (Q' := fun _ => True); [| intros ? _]
  | |- leaves _ _ (bind _ _) =>
      eapply leaves_bind with (P' := fun _ => True);
      [apply leaves_trivial | intros ? _]
  | |- leaves _ _ (match ?x with _ => _ end) => destruct x
  | |- leaves _ _ (when ?x _) => destruct x
  | |- forall _, _ => intro
  | |- True => exact I
  | |- user_xor_error _ =>
      first [ left; eexists; split; reflexivity
            | right; split; [reflexivity | eexists; reflexivity] ]
  end.

Ltac leaves_auto := repeat (cbn; leaves_step).

Lemma signUp_leaves c : leaves user_xor_error (fun _ => False) (signUp c).
Proof. unfold signUp. leaves_auto. Qed.

Lemma signIn_leaves c : leaves user_xor_error (fun _ => False) (signIn c).
Proof. unfold signIn. leaves_auto. Qed.

Lemma signOut_leaves : leaves (fun _ => True) (fun _ => False) signOut.
Proof. unfold signOut. leaves_auto. Qed.

(** getCurrentUser, once the session store has reported a user. *)
Lemma getCurrentUser_result (w : World) :
  exists r tr,
    exec w getCurrentUser = (Normal r, tr)
    /\ ((no_current_user w = true
         /\ r = {| user := None; error := None |}
         /\ tr = [EvCall auth_getUser (w _ auth_getUser 0)])
        \/ (no_current_user w = false /\ user_xor_error r)).
Proof.
  unfold exec, getCurrentUser, no_current_user. cbn.
  change (count_op op_auth_getUser []) with 0.
  destruct (w _ auth_getUser 0) as [r|e]; cbn.
  - destruct (auth_user r) as [u|]; cbn.
    + match goal with
      | |- context [run w ?p ?tr] =>
          assert (Hl : leaves user_xor_error (fun _ => False) p) by leaves_auto;
          destruct (leaves_total _ p Hl w tr) as (a & tr' & Hrun & Ha)
      end.
      rewrite Hrun. eauto 6.
    + eauto 8.
  - eexists. eexists. split; [reflexivity|]. right. split; [reflexivity|].
    right. split; [reflexivity | eexists; reflexivity].
Qed.

(** C8, as the code has it.  In every world, whatever the SDK returns
    or throws, each flow of authService completes normally with its
    result object.  signUp and signIn return either a user and no error
    or no user and an error; signOut returns its [{ error }]; and
    getCurrentUser returns one of those two shapes or, when the session
    store reports no user, [{ user: null, error: null }]. *)
Theorem authService_never_throws (w : World) :
  (forall c, exists r tr,
      exec w (signUp c) = (Normal r, tr) /\ user_xor_error r)
  /\ (forall c, exists r tr,
         exec w (signIn c) = (Normal r, tr) /\ user_xor_error r)
  /\ (exists r tr, exec w signOut = (Normal r, tr))
  /\ (exists r tr,
         exec w getCurrentUser = (Normal r, tr)
         /\ (user_xor_error r
             \/ (no_current_user w = true
                 /\ r = {| user := None; error := None |}))).
Proof.
  split; [|split; [|split]].
  - intros c. apply (leaves_total _ _ (signUp_leaves c)).
  - intros c. apply (leaves_total _ _ (signIn_leaves c)).
  - destruct (leaves_total _ _ signOut_leaves w []) as (r & tr & Hrun & _).
    eauto.
  - destruct (getCurrentUser_result w) as (r & tr & Hrun & [(Hno & Hr & _)|(_ & Hx)]);
      eauto 6.
Qed.

(** C8 as stated fails: with no current user, getCurrentUser returns a
    result that is neither a user without error nor an error without
    user. *)
Lemma getCurrentUser_no_session_is_neither :
  fst (exec world_no_session getCurrentUser)
  = Normal {| user := None; error := None |}
  /\ ~ user_xor_error {| user := None; error := None |}.
Proof.
  split; [reflexivity|].
  intros [(u & Hu & _) | (_ & e & He)]; discriminate.
Qed.

(** C10, as the code has it.  getCurrentUser reads the user of the
    answer of auth.getUser and never its error.  Whenever the call
    returns without a user, whatever error comes with it, the result is
    [{ user: null, error: null }] after that one call.  That result is
    returned in no other case: when the call raises, or returns a user,
    the result has a user and no error, or no user and an error.  So
    the result without user and without error is told apart from a
    raised exception and from every failure that follows a found user,
    but not from a getUser call that fails by returning an error and no
    user. *)
Theorem getCurrentUser_no_session (w : World) :
  (no_current_user w = true ->
   exec w getCurrentUser
   = (Normal {| user := None; error := None |},
      [EvCall auth_getUser (w _ auth_getUser 0)]))
  /\ (no_current_user w = false ->
      exists r tr, exec w getCurrentUser = (Normal r, tr) /\ user_xor_error r)
  /\ (forall r tr,
         exec w getCurrentUser = (Normal r, tr) ->
         user r = None -> error r = None -> no_current_user w = true)
  /\ (forall a,
         w _ auth_getUser 0 = Returned a ->
         auth_user a = None ->
         exec w getCurrentUser
         = (Normal {| user := None; error := None |},
            [EvCall auth_getUser (Returned a)]))
  /\ (forall e,
         w _ auth_getUser 0 = Threw e ->
         exec w getCurrentUser
         = (Normal {| user := None; error := Some (FromPlatform e) |},
            [EvCall auth_getUser (Threw e);
             EvOut (ConsoleError "Get current user error:"
                      (Some (FromPlatform e)))])).
Proof.
  destruct (getCurrentUser_result w) as (r & tr & Hrun & Hcases).
  split; [|split; [|split; [|split]]].
  - intros Hno. destruct Hcases as [(_ & -> & ->)|(Hyes & _)]; [exact Hrun|].
    rewrite Hno in Hyes. discriminate.
  - intros Hyes. destruct Hcases as [(Hno & _)|(_ & Hx)]; [|eauto].
    rewrite Hno in Hyes. discriminate.
  - intros r' tr' Hrun' Hu He. rewrite Hrun in Hrun'.
    injection Hrun' as <- <-.
    destruct Hcases as [(Hno & _)|(_ & [(u & Hu' & _)|(_ & e & He')])];
      [exact Hno | rewrite Hu in Hu'; discriminate | rewrite He in He'; discriminate].
  - intros a Ha Hnone. unfold exec, getCurrentUser. cbn.
    change (count_op op_auth_getUser []) with 0.
    rewrite Ha. cbn. rewrite Hnone. reflexivity.
  - intros e He. unfold exec, getCurrentUser. cbn.
    change (count_op op_auth_getUser []) with 0.
    rewrite He. reflexivity.
Qed.

(** C10 as stated fails: not every failure returns a non-null error.
    Here the call of auth.getUser fails and reports it in the error of
    its answer; getCurrentUser returns no user and no error, the very
    result it returns when there is no session. *)
Lemma getCurrentUser_failed_getUser_is_no_error :
  world_getUser_fails _ auth_getUser 0
  = Returned {| auth_user := None;
                auth_error := Some {| perr_message := "Failed to fetch" |} |}
  /\ fst (exec world_getUser_fails getCurrentUser)
     = Normal {| user := None; error := None |}
  /\ fst (exec world_getUser_fails getCurrentUser)
     = fst (exec world_no_session getCurrentUser).
Proof. split; [|split]; reflexivity. Qed.

Lemma getCurrentUser_no_session_witness :
  exec world_no_session getCurrentUser
  = (Normal {| user := None; error := None |},
     [EvCall auth_getUser
        (Returned {| auth_user := None;
                     auth_error := Some {| perr_message := "Auth session missing!" |} |})]).
Proof.
  apply (proj1 (getCurrentUser_no_session world_no_session)). reflexivity.
Defined.

(* ================================================================== *)
(** ** getUserDataWithRetry *)

Lemma getUserData_loop_S userId maxRetries delayMs remaining i :
  getUserData_loop userId maxRetries delayMs (S remaining) i
  = (step <- try_catch
               (r <- call (users_select_role userId) ;;
                if no_error_and_data r
                then ret (Some {| ud_data := pg_data r; ud_error := None |})
                else
                  when (i <? maxRetries - 1)%nat (emit (Delay delayMs)) ;;;
                  ret None)
               (fun e =>
                  if (i =? maxRetries - 1)%nat
                  then ret (Some {| ud_data := None; ud_error := Some e |})
                  else emit (Delay delayMs) ;;; ret None) ;;
     match step with
     | Some result => ret result
     | None => getUserData_loop userId maxRetries delayMs remaining (S i)
     end).
Proof. reflexivity. Qed.

Section UserDataLoop.
Variable w : World.
Variable userId : string.
Variables maxRetries delayMs : nat.

(** Attempt [k] from here succeeds after [k] failures, and the loop has
    more than [k] rounds left: it returns the row, having made [k + 1]
    attempts. *)
Lemma getUserData_loop_first_success k : forall remaining i tr row,
  k < remaining ->
  i + remaining <= maxRetries ->
  first_success (fun j => w _ (users_select_role userId) (count_op op_users_select_role tr + j)) k row ->
  exists evs,
    run w (getUserData_loop userId maxRetries delayMs remaining i) tr
    = (Normal {| ud_data := Some row; ud_error := None |}, tr ++ evs)
    /\ retry_events op_users_select_role evs /\ count_op op_users_select_role evs = S k.
Proof.
  induction k as [|k IH]; intros remaining i tr row Hk Hi (Hfail & Hok & Hrow).
  - destruct remaining as [|remaining]; [lia|].
    rewrite Nat.add_0_r in Hok, Hrow.
    destruct (attempt_succeeds_inv _ Hok) as (r & Hr & Hokr).
    rewrite Hr in Hrow. simpl in Hrow.
    rewrite getUserData_loop_S. cbn.
    rewrite Hr. cbn. rewrite Hokr. cbn. rewrite Hrow.
    eexists. split; [reflexivity|]. split; reflexivity.
  - destruct remaining as [|remaining]; [lia|].
    assert (Hnot_last : (i =? maxRetries - 1)%nat = false).
    { apply Nat.eqb_neq. lia. }
    assert (Hstep : exists evs1,
               run w (getUserData_loop userId maxRetries delayMs (S remaining) i) tr
               = run w (getUserData_loop userId maxRetries delayMs remaining (S i))
                   (tr ++ evs1)
               /\ retry_events op_users_select_role evs1 /\ count_op op_users_select_role evs1 = 1).
    { pose proof (Hfail 0 ltac:(lia)) as H0. rewrite Nat.add_0_r in H0.
      rewrite getUserData_loop_S. rewrite Hnot_last.
      destruct (i <? maxRetries - 1)%nat.
      all: cbn in *.
      all: destruct (w _ (users_select_role userId)
                       (count_op op_users_select_role tr)) as [r|e]; cbn in *.
      all: try (destruct (no_error_and_data r); [discriminate|]; cbn).
      all: rewrite <- ?app_assoc.
      all: eexists; (split; [reflexivity|]); split; reflexivity. }
    destruct Hstep as (evs1 & Hrun1 & Hev1 & Hc1).
    assert (Hcount : count_op op_users_select_role (tr ++ evs1) = S (count_op op_users_select_role tr)).
    { rewrite count_op_app, Hc1. lia. }
    destruct (IH remaining (S i) (tr ++ evs1) row) as (evs2 & Hrun2 & Hev2 & Hc2).
    + lia.
    + lia.
    + rewrite Hcount. split; [|split].
      * intros j Hj.
        replace (S (count_op op_users_select_role tr) + j) with (count_op op_users_select_role tr + S j) by lia.
        apply Hfail. lia.
      * replace (S (count_op op_users_select_role tr) + k) with (count_op op_users_select_role tr + S k) by lia.
        exact Hok.
      * replace (S (count_op op_users_select_role tr) + k) with (count_op op_users_select_role tr + S k) by lia.
        exact Hrow.
    + exists (evs1 ++ evs2). rewrite Hrun1, Hrun2, app_assoc.
      split; [reflexivity|]. split.
      * apply retry_events_app; assumption.
      * rewrite count_op_app, Hc1, Hc2. reflexivity.
Qed.
End UserDataLoop.

(** The role lookup of the guards succeeds on attempt [k] of 5. *)
Lemma getUserDataWithRetry_first_success (w : World) userId k row tr :
  count_op op_users_select_role tr = 0 ->
  k < 5 ->
  first_success (w _ (users_select_role userId)) k row ->
  exists evs,
    run w (getUserDataWithRetry userId) tr
    = (Normal {| ud_data := Some row; ud_error := None |}, tr ++ evs)
    /\ retry_events op_users_select_role evs
    /\ count_op op_users_select_role evs = S k.
Proof.
  intros H0 Hk Hfirst. unfold getUserDataWithRetry.
  apply getUserData_loop_first_success; [exact Hk | lia |].
  rewrite H0. exact Hfirst.
Qed.

(* ================================================================== *)
(** ** The route guards *)

Lemma retry_events_fold op evs rest st :
  retry_events op evs ->
  fold_left apply_event (evs ++ rest) st = fold_left apply_event rest st.
Proof.
  intros H. rewrite fold_left_app, (retry_events_state op evs st H). reflexivity.
Qed.

Lemma retry_events_states op evs rest st (P : GuardState -> Prop) :
  retry_events op evs ->
  P st ->
  Forall P (states_from st rest) ->
  Forall P (states_from st (evs ++ rest)).
Proof.
  unfold retry_events. intros H Hst Hrest.
  induction evs as [|e evs IH]; simpl in *; [exact Hrest|].
  apply andb_true_iff in H. destruct H as [He Hevs].
  constructor; [exact Hst|].
  destruct e as [R c o|[]]; simpl in *; try discriminate; auto.
Qed.

Lemma retry_events_state_at_call op op' evs rest st :
  retry_events op evs ->
  Op_eqb op op' = false ->
  state_at_call_from op' st (evs ++ rest) = state_at_call_from op' st rest.
Proof.
  unfold retry_events. intros H Hne.
  induction evs as [|e evs IH]; simpl in *; [reflexivity|].
  apply andb_true_iff in H. destruct H as [He Hevs].
  destruct e as [R c o|[]]; simpl in *; try discriminate; auto.
  apply Op_eqb_eq in He. rewrite He, Hne. auto.
Qed.

Lemma retry_events_first_settled op evs rest st (render : GuardState -> View) :
  retry_events op evs ->
  settled (render st) = false ->
  find settled (map render (states_from st (evs ++ rest)))
  = find settled (map render (states_from st rest)).
Proof.
  unfold retry_events. intros H Hst.
  induction evs as [|e evs IH]; simpl in *; [reflexivity|].
  apply andb_true_iff in H. destruct H as [He Hevs].
  rewrite Hst.
  destruct e as [R c o|[]]; simpl in *; try discriminate; auto.
Qed.

Lemma access_denied_message_names_role r :
  exists pre post, access_denied_message r = (pre ++ r ++ post)%string.
Proof. unfold access_denied_message. eauto. Qed.

Lemma active_session_inv (w : World) session :
  active_session w = Some session ->
  exists s, w _ auth_getSession 0 = Returned s /\ auth_session s = Some session.
Proof.
  unfold active_session.
  destruct (w _ auth_getSession 0) as [s|]; try discriminate. eauto.
Qed.

(** A trace as a run leaves it, put in the form
    [e :: ... :: evs ++ e' :: ... :: []]. *)
Ltac norm_trace := rewrite <- ?app_assoc; cbn [app].

(** Facts about a trace of the form [e :: evs ++ rest], [evs] being the
    events of the role lookup. *)
Ltac trace_in :=
  right; apply in_or_app; right; cbn [In]; auto 20.

Ltac trace_state_at_call :=
  unfold state_at_call;
  cbn [state_at_call_from is_call_of op_of Op_eqb apply_event];
  match goal with
  | H : retry_events ?op ?evs |- context [state_at_call_from ?op' ?st (?evs ++ ?rest)] =>
      rewrite (retry_events_state_at_call op op' evs rest st H eq_refl)
  end;
  reflexivity.

Ltac trace_state_after :=
  unfold state_after; cbn [fold_left apply_event];
  match goal with
  | H : retry_events ?op ?evs |- context [fold_left apply_event (?evs ++ ?rest) ?st] =>
      rewrite (retry_events_fold op evs rest st H)
  end;
  reflexivity.

Ltac trace_first_settled :=
  unfold first_settled_view, states_along;
  cbn [states_from apply_event map find settled];
  match goal with
  | H : retry_events ?op ?evs
    |- context [find settled (map ?render (states_from ?st (?evs ++ ?rest)))] =>
      rewrite (retry_events_first_settled op evs rest st render H eq_refl)
  end.

Ltac trace_states tac :=
  unfold states_along; cbn [states_from apply_event];
  constructor; [tac|];
  match goal with
  | H : retry_events ?op ?evs |- Forall _ (states_from ?st (?evs ++ ?rest)) =>
      apply (retry_events_states op evs rest st _ H); [tac|]
  end;
  cbn [states_from apply_event];
  repeat (constructor; [tac|]); constructor.

(** C6, as the code has it.  A session is active, the role lookup and
    the doctor step succeed, and the resolved role is not in the
    allow-list of the route.  Then ProtectedRoute shows the toast
    'Access denied. Your role (<role>) does not have permission to
    access this area.' and issues one sign-out call; the session is gone
    when that call reports success.  The state it holds while the
    sign-out is awaited, authenticated with the denied role, renders the
    redirect to [/login]; that redirect is the first thing it shows
    after the loading placeholder, and in no state along the way does it
    render its children.  Once the sign-out call is over it sets
    [isAuthenticated = false, userRole = null], a state whose own render
    is the loading placeholder. *)
Theorem ProtectedRoute_denies_role (w : World) allowedRoles location session k row :
  active_session w = Some session ->
  k < 5 ->
  first_success (w _ (users_select_role (au_id (session_user session)))) k row ->
  doctor_verified w (au_id (session_user session)) (rr_role row) = true ->
  includes allowedRoles (rr_role row) = false ->
  let tr := snd (exec w (ProtectedRoute_checkAuth allowedRoles)) in
  let view := ProtectedRoute_render allowedRoles location in
  count_op op_auth_signOut tr = 1
  /\ In (EvOut (ToastError (access_denied_message (rr_role row)))) tr
  /\ (exists pre post,
        access_denied_message (rr_role row) = (pre ++ rr_role row ++ post)%string)
  /\ (exists st,
        state_at_call op_auth_signOut tr = Some st
        /\ st = {| isAuthenticated := Some true; userRole := Some (rr_role row) |}
        /\ view st = Navigate "/login" location)
  /\ first_settled_view view tr = Some (Navigate "/login" location)
  /\ Forall (fun st => view st <> Children) (states_along tr)
  /\ state_after tr = {| isAuthenticated := Some false; userRole := None |}
  /\ access_denied_message (rr_role row)
     = ("Access denied. Your role (" ++ rr_role row
          ++ ") does not have permission to access this area.")%string
  /\ (sign_out_succeeds (w _ auth_signOut 0) = true ->
      forall s, session_after s tr = None)
  /\ view (state_after tr) = Loading.
Proof.
  intros Hsession Hk Hfirst Hdoctor Hdenied tr view. subst tr view.
  enough (Hrun : exists x tr,
             exec w (ProtectedRoute_checkAuth allowedRoles) = (x, tr)
             /\ count_op op_auth_signOut tr = 1
             /\ In (EvOut (ToastError (access_denied_message (rr_role row)))) tr
             /\ state_at_call op_auth_signOut tr
                = Some {| isAuthenticated := Some true;
                          userRole := Some (rr_role row) |}
             /\ first_settled_view
                  (ProtectedRoute_render allowedRoles location) tr
                = Some (Navigate "/login" location)
             /\ Forall (fun st =>
                          ProtectedRoute_render allowedRoles location st <> Children)
                       (states_along tr)
             /\ state_after tr
                = {| isAuthenticated := Some false; userRole := None |}
             /\ (sign_out_succeeds (w _ auth_signOut 0) = true ->
                 forall s, session_after s tr = None)).
  { destruct Hrun as (x & tr & -> & H1 & H2 & H3 & Hv & H4 & H5 & H6). cbn [snd].
    split; [exact H1|]. split; [exact H2|].
    split; [apply access_denied_message_names_role|].
    split; [|split; [exact Hv | split; [exact H4 | split; [exact H5|]]]].
    - eexists. split; [exact H3|]. split; [reflexivity|].
      unfold ProtectedRoute_render. cbn. rewrite Hdenied. reflexivity.
    - split; [reflexivity|]. split; [exact H6|].
      rewrite H5. reflexivity. }
  destruct (active_session_inv w session Hsession) as (s & Hs & Hss).
  unfold exec, ProtectedRoute_checkAuth. run.
  match goal with
  | |- context [run w (try_catch (bind (getUserDataWithRetry ?uid) _) _) ?tr] =>
      destruct (getUserDataWithRetry_first_success w uid k row tr eq_refl Hk Hfirst)
        as (evs & Hrun & Hev & Hc)
  end.
  rewrite run_try_catch, run_bind, Hrun. cbn.
  unfold doctor_verified in Hdoctor. rewrite Hdenied. revert Hdoctor.
  destruct (rr_role row =? "doctor") eqn:Hrole.
  all: run; intros Hdoctor; try discriminate Hdoctor.
  all: eexists; eexists; split; [reflexivity|]; norm_trace.
  all: split; [count_calls|].
  all: split; [trace_in|].
  all: split; [trace_state_at_call|].
  all: split;
    [ trace_first_settled;
      cbn [states_from apply_event map find settled ProtectedRoute_render
           isAuthenticated userRole negb orb];
      rewrite Hdenied; reflexivity |].
  all: split;
    [ trace_states ltac:(unfold ProtectedRoute_render; cbn;
                         rewrite ?Hdenied; cbn; discriminate) |].
  all: split; [trace_state_after|].
  all: intros Hout s'; cbn in Hout; try discriminate Hout; trace_session.
  all: destruct (signout_error _); [discriminate | reflexivity].
Qed.

Lemma ProtectedRoute_denies_role_witness :
  let tr := snd (exec world_registration_clerk (ProtectedRoute_checkAuth ["admin"])) in
  count_op op_auth_signOut tr = 1
  /\ In (EvOut (ToastError (access_denied_message "registration"))) tr
  /\ state_at_call op_auth_signOut tr
     = Some {| isAuthenticated := Some true; userRole := Some "registration" |}
  /\ first_settled_view (ProtectedRoute_render ["admin"] "/admin") tr
     = Some (Navigate "/login" "/admin")
  /\ Forall (fun st => ProtectedRoute_render ["admin"] "/admin" st <> Children)
            (states_along tr)
  /\ state_after tr = {| isAuthenticated := Some false; userRole := None |}
  /\ access_denied_message "registration"
     = "Access denied. Your role (registration) does not have permission to access this area."
  /\ session_after (Some alice_principal) tr = None.
Proof.
  assert (Hfirst : first_success
                     (world_registration_clerk _
                        (users_select_role (au_id alice_principal)))
                     1 {| rr_role := "registration" |}).
  { split; [|split; reflexivity].
    intros i Hi. destruct i; [reflexivity | lia]. }
  destruct (ProtectedRoute_denies_role world_registration_clerk ["admin"] "/admin"
              {| session_user := alice_principal |} 1
              {| rr_role := "registration" |}
              eq_refl ltac:(lia) Hfirst eq_refl eq_refl)
    as (H1 & H2 & _ & (st & H3 & -> & _) & Hv & H4 & H5 & H6 & H7 & _).
  split; [exact H1|]. split; [exact H2|]. split; [exact H3|].
  split; [exact Hv|]. split; [exact H4|]. split; [exact H5|].
  split; [exact H6|]. apply H7. reflexivity.
Defined.

(** C6 as stated fails.  The registration clerk on the route of the
    admins, the sign-out call coming back with an error: the guard has
    issued its sign-out, yet the session is still there, and the state
    the guard ends in renders the loading placeholder, not the
    redirect. *)
Lemma ProtectedRoute_denied_session_survives :
  active_session world_sign_out_refused
  = Some {| session_user := alice_principal |}
  /\ first_success
       (world_sign_out_refused _ (users_select_role (au_id alice_principal)))
       1 {| rr_role := "registration" |}
  /\ doctor_verified world_sign_out_refused (au_id alice_principal) "registration"
     = true
  /\ includes ["admin"] "registration" = false
  /\ count_op op_auth_signOut
       (snd (exec world_sign_out_refused (ProtectedRoute_checkAuth ["admin"]))) = 1
  /\ session_after (Some alice_principal)
       (snd (exec world_sign_out_refused (ProtectedRoute_checkAuth ["admin"])))
     = Some alice_principal
  /\ ProtectedRoute_render ["admin"] "/admin"
       (state_after
          (snd (exec world_sign_out_refused (ProtectedRoute_checkAuth ["admin"]))))
     = Loading.
Proof.
  split; [reflexivity|].
  split.
  { split; [|split; reflexivity].
    intros i Hi. destruct i; [reflexivity | lia]. }
  repeat split.
Qed.

(** The render of ProtectedRoute tests [userRole === null] first: a state
    without a role shows the loading placeholder, whatever
    [isAuthenticated] is. *)
Remark ProtectedRoute_render_without_role allowedRoles location a :
  ProtectedRoute_render allowedRoles location
    {| isAuthenticated := a; userRole := None |} = Loading.
Proof. destruct a; reflexivity. Qed.

(** C7. With an active session whose role lookup succeeds, AuthRoute
    ends authenticated with the resolved role and renders a redirect,
    never its children; the target is [/admin] for admin, [/doctor] for
    doctor, [/department] for department and [/login] for any other
    role. *)
Theorem AuthRoute_redirects_by_role (w : World) location session k row :
  active_session w = Some session ->
  k < 5 ->
  first_success (w _ (users_select_role (au_id (session_user session)))) k row ->
  let tr := snd (exec w AuthRoute_checkAuth) in
  let r := rr_role row in
  state_after tr = {| isAuthenticated := Some true; userRole := Some r |}
  /\ AuthRoute_render location (state_after tr)
     = Navigate (dashboardPath (Some r)) location
  /\ Forall (fun st => AuthRoute_render location st <> Children) (states_along tr)
  /\ (r = "admin" -> dashboardPath (Some r) = "/admin")
  /\ (r = "doctor" -> dashboardPath (Some r) = "/doctor")
  /\ (r = "department" -> dashboardPath (Some r) = "/department")
  /\ (r <> "admin" -> r <> "doctor" -> r <> "department" ->
      dashboardPath (Some r) = "/login").
Proof.
  intros Hsession Hk Hfirst tr r. subst tr r.
  assert (Hpaths :
            (rr_role row = "admin" -> dashboardPath (Some (rr_role row)) = "/admin")
            /\ (rr_role row = "doctor" ->
                dashboardPath (Some (rr_role row)) = "/doctor")
            /\ (rr_role row = "department" ->
                dashboardPath (Some (rr_role row)) = "/department")
            /\ (rr_role row <> "admin" -> rr_role row <> "doctor" ->
                rr_role row <> "department" ->
                dashboardPath (Some (rr_role row)) = "/login")).
  { unfold dashboardPath.
    split; [intros ->; reflexivity|].
    split; [intros ->; reflexivity|].
    split; [intros ->; reflexivity|].
    intros Ha Hd Hp.
    apply String.eqb_neq in Ha, Hd, Hp. rewrite Ha, Hd, Hp. reflexivity. }
  enough (Hrun : exists x tr,
             exec w AuthRoute_checkAuth = (x, tr)
             /\ state_after tr
                = {| isAuthenticated := Some true; userRole := Some (rr_role row) |}
             /\ Forall (fun st => AuthRoute_render location st <> Children)
                       (states_along tr)).
  { destruct Hrun as (x & tr & -> & H1 & H2). cbn [snd].
    split; [exact H1|]. split; [rewrite H1; reflexivity|].
    split; [exact H2 | exact Hpaths]. }
  destruct (active_session_inv w session Hsession) as (s & Hs & Hss).
  unfold exec, AuthRoute_checkAuth. run.
  match goal with
  | |- context [run w (try_catch (bind (getUserDataWithRetry ?uid) _) _) ?tr] =>
      destruct (getUserDataWithRetry_first_success w uid k row tr eq_refl Hk Hfirst)
        as (evs & Hrun & Hev & Hc)
  end.
  rewrite run_try_catch, run_bind, Hrun. run.
  eexists; eexists; split; [reflexivity|]; norm_trace.
  split; [trace_state_after|].
  trace_states ltac:(unfold AuthRoute_render; cbn; discriminate).
Qed.

Lemma AuthRoute_redirects_by_role_witness :
  AuthRoute_render "/login" (state_after (snd (exec world_department_user AuthRoute_checkAuth)))
  = Navigate "/department" "/login".
Proof.
  assert (Hfirst : first_success
                     (world_department_user _
                        (users_select_role (au_id alice_principal)))
                     0 {| rr_role := "department" |}).
  { split; [|split; reflexivity]. intros i Hi. lia. }
  destruct (AuthRoute_redirects_by_role world_department_user "/login"
              {| session_user := alice_principal |} 0
              {| rr_role := "department" |} eq_refl ltac:(lia) Hfirst)
    as (_ & H2 & _).
  exact H2.
Defined.

(* ================================================================== *)
(** ** Every run at once *)

Lemma always_weaken {A} (P P' : Trace -> Completion A -> Prop) (p : Async A) :
  always P p ->
  (forall evs x, P evs x -> P' evs x) ->
  always P' p.
Proof.
  revert P P'. induction p as [a|e|R c k IH|o k IH]; simpl; intros P P' H Himp; auto.
  - intros o. eapply IH; [apply H|]. intros evs x. apply Himp.
  - eapply IH; [apply H|]. intros evs x. apply Himp.
Qed.

(** What holds of every run holds of the run in a given world. *)
Lemma always_run {A} (P : Trace -> Completion A -> Prop) (p : Async A) :
  always P p ->
  forall (w : World) tr, exists x evs, run w p tr = (x, tr ++ evs) /\ P evs x.
Proof.
  revert P. induction p as [a|e|R c k IH|o k IH]; simpl; intros P H w tr.
  - exists (Normal a), []. rewrite app_nil_r. auto.
  - exists (Abrupt e), []. rewrite app_nil_r. auto.
  - destruct (IH _ _ (H (w R c (count_op (op_of c) tr))) w
                (tr ++ [EvCall c (w R c (count_op (op_of c) tr))]))
      as (x & evs & Hrun & HP).
    exists x, (EvCall c (w R c (count_op (op_of c) tr)) :: evs).
    rewrite Hrun, <- app_assoc. auto.
  - destruct (IH _ H w (tr ++ [EvOut o])) as (x & evs & Hrun & HP).
    exists x, (EvOut o :: evs). rewrite Hrun, <- app_assoc. auto.
Qed.

Lemma always_bind {A B} (P : Trace -> Completion B -> Prop)
    (m : Async A) (f : A -> Async B) :
  always (fun evs x =>
            match x with
            | Normal a => always (fun evs' y => P (evs ++ evs') y) (f a)
            | Abrupt e => P evs (Abrupt e)
            end) m ->
  always P (bind m f).
Proof.
  revert P. induction m as [a|e|R c k IH|o k IH]; simpl; intros P H; auto.
Qed.

Lemma always_try_catch {A} (P : Trace -> Completion A -> Prop)
    (body : Async A) (h : Err -> Async A) :
  always (fun evs x =>
            match x with
            | Normal a => P evs (Normal a)
            | Abrupt e => always (fun evs' y => P (evs ++ evs') y) (h e)
            end) body ->
  always P (try_catch body h).
Proof.
  revert P. induction body as [a|e|R c k IH|o k IH]; simpl; intros P H; auto.
Qed.

Lemma total_wait_app a b : total_wait (a ++ b) = total_wait a + total_wait b.
Proof. unfold total_wait. rewrite map_app, list_sum_app. reflexivity. Qed.

Lemma toasts_app a b : toasts (a ++ b) = toasts a ++ toasts b.
Proof. unfold toasts. apply flat_map_app. Qed.

Lemma retry_events_toasts op evs : retry_events op evs -> toasts evs = [].
Proof.
  unfold retry_events, toasts.
  induction evs as [|e evs IH]; simpl; intros H; [reflexivity|].
  apply andb_true_iff in H. destruct H as [He Hevs].
  destruct e as [R c o|[]]; simpl in *; try discriminate; auto.
Qed.

Lemma retry_events_cons op e evs :
  retry_event op e = true -> retry_events op evs -> retry_events op (e :: evs).
Proof. unfold retry_events. simpl. intros -> ->. reflexivity. Qed.

Lemma ends_with_call_cons e evs :
  ends_with_call (e :: evs)
  = match evs with [] => is_call e | _ :: _ => ends_with_call evs end.
Proof.
  unfold ends_with_call. simpl.
  destruct evs as [|e' evs]; [reflexivity|].
  simpl. destruct (rev evs ++ [e']) eqn:E.
  - destruct (rev evs); discriminate.
  - reflexivity.
Qed.
(* ================================================================== *)
(** ** getUserDataWithRetry in every world *)

Lemma answered_app w tr a b :
  answered w tr (a ++ b) <-> answered w tr a /\ answered w (tr ++ a) b.
Proof.
  revert tr. induction a as [|e a IH]; intros tr; simpl.
  - rewrite app_nil_r. tauto.
  - rewrite IH, <- app_assoc. simpl. tauto.
Qed.

(** A run records the answers of its world. *)
Lemma always_run_answered {A} (P : Trace -> Completion A -> Prop) (p : Async A) :
  always P p ->
  forall (w : World) tr,
  exists x evs, run w p tr = (x, tr ++ evs) /\ P evs x /\ answered w tr evs.
Proof.
  revert P. induction p as [a|e|R c k IH|o k IH]; simpl; intros P H w tr.
  - exists (Normal a), []. rewrite app_nil_r. simpl. auto.
  - exists (Abrupt e), []. rewrite app_nil_r. simpl. auto.
  - destruct (IH _ _ (H (w R c (count_op (op_of c) tr))) w
                (tr ++ [EvCall c (w R c (count_op (op_of c) tr))]))
      as (x & evs & Hrun & HP & Hans).
    exists x, (EvCall c (w R c (count_op (op_of c) tr)) :: evs).
    rewrite Hrun, <- app_assoc. simpl. auto.
  - destruct (IH _ H w (tr ++ [EvOut o])) as (x & evs & Hrun & HP & Hans).
    exists x, (EvOut o :: evs). rewrite Hrun, <- app_assoc. simpl. auto.
Qed.

Lemma role_lookup_answers_app userId a b :
  role_lookup_answers userId (a ++ b)
  = role_lookup_answers userId a ++ role_lookup_answers userId b.
Proof. unfold role_lookup_answers. apply flat_map_app. Qed.

Section UserDataLoopAlways.
Variable userId : string.
Variables maxRetries delayMs : nat.

Lemma lookup_run_last (o : Outcome (PgResp RoleRow)) remaining :
  (lookup_fails o = true -> remaining = 0) ->
  lookup_run userId delayMs (S remaining)
    [EvCall (users_select_role userId) o] (Normal (result_of_attempt o)).
Proof.
  intros Hgive. exists [], o.
  split; [reflexivity|]. split; [reflexivity|].
  split.
  { unfold role_lookup_answers. simpl. rewrite String.eqb_refl. reflexivity. }
  split; [reflexivity|]. split; [simpl; lia|]. split; [constructor|].
  split; [intros H; rewrite (Hgive H); reflexivity|].
  split; [unfold total_wait; simpl; lia | reflexivity].
Qed.

Lemma lookup_run_retry (o : Outcome (PgResp RoleRow)) remaining evs x :
  lookup_fails o = true ->
  lookup_run userId delayMs remaining evs x ->
  lookup_run userId delayMs (S remaining)
    (EvCall (users_select_role userId) o :: EvOut (Delay delayMs) :: evs) x.
Proof.
  intros Hfail (answers & o' & Hx & Hev & Hans & Hc & Hle & Hall & Hgive & Hw & Hend).
  exists (o :: answers), o'.
  split; [exact Hx|].
  split; [apply retry_events_cons; [reflexivity|];
          apply retry_events_cons; [reflexivity | exact Hev]|].
  split.
  { unfold role_lookup_answers in *. simpl. rewrite String.eqb_refl. simpl.
    rewrite Hans. reflexivity. }
  split.
  { rewrite !count_op_cons, Hc. reflexivity. }
  split; [simpl; lia|].
  split; [constructor; assumption|].
  split; [intros H; simpl; rewrite (Hgive H); reflexivity|].
  split.
  { unfold total_wait in *. simpl. rewrite Hw. simpl. lia. }
  rewrite !ends_with_call_cons.
  destruct evs as [|e evs]; [discriminate Hend | exact Hend].
Qed.

(** Every run of the loop, [remaining] rounds being left. *)
Lemma getUserData_loop_always : forall remaining i,
  i + remaining = maxRetries ->
  0 < remaining ->
  always (lookup_run userId delayMs remaining)
         (getUserData_loop userId maxRetries delayMs remaining i).
Proof.
  induction remaining as [|remaining IH]; intros i Hi Hpos; [lia|].
  rewrite getUserData_loop_S.
  assert (Hsuccess : forall r,
            no_error_and_data r = true ->
            lookup_run userId delayMs (S remaining)
              [EvCall (users_select_role userId) (Returned r)]
              (Normal {| ud_data := pg_data r; ud_error := None |})).
  { intros r Hok.
    pose proof (lookup_run_last (Returned r) remaining) as H.
    unfold result_of_attempt in H. simpl in H. rewrite Hok in H.
    apply H. discriminate. }
  destruct remaining as [|remaining].
  - replace (i <? maxRetries - 1)%nat with false by (symmetry; apply Nat.ltb_ge; lia).
    replace (i =? maxRetries - 1)%nat with true by (symmetry; apply Nat.eqb_eq; lia).
    cbn. intros [r|e]; cbn.
    + destruct (no_error_and_data r) eqn:Hok; cbn; [auto|].
      unfold getUserData_loop. cbn.
      pose proof (lookup_run_last (Returned r) 0 (fun _ => eq_refl)) as H.
      unfold result_of_attempt in H. simpl in H. rewrite Hok in H. exact H.
    + exact (lookup_run_last (Threw e) 0 (fun _ => eq_refl)).
  - replace (i <? maxRetries - 1)%nat with true by (symmetry; apply Nat.ltb_lt; lia).
    replace (i =? maxRetries - 1)%nat with false by (symmetry; apply Nat.eqb_neq; lia).
    cbn. intros [r|e]; cbn.
    + destruct (no_error_and_data r) eqn:Hok; cbn; [auto|].
      eapply always_weaken; [apply IH; lia|].
      intros evs x H.
      apply (lookup_run_retry (Returned r)); [simpl; rewrite Hok; reflexivity | exact H].
    + eapply always_weaken; [apply IH; lia|].
      intros evs x H. apply (lookup_run_retry (Threw e)); [reflexivity | exact H].
Qed.
End UserDataLoopAlways.

Lemma getUserDataWithRetry_always userId :
  always (lookup_run userId 1000 5) (getUserDataWithRetry userId).
Proof. unfold getUserDataWithRetry. apply getUserData_loop_always; lia. Qed.
Lemma role_lookup_answers_le userId evs :
  length (role_lookup_answers userId evs) <= count_op op_users_select_role evs.
Proof.
  unfold role_lookup_answers.
  induction evs as [|e evs IH]; [unfold count_op; simpl; lia|].
  rewrite count_op_cons. simpl. rewrite length_app.
  destruct e as [R c o|o]; simpl; [|lia].
  destruct c; simpl; try lia.
  match goal with |- context [(?a =? userId)%string] => destruct (a =? userId)%string end;
    simpl; lia.
Qed.

(** When every call of a stretch of events is a role lookup for
    [userId], its answers are those of the world, in order. *)
Lemma answered_role_lookups (w : World) userId : forall evs tr,
  answered w tr evs ->
  count_op op_users_select_role evs = length (role_lookup_answers userId evs) ->
  forall j a,
    nth_error (role_lookup_answers userId evs) j = Some a ->
    a = w _ (users_select_role userId) (count_op op_users_select_role tr + j).
Proof.
  induction evs as [|e evs IH]; intros tr Hans Hlen j a Hj.
  - destruct j; discriminate.
  - simpl in Hans. destruct Hans as [He Hans].
    rewrite count_op_cons in Hlen.
    pose proof (role_lookup_answers_le userId evs) as Hle.
    unfold role_lookup_answers in *. simpl in Hlen, Hj.
    rewrite length_app in Hlen.
    assert (Hskip : role_lookup_answer userId e = None ->
                    is_call_of op_users_select_role e = false ->
                    a = w _ (users_select_role userId)
                          (count_op op_users_select_role tr + j)).
    { intros Hnone Hcall. rewrite Hnone in Hj, Hlen. rewrite Hcall in Hlen.
      simpl in Hj, Hlen.
      rewrite (IH (tr ++ [e]) Hans Hlen j a Hj).
      rewrite count_op_app, count_op_cons, Hcall, count_op_nil.
      f_equal. lia. }
    destruct e as [R c o|o]; [|apply Hskip; reflexivity].
    destruct c; try (apply Hskip; reflexivity).
    simpl in Hlen, Hj.
    match type of Hj with
    | context [(?a =? userId)%string] => destruct (String.eqb_spec a userId) as [->|Hne]
    end.
    + simpl in Hlen, Hj. destruct j as [|j]; simpl in Hj.
      * injection Hj as <-. rewrite Nat.add_0_r. exact He.
      * rewrite (IH (tr ++ [EvCall (users_select_role userId) o]) Hans
                   ltac:(lia) j a Hj).
        rewrite count_op_app, count_op_cons, count_op_nil. simpl. f_equal. lia.
    + simpl in Hlen. lia.
Qed.

Lemma result_of_attempt_xor o : data_xor_error (result_of_attempt o).
Proof.
  unfold result_of_attempt, data_xor_error.
  destruct o as [r|e]; simpl.
  - destruct (no_error_and_data r) eqn:Hok; simpl.
    + destruct (no_error_and_data_true r Hok) as (_ & d & Hd). left. eauto.
    + right. eauto.
  - right. eauto.
Qed.

(** The run of getUserDataWithRetry in a world, from any trace. *)
Lemma getUserDataWithRetry_run (w : World) userId tr :
  exists evs answers o,
    run w (getUserDataWithRetry userId) tr
    = (Normal (result_of_attempt o), tr ++ evs)
    /\ role_lookup_answers userId evs = answers ++ [o]
    /\ (forall j a,
          nth_error (answers ++ [o]) j = Some a ->
          a = w _ (users_select_role userId)
                (count_op op_users_select_role tr + j))
    /\ retry_events op_users_select_role evs
    /\ count_op op_users_select_role evs = S (length answers)
    /\ length answers < 5
    /\ Forall (fun a => lookup_fails a = true) answers
    /\ (lookup_fails o = true -> length answers = 4)
    /\ total_wait evs = length answers * 1000
    /\ ends_with_call evs = true.
Proof.
  destruct (always_run_answered _ _ (getUserDataWithRetry_always userId) w tr)
    as (x & evs & Hrun & Hpost & Hans).
  destruct Hpost as (answers & o & -> & Hev & Hanswers & Hc & Hle & Hall & Hgive & Hw & Hend).
  exists evs, answers, o.
  split; [exact Hrun|]. split; [exact Hanswers|].
  split.
  { intros j a Hj. rewrite <- Hanswers in Hj.
    apply (answered_role_lookups w userId evs tr Hans); [|exact Hj].
    rewrite Hanswers, length_app, Hc. simpl. lia. }
  split; [exact Hev|]. split; [exact Hc|]. split; [lia|].
  split; [exact Hall|]. split; [intros H; specialize (Hgive H); lia|].
  split; [exact Hw | exact Hend].
Qed.

(** X1.  getUserDataWithRetry in every world, whatever the lookups
    return or raise.  It resolves (it never rejects) after one to five
    role lookups and nothing but lookups and waits; every lookup but the
    last one failed; the result is decided by the last lookup alone: the
    row if it succeeded, otherwise an error, and it gives up only once
    five lookups have failed; a wait of 1000 ms follows each lookup but
    the last, so nothing is waited for after the answer that decides. *)
Theorem getUserDataWithRetry_every_world (w : World) userId tr :
  exists res evs answers o,
    run w (getUserDataWithRetry userId) tr = (Normal res, tr ++ evs)
    /\ role_lookup_answers userId evs = answers ++ [o]
    /\ (forall j a,
          nth_error (answers ++ [o]) j = Some a ->
          a = w _ (users_select_role userId)
                (count_op op_users_select_role tr + j))
    /\ res = result_of_attempt o
    /\ data_xor_error res
    /\ retry_events op_users_select_role evs
    /\ count_op op_users_select_role evs = S (length answers)
    /\ length answers < 5
    /\ Forall (fun a => lookup_fails a = true) answers
    /\ (lookup_fails o = true -> length answers = 4)
    /\ total_wait evs = length answers * 1000
    /\ ends_with_call evs = true.
Proof.
  destruct (getUserDataWithRetry_run w userId tr)
    as (evs & answers & o & Hrun & H1 & H2 & H3 & H4 & H5 & H6 & H7 & H8 & H9).
  exists (result_of_attempt o), evs, answers, o.
  split; [exact Hrun|]. split; [exact H1|]. split; [exact H2|].
  split; [reflexivity|]. split; [apply result_of_attempt_xor|].
  auto 10.
Qed.

(** The five role lookups fail. *)
Lemma getUserDataWithRetry_all_fail (w : World) userId tr :
  (forall j, j < 5 ->
     lookup_fails (w _ (users_select_role userId)
                     (count_op op_users_select_role tr + j)) = true) ->
  exists evs,
    run w (getUserDataWithRetry userId) tr
    = (Normal {| ud_data := None;
                 ud_error :=
                   Some (exhausted_error
                           (w _ (users_select_role userId)
                              (count_op op_users_select_role tr + 4))) |},
       tr ++ evs)
    /\ retry_events op_users_select_role evs
    /\ count_op op_users_select_role evs = 5
    /\ total_wait evs = 4000.
Proof.
  intros Hfail.
  destruct (getUserDataWithRetry_run w userId tr)
    as (evs & answers & o & Hrun & Hanswers & Hw & Hev & Hc & Hlt & Hall & Hgive & Hwait & Hend).
  assert (Ho : o = w _ (users_select_role userId)
                     (count_op op_users_select_role tr + length answers)).
  { apply Hw. rewrite nth_error_app2, Nat.sub_diag; [reflexivity | lia]. }
  assert (Hofail : lookup_fails o = true).
  { rewrite Ho. apply Hfail. exact Hlt. }
  specialize (Hgive Hofail). rewrite Hgive in *.
  exists evs. rewrite Hrun. subst o.
  unfold result_of_attempt.
  replace (attempt_succeeds _) with false.
  2:{ symmetry. revert Hofail.
      destruct (w _ (users_select_role userId) _) as [r|e]; simpl; [|reflexivity].
      destruct (no_error_and_data r); [discriminate | reflexivity]. }
  split; [reflexivity|]. split; [exact Hev|]. split; [exact Hc|].
  rewrite Hwait. reflexivity.
Qed.

(** X2.  When each of the five role lookups fails, getUserDataWithRetry
    resolves to no data and an error after five lookups and four waits
    of 1000 ms.  The error is the exception of the fifth lookup if that
    one raised, and otherwise the generic
    [Error('Failed to get user data after retries')]: an error a lookup
    returned, and an exception of an earlier lookup, is reported to
    nobody. *)
Theorem getUserDataWithRetry_exhausted (w : World) userId tr :
  (forall j, j < 5 ->
     lookup_fails (w _ (users_select_role userId)
                     (count_op op_users_select_role tr + j)) = true) ->
  exists evs,
    run w (getUserDataWithRetry userId) tr
    = (Normal {| ud_data := None;
                 ud_error :=
                   Some (exhausted_error
                           (w _ (users_select_role userId)
                              (count_op op_users_select_role tr + 4))) |},
       tr ++ evs)
    /\ retry_events op_users_select_role evs
    /\ count_op op_users_select_role evs = 5
    /\ total_wait evs = 4000.
Proof. apply getUserDataWithRetry_all_fail. Qed.
(* ================================================================== *)
(** ** The guards in every world *)

(** The tree is computed as far as it is known, the property kept as
    it is. *)
Ltac always_cbn :=
  cbn [always bind try_catch call emit when ret throw app fst snd negb
       ud_error ud_data pg_data pg_error auth_user auth_error auth_session
       session_user au_id signout_error or_new_error platform option_map
       attempt_succeeds returned_data exhausted_error
       ProtectedRoute_verify_doctor Nat.ltb Nat.leb].

(** Every run of getUserDataWithRetry, then what follows it. *)
Ltac always_lookup :=
  eapply always_weaken; [apply getUserDataWithRetry_always|];
  let evs := fresh "evs" in
  let answers := fresh "answers" in
  let o := fresh "o" in
  let Hev := fresh "Hev" in
  let Hans := fresh "Hans" in
  let Hc := fresh "Hc" in
  let Hle := fresh "Hle" in
  let Hall := fresh "Hall" in
  let Hgive := fresh "Hgive" in
  let Hw := fresh "Hw" in
  let Hend := fresh "Hend" in
  intros evs ? (answers & o & -> & Hev & Hans & Hc & Hle & Hall & Hgive & Hw & Hend);
  unfold result_of_attempt;
  destruct o as [?r|?e].

(** One step of the examination of every run of a tree. *)
Ltac always_step :=
  lazymatch goal with
  | |- forall o : Outcome _, _ => intros [?r|?e]
  | |- always _ (try_catch (bind (getUserDataWithRetry _) _) _) =>
      apply always_try_catch, always_bind; always_lookup
  | |- always _ (bind (getUserDataWithRetry _) _) =>
      apply always_bind; always_lookup
  | |- always _ ?p =>
      lazymatch p with
      | context [negb (no_error_and_data ?r)] =>
          let E := fresh "E" in
          destruct (no_error_and_data r) eqn:E
      | context [if no_error_and_data ?r then _ else _] =>
          let E := fresh "E" in
          destruct (no_error_and_data r) eqn:E;
          [ let Hd := fresh "Hd" in
            let d := fresh "d" in
            destruct (no_error_and_data_true r E) as [? [d Hd]]; try rewrite Hd
          | ]
      | context [match auth_session ?r with _ => _ end] => case_on (auth_session r)
      | context [match pg_error ?r with _ => _ end] => case_on (pg_error r)
      | context [match pg_data ?r with _ => _ end] => case_on (pg_data r)
      | context [match auth_error ?r with _ => _ end] => case_on (auth_error r)
      | context [match auth_user ?r with _ => _ end] => case_on (auth_user r)
      | context [match signout_error ?r with _ => _ end] => case_on (signout_error r)
      | context [if (?a =? ?b)%string then _ else _] => case_on (a =? b)%string
      | context [if includes ?l ?r then _ else _] => case_on (includes l r)
      | context [negb (includes ?l ?r)] => case_on (includes l r)
      end
  end.

Ltac always_go := always_cbn; repeat (always_step; always_cbn).

Lemma toasts_cons e tr :
  toasts (e :: tr)
  = match e with EvOut (ToastError m) => m :: toasts tr | _ => toasts tr end.
Proof. destruct e as [R c o|[]]; reflexivity. Qed.

Lemma total_wait_cons e tr : total_wait (e :: tr) = wait_of e + total_wait tr.
Proof. reflexivity. Qed.

Lemma state_after_from tr : state_after tr = fold_left apply_event tr initial_state.
Proof. reflexivity. Qed.

(** The facts about a trace made of known events and of the events of
    a retry loop, computed. *)
Ltac trace_norm :=
  rewrite <- ?app_assoc; cbn [app];
  rewrite ?state_after_from;
  rewrite ?count_op_cons, ?count_op_app, ?count_op_cons, ?count_op_nil;
  rewrite ?ops_called_cons_call, ?ops_called_cons_out, ?ops_called_app,
    ?ops_called_cons_call, ?ops_called_cons_out, ?ops_called_nil;
  rewrite ?toasts_cons, ?toasts_app, ?toasts_cons;
  rewrite ?total_wait_cons, ?total_wait_app, ?total_wait_cons;
  rewrite ?session_after_cons, ?session_after_app, ?session_after_cons,
    ?session_after_nil;
  cbn [fold_left apply_event];
  repeat match goal with
         | H : retry_events ?op ?evs |- context [count_op ?op' ?evs] =>
             rewrite (retry_events_count_other op op' evs H eq_refl)
         | H : count_op ?op ?evs = _ |- context [count_op ?op ?evs] => rewrite H
         | H : retry_events ?op ?evs |- context [ops_called ?evs] =>
             rewrite (retry_events_ops op evs H)
         | H : retry_events ?op ?evs |- context [toasts ?evs] =>
             rewrite (retry_events_toasts op evs H)
         | H : total_wait ?evs = _ |- context [total_wait ?evs] => rewrite H
         | H : retry_events ?op ?evs |- context [session_after ?s ?evs] =>
             rewrite (retry_events_session op evs s H eq_refl eq_refl)
         | H : retry_events ?op ?evs
           |- context [fold_left apply_event (?evs ++ ?rest) ?st] =>
             rewrite (retry_events_fold op evs rest st H)
         | H : retry_events ?op ?evs
           |- context [fold_left apply_event ?evs ?st] =>
             rewrite (retry_events_state op evs st H)
         end;
  cbn [is_call_of Op_eqb op_of wait_of session_step fold_left apply_event
       toasts total_wait flat_map map list_sum fold_right app repeat Nat.add
       isAuthenticated userRole];
  rewrite ?Nat.add_0_r.

(** A property of every state along such a trace. *)
Ltac trace_forall tac :=
  unfold states_along;
  repeat (cbn [states_from apply_event];
          lazymatch goal with
          | H : retry_events ?op ?evs
            |- Forall _ (states_from ?st (?evs ++ ?rest)) =>
              apply (retry_events_states op evs rest st _ H); [tac|]
          | |- Forall _ (_ :: _) => constructor; [tac|]
          | |- Forall _ [] => constructor
          end).

Ltac split_all := repeat match goal with |- _ /\ _ => split end.

Lemma AuthRoute_checkAuth_always location s0 :
  always (fun evs x =>
            x = Normal tt
            /\ ops_called evs
               = op_auth_getSession
                   :: repeat op_users_select_role (count_op op_users_select_role evs)
            /\ count_op op_users_select_role evs <= 5
            /\ toasts evs = []
            /\ total_wait evs <= 4000
            /\ session_after s0 evs = s0
            /\ ((state_after evs = signed_off
                 /\ AuthRoute_render location (state_after evs) = Children)
                \/ (exists r,
                      state_after evs
                      = {| isAuthenticated := Some true; userRole := Some r |}
                      /\ AuthRoute_render location (state_after evs)
                         = Navigate (dashboardPath (Some r)) location)))
         AuthRoute_checkAuth.
Proof.
  unfold AuthRoute_checkAuth. set (limit := 4000).
  always_go.
  all: rewrite ?app_nil_r.
  all: split_all.
  all: trace_norm; rewrite ?app_nil_r.
  all: try reflexivity.
  all: try (subst limit; lia).
  all: first [ left; split; reflexivity | right; eexists; split; reflexivity ].
Qed.

Lemma ProtectedRoute_checkAuth_always allowedRoles location s0 :
  always (fun evs x =>
            x = Normal tt
            /\ count_op op_auth_getSession evs = 1
            /\ count_op op_users_select_role evs <= 5
            /\ count_op op_doctors_select_id evs <= 1
            /\ count_op op_rpc_create_doctor_profile evs <= 1
            /\ count_op op_auth_signOut evs <= 1
            /\ total_wait evs <= 4000
            /\ length (toasts evs) <= 2
            /\ ((state_after evs = signed_off
                 /\ Forall (fun st =>
                              ProtectedRoute_render allowedRoles location st <> Children)
                           (states_along evs))
                \/ (let_in allowedRoles (state_after evs)
                    /\ count_op op_auth_signOut evs = 0
                    /\ toasts evs = []
                    /\ session_after s0 evs = s0)))
         (ProtectedRoute_checkAuth allowedRoles).
Proof.
  unfold ProtectedRoute_checkAuth. set (limit := 4000).
  always_go.
  all: rewrite ?app_nil_r.
  all: split_all.
  all: match goal with |- _ \/ _ => idtac | _ => trace_norm; rewrite ?app_nil_r end.
  all: try reflexivity.
  all: try (subst limit; lia).
  all: try (cbn [length]; lia).
  all: first
    [ left; split;
      [ trace_norm; reflexivity
      | norm_trace;
        trace_forall ltac:(unfold ProtectedRoute_render;
                           cbn [isAuthenticated userRole negb orb];
                           try match goal with
                               | H : includes ?l ?r = false
                                 |- context [includes ?l ?r] => rewrite H
                               end;
                           cbn [negb orb]; discriminate) ]
    | right; split_all; trace_norm; try reflexivity;
      eexists; split; [reflexivity | assumption] ].
Qed.

(* ================================================================== *)
(** ** authService in every world *)

Lemma profile_run_success n r uE :
  no_error_and_data r = true ->
  forall u,
  profile_run (S n)
    [EvCall (users_select_username_role (au_id u)) (Returned r)]
    (Normal (pg_data r, uE)).
Proof.
  intros Hok u. destruct (no_error_and_data_true r Hok) as (_ & d & Hd).
  eexists. split; [reflexivity|]. split; [reflexivity|].
  split; [rewrite count_op_cons, count_op_nil; simpl; lia|].
  cbn [fst]. rewrite Hd.
  split; [rewrite count_op_cons, count_op_nil; simpl; lia|].
  split; [|reflexivity].
  rewrite count_op_cons, count_op_nil. simpl. unfold total_wait. simpl. lia.
Qed.

Lemma profile_run_retry n evs x (pre : Trace) :
  retry_events op_users_select_username_role pre ->
  count_op op_users_select_username_role pre = 1 ->
  total_wait pre = 2000 ->
  profile_run n evs x ->
  profile_run (S n) (pre ++ evs) x.
Proof.
  intros Hpre Hc1 Hw1 (res & -> & Hev & Hc & Hres).
  exists res. split; [reflexivity|].
  split; [apply retry_events_app; assumption|].
  rewrite count_op_app, total_wait_app, Hc1, Hw1.
  split; [lia|].
  destruct (fst res).
  - destruct Hres as (H1 & Hw & Hend). split; [lia|]. split; [lia|].
    unfold ends_with_call in *. rewrite rev_app_distr.
    destruct (rev evs) eqn:Hrev; [discriminate Hend | exact Hend].
  - destruct Hres as (Hn & Hw). split; lia.
Qed.

Lemma signIn_profile_loop_always u : forall n uE,
  always (profile_run n) (signIn_profile_loop u n uE).
Proof.
  induction n as [|n IH]; intros uE.
  - unfold signIn_profile_loop. cbn.
    exists (None, uE). split; [reflexivity|]. split; [reflexivity|].
    split; [reflexivity|]. split; reflexivity.
  - rewrite signIn_profile_loop_S.
    cbn [always bind try_catch call emit ret].
    intros [r|e]; cbn [always bind try_catch call emit ret].
    + destruct (no_error_and_data r) eqn:Hok; cbn [always bind try_catch call emit ret].
      * apply profile_run_success. exact Hok.
      * eapply always_weaken; [apply IH|].
        intros evs x H.
        apply (profile_run_retry n evs x
                 [EvCall (users_select_username_role (au_id u)) (Returned r);
                  EvOut (ConsoleLog (retry_line (6 - S n)));
                  EvOut (Delay 2000)]); [reflexivity | reflexivity | reflexivity | exact H].
    + eapply always_weaken; [apply IH|].
      intros evs x H.
      apply (profile_run_retry n evs x
               [EvCall (users_select_username_role (au_id u)) (Threw e);
                EvOut (Delay 2000)]); [reflexivity | reflexivity | reflexivity | exact H].
Qed.

Lemma getCurrentUser_profile_loop_always u : forall n uE,
  always (profile_run n) (getCurrentUser_profile_loop u n uE).
Proof.
  induction n as [|n IH]; intros uE.
  - unfold getCurrentUser_profile_loop. cbn.
    exists (None, uE). split; [reflexivity|]. split; [reflexivity|].
    split; [reflexivity|]. split; reflexivity.
  - rewrite getCurrentUser_profile_loop_S.
    cbn [always bind try_catch call emit ret].
    intros [r|e]; cbn [always bind try_catch call emit ret].
    + destruct (no_error_and_data r) eqn:Hok; cbn [always bind try_catch call emit ret].
      * apply profile_run_success. exact Hok.
      * eapply always_weaken; [apply IH|].
        intros evs x H.
        apply (profile_run_retry n evs x
                 [EvCall (users_select_username_role (au_id u)) (Returned r);
                  EvOut (Delay 2000)]); [reflexivity | reflexivity | reflexivity | exact H].
    + eapply always_weaken; [apply IH|].
      intros evs x H.
      apply (profile_run_retry n evs x
               [EvCall (users_select_username_role (au_id u)) (Threw e);
                EvOut (Delay 2000)]); [reflexivity | reflexivity | reflexivity | exact H].
Qed.

(** Every run of a lookup loop, then what follows it. *)
Ltac always_profile_loop lem :=
  apply always_try_catch, always_bind;
  eapply always_weaken; [apply lem|];
  let evs := fresh "evs" in
  let row := fresh "row" in
  let uE := fresh "uE" in
  let Hev := fresh "Hev" in
  let Hle := fresh "Hle" in
  let Hres := fresh "Hres" in
  intros evs ? ([[row|] uE] & -> & Hev & Hle & Hres);
  cbn [fst snd] in Hres;
  [ let H1 := fresh "H1" in
    let Hw := fresh "Hw" in
    let Hend := fresh "Hend" in
    destruct Hres as (H1 & Hw & Hend)
  | let Hn := fresh "Hn" in
    let Hw := fresh "Hw" in
    destruct Hres as (Hn & Hw) ].

Ltac always_flow_step :=
  lazymatch goal with
  | |- always _ (try_catch (bind (signIn_profile_loop _ _ _) _) _) =>
      always_profile_loop signIn_profile_loop_always
  | |- always _ (try_catch (bind (getCurrentUser_profile_loop _ _ _) _) _) =>
      always_profile_loop getCurrentUser_profile_loop_always
  | |- always _ ?p =>
      lazymatch p with
      | context [when ?c _] => case_on c
      | _ => always_step
      end
  | |- _ => always_step
  end.

Ltac always_flow := always_cbn; repeat (always_flow_step; always_cbn).

Lemma ends_with_call_app_true a b :
  ends_with_call b = true -> ends_with_call (a ++ b) = true.
Proof.
  unfold ends_with_call. rewrite rev_app_distr.
  destruct (rev b); [discriminate | auto].
Qed.

Lemma ends_with_call_cons_true e evs :
  ends_with_call evs = true -> ends_with_call (e :: evs) = true.
Proof. apply (ends_with_call_app_true [e]). Qed.

(** The last event of a trace of known events and retry events is a
    call. *)
Ltac trace_ends :=
  norm_trace; rewrite ?app_nil_r;
  repeat first [ assumption | reflexivity
               | apply ends_with_call_cons_true | apply ends_with_call_app_true ].

Lemma signIn_always c s0 :
  always (fun evs x =>
            exists r,
              x = Normal r
              /\ count_op op_auth_signInWithPassword evs = 1
              /\ count_op op_users_select_username_role evs <= 5
              /\ count_op op_rpc_create_doctor_profile evs <= 1
              /\ count_op op_auth_signOut evs <= 1
              /\ total_wait evs <= 5 * 2000
              /\ (forall u, user r = Some u ->
                    count_op op_auth_signOut evs = 0
                    /\ ends_with_call evs = true
                    /\ exists au, session_after s0 evs = Some au /\ id u = au_id au))
         (signIn c).
Proof.
  unfold signIn. set (limit := 5 * 2000).
  always_flow.
  all: eexists; split; [reflexivity|].
  all: split_all.
  all: match goal with |- forall _, _ => idtac | _ => trace_norm; rewrite ?app_nil_r end.
  all: try reflexivity.
  all: try (subst limit; lia).
  all: intros u Hu; cbn [user] in Hu; try discriminate Hu; injection Hu as <-.
  all: split; [trace_norm; reflexivity|].
  all: split; [trace_ends|].
  all: trace_norm.
  all: repeat match goal with
              | H : ?x = _ |- context [match ?x with _ => _ end] => rewrite H
              end.
  all: eexists; split; reflexivity.
Qed.

Lemma getCurrentUser_always s0 :
  always (fun evs x =>
            exists r,
              x = Normal r
              /\ count_op op_auth_getUser evs = 1
              /\ count_op op_users_select_username_role evs <= 5
              /\ count_op op_rpc_create_doctor_profile evs <= 1
              /\ count_op op_auth_signOut evs = 0
              /\ total_wait evs <= 5 * 2000
              /\ session_after s0 evs = s0
              /\ (forall u, user r = Some u -> ends_with_call evs = true))
         getCurrentUser.
Proof.
  unfold getCurrentUser. set (limit := 5 * 2000).
  always_flow.
  all: eexists; split; [reflexivity|].
  all: split_all.
  all: match goal with |- forall _, _ => idtac | _ => trace_norm; rewrite ?app_nil_r end.
  all: try reflexivity.
  all: try (subst limit; lia).
  all: intros u Hu; cbn [user] in Hu; try discriminate Hu.
  all: trace_ends.
Qed.

Lemma signUp_insert_loop_always c u : forall n pe,
  always (insert_run n) (signUp_insert_loop c u n pe).
Proof.
  induction n as [|n IH]; intros pe.
  - cbn. split; [reflexivity|]. split; [reflexivity|]. split; reflexivity.
  - cbn [signUp_insert_loop always bind call].
    intros [r|e]; cbn [always bind call ret].
    + destruct (no_error_and_data r) eqn:Hok; cbn [always bind call ret].
      * destruct (no_error_and_data_true r Hok) as (_ & d & Hd). rewrite Hd.
        split; [reflexivity|].
        rewrite count_op_cons, count_op_nil. cbn [is_call_of op_of Op_eqb].
        split; [lia|]. split; [reflexivity|]. split; [lia | reflexivity].
      * destruct n as [|n].
        { cbn. split; [reflexivity|]. split; [reflexivity|].
          split; reflexivity. }
        cbn [Nat.ltb Nat.leb when emit always bind].
        eapply always_weaken; [apply IH|].
        intros evs x (Hev & Hle & Hw & Hx).
        assert (Hpos : 1 <= count_op op_users_insert evs).
        { destruct x as [[[row|] pe']|e']; lia. }
        split.
        { apply retry_events_cons; [reflexivity|].
          apply retry_events_cons; [reflexivity | exact Hev]. }
        rewrite !count_op_cons, !total_wait_cons, Hw.
        cbn [is_call_of op_of Op_eqb wait_of].
        split; [lia|]. split; [lia|].
        destruct x as [[[row|] pe']|e'].
        -- destruct Hx as (H1 & Hend). split; [lia|].
           apply ends_with_call_cons_true, ends_with_call_cons_true, Hend.
        -- lia.
        -- destruct Hx as (H1 & Hend). split; [lia|].
           apply ends_with_call_cons_true, ends_with_call_cons_true, Hend.
    + split; [reflexivity|].
      rewrite count_op_cons, count_op_nil. cbn [is_call_of op_of Op_eqb].
      split; [lia|]. split; [reflexivity|]. split; [lia | reflexivity].
Qed.

Ltac always_signUp_step :=
  lazymatch goal with
  | |- always _ (try_catch (bind (signUp_insert_loop _ _ _ _) _) _) =>
      apply always_try_catch, always_bind;
      eapply always_weaken; [apply signUp_insert_loop_always|];
      let evs := fresh "evs" in
      let Hev := fresh "Hev" in
      let Hle := fresh "Hle" in
      let Hw := fresh "Hw" in
      let Hx := fresh "Hx" in
      intros evs [[[?row|] ?pe]|?e] (Hev & Hle & Hw & Hx);
      cbn [fst snd]
  | |- _ => always_step
  end.

Lemma signUp_always c s0 :
  always (fun evs x =>
            exists r,
              x = Normal r
              /\ count_op op_users_select_id_by_email evs = 1
              /\ count_op op_auth_signUp evs <= 1
              /\ count_op op_users_insert evs <= 3
              /\ count_op op_auth_admin_deleteUser evs <= 1
              /\ total_wait evs <= 3 * 2000
              /\ count_op op_auth_signInWithPassword evs = 0
              /\ count_op op_auth_signOut evs = 0
              /\ session_after s0 evs = s0
              /\ (1 <= count_op op_users_insert evs ->
                  count_op op_auth_signUp evs = 1)
              /\ (count_op op_auth_admin_deleteUser evs = 1 ->
                  count_op op_users_insert evs = 3 /\ user r = None)
              /\ (forall u, user r = Some u ->
                    count_op op_auth_admin_deleteUser evs = 0
                    /\ 1 <= count_op op_users_insert evs
                    /\ ends_with_call evs = true))
         (signUp c).
Proof.
  unfold signUp. set (ms := 2000).
  always_cbn; repeat (always_signUp_step; always_cbn).
  all: eexists; split; [reflexivity|].
  all: split_all.
  all: trace_norm; rewrite ?app_nil_r.
  all: try reflexivity.
  all: try (subst ms; lia).
  all: try (intros _; split; reflexivity).
  all: intros u Hu; cbn [user] in Hu; try discriminate Hu.
  all: destruct Hx as (H1 & Hend).
  all: split; [reflexivity|]; split; [exact H1 | trace_ends].
Qed.

Lemma always_exec {A} (P : Trace -> Completion A -> Prop) (p : Async A) :
  always P p ->
  forall w : World, exists x evs, exec w p = (x, evs) /\ P evs x.
Proof. intros H w. apply (always_run P p H w []). Qed.

(** X3.  signUp in every world, whatever the platform returns or
    raises.  It makes one pre-check, at most one auth.signUp call, at
    most three inserts and at most one administrative delete; it waits
    6000 ms at most; it never calls the password sign-in or the
    sign-out, so the session is as it was.  An insert is
    attempted only after auth.signUp was called; the delete is issued
    only after three inserts, and then no user is returned; and when a
    user is returned, no delete was issued and signUp returned straight
    after the answer of an insert. *)
Theorem signUp_every_world (w : World) c s0 :
  exists r tr,
    exec w (signUp c) = (Normal r, tr)
    /\ count_op op_users_select_id_by_email tr = 1
    /\ count_op op_auth_signUp tr <= 1
    /\ count_op op_users_insert tr <= 3
    /\ count_op op_auth_admin_deleteUser tr <= 1
    /\ total_wait tr <= 3 * 2000
    /\ count_op op_auth_signInWithPassword tr = 0
    /\ count_op op_auth_signOut tr = 0
    /\ session_after s0 tr = s0
    /\ (1 <= count_op op_users_insert tr -> count_op op_auth_signUp tr = 1)
    /\ (count_op op_auth_admin_deleteUser tr = 1 ->
        count_op op_users_insert tr = 3 /\ user r = None)
    /\ (forall u, user r = Some u ->
          count_op op_auth_admin_deleteUser tr = 0
          /\ 1 <= count_op op_users_insert tr
          /\ ends_with_call tr = true).
Proof.
  destruct (always_exec _ _ (signUp_always c s0) w) as (x & tr & Hrun & r & -> & H).
  exists r, tr. split; [exact Hrun | exact H].
Qed.

(** X4.  signIn in every world.  It makes one password sign-in, at most
    five Profile lookups, at most one create_doctor_profile call and at
    most one sign-out, and waits 10000 ms at most.  When it returns a
    user, it has issued no sign-out, it returned straight after the
    answer of its last call, and the session installed by the password
    sign-in is that of the returned user's id. *)
Theorem signIn_every_world (w : World) c s0 :
  exists r tr,
    exec w (signIn c) = (Normal r, tr)
    /\ count_op op_auth_signInWithPassword tr = 1
    /\ count_op op_users_select_username_role tr <= 5
    /\ count_op op_rpc_create_doctor_profile tr <= 1
    /\ count_op op_auth_signOut tr <= 1
    /\ total_wait tr <= 5 * 2000
    /\ (forall u, user r = Some u ->
          count_op op_auth_signOut tr = 0
          /\ ends_with_call tr = true
          /\ exists au, session_after s0 tr = Some au /\ id u = au_id au).
Proof.
  destruct (always_exec _ _ (signIn_always c s0) w) as (x & tr & Hrun & r & -> & H).
  exists r, tr. split; [exact Hrun | exact H].
Qed.

(** X5.  getCurrentUser in every world.  It makes one auth.getUser
    call, at most five Profile lookups and at most one
    create_doctor_profile call, and waits 10000 ms at most.  It never
    signs out, on no path: whatever it returns, the session is as it
    was. *)
Theorem getCurrentUser_every_world (w : World) s0 :
  exists r tr,
    exec w getCurrentUser = (Normal r, tr)
    /\ count_op op_auth_getUser tr = 1
    /\ count_op op_users_select_username_role tr <= 5
    /\ count_op op_rpc_create_doctor_profile tr <= 1
    /\ count_op op_auth_signOut tr = 0
    /\ total_wait tr <= 5 * 2000
    /\ session_after s0 tr = s0
    /\ (forall u, user r = Some u -> ends_with_call tr = true).
Proof.
  destruct (always_exec _ _ (getCurrentUser_always s0) w) as (x & tr & Hrun & r & -> & H).
  exists r, tr. split; [exact Hrun | exact H].
Qed.

(** X6.  signOut in every world.  It makes the one auth.signOut call and
    returns [{ error: null }] exactly when that call returns without an
    error; the session is cleared in that case and is as it was in every
    other, where the error returned or raised by the call is handed
    back. *)
Theorem signOut_every_world (w : World) s0 :
  exists r tr,
    exec w signOut = (Normal r, tr)
    /\ ops_called tr = [op_auth_signOut]
    /\ (signOut_error r = None <-> sign_out_succeeds (w _ auth_signOut 0) = true)
    /\ (signOut_error r = None -> session_after s0 tr = None)
    /\ (forall e, signOut_error r = Some e ->
          session_after s0 tr = s0
          /\ match w _ auth_signOut 0 with
             | Threw x => e = FromPlatform x
             | Returned a => option_map FromPlatform (signout_error a) = Some e
             end).
Proof.
  unfold exec, signOut. cbn.
  change (count_op op_auth_signOut []) with 0.
  destruct (w _ auth_signOut 0) as [a|x]; cbn.
  - destruct (signout_error a) as [e|] eqn:E; cbn.
    + eexists. eexists. split; [reflexivity|]. split; [reflexivity|].
      split; [split; discriminate|]. split; [discriminate|].
      intros e' He'. injection He' as <-.
      split; [|reflexivity].
      unfold session_after. cbn. rewrite E. reflexivity.
    + eexists. eexists. split; [reflexivity|]. split; [reflexivity|].
      split; [split; reflexivity|]. split; [|discriminate].
      intros _. unfold session_after. cbn. rewrite E. reflexivity.
  - eexists. eexists. split; [reflexivity|]. split; [reflexivity|].
    split; [split; discriminate|]. split; [discriminate|].
    intros e' He'. injection He' as <-. split; reflexivity.
Qed.

(* ================================================================== *)
(** ** More paths of the flows *)

Lemma getUserDataWithRetry_exhausted_witness :
  exists evs,
    run world_role_lookup_fails (getUserDataWithRetry "p-1") []
    = (Normal {| ud_data := None;
                 ud_error :=
                   Some (NewError "Failed to get user data after retries") |},
       evs)
    /\ count_op op_users_select_role evs = 5
    /\ total_wait evs = 4000.
Proof.
  destruct (getUserDataWithRetry_exhausted world_role_lookup_fails "p-1" [])
    as (evs & Hrun & Hev & Hc & Hw).
  { intros j Hj. do 5 (destruct j as [|j]; [reflexivity|]). lia. }
  exists evs. split; [exact Hrun|]. split; assumption.
Defined.

(** X7.  The Principal is created and an insert attempt raises (the
    attempts before it having failed by returning).  The insert loop has
    no [try] of its own, so signUp leaves the loop at once: it returns
    the raised exception as its error, makes no further attempt, and
    issues no administrative delete, so that the Principal it created is
    left without a Profile. *)
Theorem signUp_insert_raises (w : World) c u k e :
  principal_created w c = Some u ->
  k < 3 ->
  (forall i, i < k -> attempt_fails (w _ (insert_cmd c u) i) = true) ->
  w _ (insert_cmd c u) k = Threw e ->
  exists tr,
    exec w (signUp c)
    = (Normal {| user := None; error := Some (FromPlatform e) |}, tr)
    /\ ops_called tr
       = [op_users_select_id_by_email; op_auth_signUp]
           ++ repeat op_users_insert (S k)
    /\ count_op op_auth_admin_deleteUser tr = 0.
Proof.
  intros Hc Hk Hfail Hraise.
  destruct (principal_created_inv w c u Hc) as (r0 & r1 & H0 & Hd0 & H1 & He1 & Hu1).
  assert (F0 : 0 < k -> exists r, w _ (insert_cmd c u) 0 = Returned r
                                  /\ no_error_and_data r = false).
  { intros Hlt. apply attempt_fails_inv, Hfail. lia. }
  assert (F1 : 1 < k -> exists r, w _ (insert_cmd c u) 1 = Returned r
                                  /\ no_error_and_data r = false).
  { intros Hlt. apply attempt_fails_inv, Hfail. lia. }
  unfold insert_cmd in *.
  unfold exec, signUp.
  destruct k as [|[|[|k]]]; try lia.
  - run. eexists. split; [reflexivity|]. split; reflexivity.
  - destruct F0 as (f0 & Hf0 & Hn0); [lia|].
    run. eexists. split; [reflexivity|]. split; reflexivity.
  - destruct F0 as (f0 & Hf0 & Hn0); [lia|].
    destruct F1 as (f1 & Hf1 & Hn1); [lia|].
    run. eexists. split; [reflexivity|]. split; reflexivity.
Qed.

Lemma signUp_insert_raises_witness :
  exists tr,
    exec world_insert_raises (signUp alice)
    = (Normal {| user := None;
                 error := Some (FromPlatform {| perr_message := "fetch failed" |}) |},
       tr)
    /\ ops_called tr
       = [op_users_select_id_by_email; op_auth_signUp;
          op_users_insert; op_users_insert; op_users_insert]
    /\ count_op op_auth_admin_deleteUser tr = 0.
Proof.
  apply (signUp_insert_raises world_insert_raises alice alice_principal 2).
  - reflexivity.
  - lia.
  - intros i Hi. destruct i as [|[|i]]; [reflexivity | reflexivity | lia].
  - reflexivity.
Defined.

(** X8.  The pre-check lets the flow through but auth.signUp does not
    yield a user: it raises, returns an error, or returns neither error
    nor user.  signUp then returns that exception or error, or
    [Error('Failed to create user')], as its error, having made those
    two calls only: no insert, no delete and no wait. *)
Theorem signUp_principal_not_created (w : World) c :
  precheck_clear w c = true ->
  principal_created w c = None ->
  let answer :=
    w _ (auth_signUp (su_email c) (su_password c) (su_role c) (su_username c)) 0 in
  let e :=
    match answer with
    | Threw x => FromPlatform x
    | Returned r =>
        match auth_error r with
        | Some x => FromPlatform x
        | None => NewError "Failed to create user"
        end
    end in
  exec w (signUp c)
  = (Normal {| user := None; error := Some e |},
     [EvCall (users_select_id_by_email (su_email c))
        (w _ (users_select_id_by_email (su_email c)) 0);
      EvCall (auth_signUp (su_email c) (su_password c) (su_role c) (su_username c))
        answer;
      EvOut (ConsoleError "SignUp error:" (Some e))]).
Proof.
  intros Hclear Hnone answer e. subst answer e.
  unfold principal_created in Hnone. rewrite Hclear in Hnone.
  unfold precheck_clear in Hclear.
  unfold exec, signUp. cbn.
  change (count_op op_users_select_id_by_email []) with 0.
  destruct (w _ (users_select_id_by_email (su_email c)) 0) as [r0|]; [|discriminate].
  cbn. destruct (pg_data r0); [discriminate|]. cbn.
  match goal with
  | |- context [count_op ?op ?tr] => change (count_op op tr) with 0
  end.
  destruct (w _ (auth_signUp _ _ _ _) 0) as [r1|x]; cbn; [|reflexivity].
  destruct (auth_error r1) as [x|]; cbn; [reflexivity|].
  rewrite Hnone. reflexivity.
Qed.

Lemma signUp_principal_not_created_witness :
  exec world_signup_rejected (signUp alice)
  = (Normal {| user := None;
               error := Some (FromPlatform {| perr_message := "Signups not allowed" |}) |},
     [EvCall (users_select_id_by_email "a@x.com") no_row;
      EvCall (auth_signUp "a@x.com" "secret1" "admin" "alice")
        (Returned {| auth_user := None;
                     auth_error := Some {| perr_message := "Signups not allowed" |} |});
      EvOut (ConsoleError "SignUp error:"
               (Some (FromPlatform {| perr_message := "Signups not allowed" |})))]).
Proof.
  apply (signUp_principal_not_created world_signup_rejected alice); reflexivity.
Defined.

Section ProfileLoopRuns.
Variable w : World.
Variable u : AuthUser.

(** The lookup succeeds on attempt [k], with the waits it takes. *)
Lemma signIn_profile_loop_success_run n k row uE tr i0 :
  count_op op_users_select_username_role tr = i0 ->
  k < n ->
  first_success (fun i => w _ (users_select_username_role (au_id u)) (i0 + i)) k row ->
  exists evs uE',
    run w (signIn_profile_loop u n uE) tr = (Normal (Some row, uE'), tr ++ evs)
    /\ retry_events op_users_select_username_role evs
    /\ count_op op_users_select_username_role evs = S k
    /\ total_wait evs = k * 2000
    /\ ends_with_call evs = true.
Proof.
  intros Hi Hk Hfirst.
  destruct (signIn_profile_loop_first_success w u n k row uE tr i0 Hi Hk Hfirst)
    as (evs & uE' & Hrun & Hev & Hc).
  destruct (always_run _ _ (signIn_profile_loop_always u n uE) w tr)
    as (x & evs' & Hrun' & res & -> & _ & _ & Hres).
  rewrite Hrun in Hrun'. injection Hrun' as Hres_eq Htr.
  apply app_inv_head in Htr. subst evs' res. cbn [fst] in Hres.
  destruct Hres as (_ & Hw & Hend).
  exists evs, uE'. rewrite Hc in Hw. cbn [Nat.sub] in Hw. rewrite Nat.sub_0_r in Hw.
  auto.
Qed.

Lemma getCurrentUser_profile_loop_success_run n k row uE tr i0 :
  count_op op_users_select_username_role tr = i0 ->
  k < n ->
  first_success (fun i => w _ (users_select_username_role (au_id u)) (i0 + i)) k row ->
  exists evs uE',
    run w (getCurrentUser_profile_loop u n uE) tr
    = (Normal (Some row, uE'), tr ++ evs)
    /\ retry_events op_users_select_username_role evs
    /\ count_op op_users_select_username_role evs = S k
    /\ total_wait evs = k * 2000
    /\ ends_with_call evs = true.
Proof.
  intros Hi Hk Hfirst.
  destruct (getCurrentUser_profile_loop_first_success w u n k row uE tr i0 Hi Hk Hfirst)
    as (evs & uE' & Hrun & Hev & Hc).
  destruct (always_run _ _ (getCurrentUser_profile_loop_always u n uE) w tr)
    as (x & evs' & Hrun' & res & -> & _ & _ & Hres).
  rewrite Hrun in Hrun'. injection Hrun' as Hres_eq Htr.
  apply app_inv_head in Htr. subst evs' res. cbn [fst] in Hres.
  destruct Hres as (_ & Hw & Hend).
  exists evs, uE'. rewrite Hc in Hw. cbn [Nat.sub] in Hw. rewrite Nat.sub_0_r in Hw.
  auto.
Qed.
End ProfileLoopRuns.

(** X9.  The credentials are accepted, the Profile lookup succeeds on
    attempt [k + 1] of 5 and, for a doctor, create_doctor_profile
    returns without an error.  signIn then returns the user made of the
    Principal's id and email and of the role and username of the Profile
    row, after [k + 1] lookups and [k] waits of 2000 ms; it calls
    create_doctor_profile for a doctor only, issues no sign-out, and the
    session of the Principal is in place. *)
Theorem signIn_succeeds (w : World) c u k row s0 :
  signed_in w c = Some u ->
  k < 5 ->
  first_success (w _ (users_select_username_role (au_id u))) k row ->
  (pr_role row = "doctor" ->
   exists d, w _ rpc_create_doctor_profile 0 = Returned d /\ pg_error d = None) ->
  exists tr,
    exec w (signIn c)
    = (Normal {| user := Some {| id := au_id u;
                                 email := au_email u;
                                 role := pr_role row;
                                 username := pr_username row |};
                 error := None |}, tr)
    /\ count_op op_users_select_username_role tr = S k
    /\ total_wait tr = k * 2000
    /\ count_op op_rpc_create_doctor_profile tr
       = (if pr_role row =? "doctor" then 1 else 0)
    /\ count_op op_auth_signOut tr = 0
    /\ session_after s0 tr = Some u.
Proof.
  intros Hin Hk Hfirst Hdoctor.
  destruct (signed_in_inv w c u Hin) as (r & Hr & He & Hu).
  unfold exec, signIn. run.
  match goal with
  | |- context [run w (try_catch (bind (signIn_profile_loop u 5 None) _) _) ?tr] =>
      destruct (signIn_profile_loop_success_run w u 5 k row None tr 0
                  eq_refl Hk Hfirst)
        as (evs & uE' & Hrun & Hev & Hc & Hw & Hend)
  end.
  rewrite run_try_catch, run_bind, Hrun. cbn.
  destruct (pr_role row =? "doctor") eqn:Hrole.
  - apply String.eqb_eq in Hrole.
    destruct (Hdoctor Hrole) as (d & Hd & Hde).
    run.
    eexists. split; [reflexivity|].
    split_all; trace_norm; rewrite ?He, ?Hu; try reflexivity; lia.
  - run.
    eexists. split; [reflexivity|].
    split_all; trace_norm; rewrite ?He, ?Hu; try reflexivity; lia.
Qed.

Lemma signIn_succeeds_witness :
  exists tr,
    exec world_admin_signs_in (signIn alice_login)
    = (Normal {| user := Some {| id := "p-1"; email := Some "a@x.com";
                                 role := "admin"; username := "alice" |};
                 error := None |}, tr)
    /\ count_op op_users_select_username_role tr = 2
    /\ total_wait tr = 2000
    /\ count_op op_auth_signOut tr = 0
    /\ session_after None tr = Some alice_principal.
Proof.
  assert (Hfirst : first_success
                     (world_admin_signs_in _
                        (users_select_username_role (au_id alice_principal)))
                     1 {| pr_username := "alice"; pr_role := "admin" |}).
  { split; [|split; reflexivity].
    intros i Hi. destruct i; [reflexivity | lia]. }
  destruct (signIn_succeeds world_admin_signs_in alice_login alice_principal 1
              {| pr_username := "alice"; pr_role := "admin" |} None
              eq_refl ltac:(lia) Hfirst)
    as (tr & Hrun & Hc & Hw & _ & Hout & Hs).
  { intros Hrole. discriminate Hrole. }
  exists tr. repeat split; assumption.
Defined.

(** X10.  auth.signInWithPassword does not yield a user: it raises,
    returns an error, or returns neither error nor user.  signIn then
    returns that exception or error, or [Error('User not found')], as
    its error after that one call: no Profile lookup, no sign-out, and
    no session installed. *)
Theorem signIn_rejected (w : World) c s0 :
  signed_in w c = None ->
  let answer := w _ (auth_signInWithPassword (si_email c) (si_password c)) 0 in
  let e :=
    match answer with
    | Threw x => FromPlatform x
    | Returned r =>
        match auth_error r with
        | Some x => FromPlatform x
        | None => NewError "User not found"
        end
    end in
  exec w (signIn c)
  = (Normal {| user := None; error := Some e |},
     [EvCall (auth_signInWithPassword (si_email c) (si_password c)) answer;
      EvOut (ConsoleError "SignIn error:" (Some e))])
  /\ session_after s0 (snd (exec w (signIn c))) = s0.
Proof.
  intros Hnone answer e. subst answer e.
  unfold signed_in in Hnone.
  unfold exec, signIn. cbn.
  change (count_op op_auth_signInWithPassword []) with 0.
  destruct (w _ (auth_signInWithPassword _ _) 0) as [r|x]; cbn;
    [|split; reflexivity].
  destruct (auth_error r) as [x|] eqn:He; cbn.
  - split; [reflexivity|]. unfold session_after. cbn. rewrite He. reflexivity.
  - rewrite Hnone. cbn. split; [reflexivity|].
    unfold session_after. cbn. rewrite He, Hnone. reflexivity.
Qed.

Lemma signIn_rejected_witness :
  exec world_wrong_password (signIn alice_login)
  = (Normal {| user := None;
               error :=
                 Some (FromPlatform {| perr_message := "Invalid login credentials" |}) |},
     [EvCall (auth_signInWithPassword "a@x.com" "secret1")
        (Returned {| auth_user := None;
                     auth_error :=
                       Some {| perr_message := "Invalid login credentials" |} |});
      EvOut (ConsoleError "SignIn error:"
               (Some (FromPlatform
                        {| perr_message := "Invalid login credentials" |})))]).
Proof.
  apply (proj1 (signIn_rejected world_wrong_password alice_login None eq_refl)).
Defined.

(** X11.  The credentials are accepted, the Profile says doctor, and the
    create_doctor_profile call raises instead of returning.  The
    exception goes straight to the outer [catch] of signIn: signIn
    returns it as its error, and, unlike when the call returns an
    error, issues no sign-out, so the session installed by the password
    sign-in stays in place although signIn reports a failure. *)
Theorem signIn_doctor_rpc_raises (w : World) c u k row e s0 :
  signed_in w c = Some u ->
  k < 5 ->
  first_success (w _ (users_select_username_role (au_id u))) k row ->
  pr_role row = "doctor" ->
  w _ rpc_create_doctor_profile 0 = Threw e ->
  exists tr,
    exec w (signIn c)
    = (Normal {| user := None; error := Some (FromPlatform e) |}, tr)
    /\ count_op op_auth_signOut tr = 0
    /\ session_after s0 tr = Some u.
Proof.
  intros Hin Hk Hfirst Hrole Hraise.
  destruct (signed_in_inv w c u Hin) as (r & Hr & He & Hu).
  unfold exec, signIn. run.
  match goal with
  | |- context [run w (try_catch (bind (signIn_profile_loop u 5 None) _) _) ?tr] =>
      destruct (signIn_profile_loop_first_success w u 5 k row None tr 0
                  eq_refl Hk Hfirst)
        as (evs & uE' & Hrun & Hev & Hc)
  end.
  rewrite run_try_catch, run_bind, Hrun. cbn. rewrite Hrole.
  run.
  eexists. split; [reflexivity|].
  split_all; trace_norm; rewrite ?He, ?Hu; reflexivity.
Qed.

Lemma signIn_doctor_rpc_raises_witness :
  exists tr,
    exec world_doctor_rpc_raises (signIn alice_login)
    = (Normal {| user := None;
                 error := Some (FromPlatform {| perr_message := "fetch failed" |}) |},
       tr)
    /\ count_op op_auth_signOut tr = 0
    /\ session_after None tr = Some alice_principal.
Proof.
  assert (Hfirst : first_success
                     (world_doctor_rpc_raises _
                        (users_select_username_role (au_id alice_principal)))
                     0 {| pr_username := "alice"; pr_role := "doctor" |}).
  { split; [|split; reflexivity]. intros i Hi. lia. }
  apply (signIn_doctor_rpc_raises world_doctor_rpc_raises alice_login
           alice_principal 0 {| pr_username := "alice"; pr_role := "doctor" |}
           {| perr_message := "fetch failed" |} None
           eq_refl ltac:(lia) Hfirst eq_refl eq_refl).
Defined.

(** X12.  The session store reports a user, the Profile lookup succeeds
    on attempt [k + 1] of 5 and, for a doctor, create_doctor_profile
    returns without an error.  getCurrentUser then returns the user made
    of the Principal's id and email and of the role and username of the
    Profile row, after [k + 1] lookups and [k] waits of 2000 ms, and the
    session is as it was. *)
Theorem getCurrentUser_succeeds (w : World) u k row s0 :
  current_user w = Some u ->
  k < 5 ->
  first_success (w _ (users_select_username_role (au_id u))) k row ->
  (pr_role row = "doctor" ->
   exists d, w _ rpc_create_doctor_profile 0 = Returned d /\ pg_error d = None) ->
  exists tr,
    exec w getCurrentUser
    = (Normal {| user := Some {| id := au_id u;
                                 email := au_email u;
                                 role := pr_role row;
                                 username := pr_username row |};
                 error := None |}, tr)
    /\ count_op op_users_select_username_role tr = S k
    /\ total_wait tr = k * 2000
    /\ count_op op_rpc_create_doctor_profile tr
       = (if pr_role row =? "doctor" then 1 else 0)
    /\ session_after s0 tr = s0.
Proof.
  intros Hcur Hk Hfirst Hdoctor.
  destruct (current_user_inv w u Hcur) as (r & Hr & Hu).
  unfold exec, getCurrentUser. run.
  match goal with
  | |- context [run w (try_catch (bind (getCurrentUser_profile_loop u 5 None) _) _) ?tr] =>
      destruct (getCurrentUser_profile_loop_success_run w u 5 k row None tr 0
                  eq_refl Hk Hfirst)
        as (evs & uE' & Hrun & Hev & Hc & Hw & Hend)
  end.
  rewrite run_try_catch, run_bind, Hrun. cbn.
  destruct (pr_role row =? "doctor") eqn:Hrole.
  - apply String.eqb_eq in Hrole.
    destruct (Hdoctor Hrole) as (d & Hd & Hde).
    run.
    eexists. split; [reflexivity|].
    split_all; trace_norm; try reflexivity; lia.
  - run.
    eexists. split; [reflexivity|].
    split_all; trace_norm; try reflexivity; lia.
Qed.

Lemma getCurrentUser_succeeds_witness :
  exists tr,
    exec world_admin_signs_in getCurrentUser
    = (Normal {| user := Some {| id := "p-1"; email := Some "a@x.com";
                                 role := "admin"; username := "alice" |};
                 error := None |}, tr)
    /\ count_op op_users_select_username_role tr = 2
    /\ total_wait tr = 2000
    /\ session_after (Some alice_principal) tr = Some alice_principal.
Proof.
  assert (Hfirst : first_success
                     (world_admin_signs_in _
                        (users_select_username_role (au_id alice_principal)))
                     1 {| pr_username := "alice"; pr_role := "admin" |}).
  { split; [|split; reflexivity].
    intros i Hi. destruct i; [reflexivity | lia]. }
  destruct (getCurrentUser_succeeds world_admin_signs_in alice_principal 1
              {| pr_username := "alice"; pr_role := "admin" |}
              (Some alice_principal) eq_refl ltac:(lia) Hfirst)
    as (tr & Hrun & Hc & Hw & _ & Hs).
  { intros Hrole. discriminate Hrole. }
  exists tr. repeat split; assumption.
Defined.

(* ================================================================== *)
(** ** More paths of the guards *)

Lemma let_in_renders_children allowedRoles location st :
  let_in allowedRoles st ->
  ProtectedRoute_render allowedRoles location st = Children.
Proof.
  intros (r & -> & Hin). unfold ProtectedRoute_render. cbn. rewrite Hin. reflexivity.
Qed.

(** X13.  ProtectedRoute's checkAuth in every world, whatever the
    platform returns or raises.  It resolves (it never rejects) after
    one getSession call, at most five role lookups, at most one look for
    the doctor record, at most one create_doctor_profile call and at
    most one sign-out, having waited 4000 ms at most and shown two
    toasts at most.  It ends in one of two states.  Either the user is
    let in: authenticated, with a role of the allow-list, the children
    are rendered, and no sign-out was issued and no toast shown.  Or the
    state is [isAuthenticated = false, userRole = null], whose render is
    the loading placeholder, and the children were rendered in no state
    along the way.  So the state checkAuth ends in never renders the
    redirect to [/login]. *)
Theorem ProtectedRoute_every_world (w : World) allowedRoles location s0 :
  exists tr,
    exec w (ProtectedRoute_checkAuth allowedRoles) = (Normal tt, tr)
    /\ count_op op_auth_getSession tr = 1
    /\ count_op op_users_select_role tr <= 5
    /\ count_op op_doctors_select_id tr <= 1
    /\ count_op op_rpc_create_doctor_profile tr <= 1
    /\ count_op op_auth_signOut tr <= 1
    /\ total_wait tr <= 4000
    /\ length (toasts tr) <= 2
    /\ ((let_in allowedRoles (state_after tr)
         /\ ProtectedRoute_render allowedRoles location (state_after tr) = Children
         /\ count_op op_auth_signOut tr = 0
         /\ toasts tr = []
         /\ session_after s0 tr = s0)
        \/ (state_after tr = signed_off
            /\ ProtectedRoute_render allowedRoles location (state_after tr) = Loading
            /\ Forall (fun st =>
                         ProtectedRoute_render allowedRoles location st <> Children)
                      (states_along tr))).
Proof.
  destruct (always_exec _ _
              (ProtectedRoute_checkAuth_always allowedRoles location s0) w)
    as (x & tr & Hrun & -> & H1 & H2 & H3 & H4 & H5 & H6 & H7 & H8).
  exists tr. split; [exact Hrun|].
  split; [exact H1|]. split; [exact H2|]. split; [exact H3|].
  split; [exact H4|]. split; [exact H5|]. split; [exact H6|].
  split; [exact H7|].
  destruct H8 as [(Hst & Hall) | (Hadm & Hout & Ht & Hs)].
  - right. split; [exact Hst|]. split; [rewrite Hst; reflexivity | exact Hall].
  - left. split; [exact Hadm|].
    split; [apply let_in_renders_children, Hadm | auto].
Qed.

(** X14.  AuthRoute's checkAuth in every world.  It resolves after one
    getSession call and at most five role lookups and nothing else: it
    never signs out and never shows a toast, so the session is as it
    was, also when the role lookup fails.  It ends either
    unauthenticated, rendering its children (the sign-in or sign-up
    page), or authenticated with a role, rendering the redirect to the
    dashboard of that role; it never ends on the loading placeholder. *)
Theorem AuthRoute_every_world (w : World) location s0 :
  exists tr,
    exec w AuthRoute_checkAuth = (Normal tt, tr)
    /\ ops_called tr
       = op_auth_getSession
           :: repeat op_users_select_role (count_op op_users_select_role tr)
    /\ count_op op_users_select_role tr <= 5
    /\ toasts tr = []
    /\ total_wait tr <= 4000
    /\ session_after s0 tr = s0
    /\ ((state_after tr = signed_off
         /\ AuthRoute_render location (state_after tr) = Children)
        \/ (exists r,
              state_after tr
              = {| isAuthenticated := Some true; userRole := Some r |}
              /\ AuthRoute_render location (state_after tr)
                 = Navigate (dashboardPath (Some r)) location)).
Proof.
  destruct (always_exec _ _ (AuthRoute_checkAuth_always location s0) w)
    as (x & tr & Hrun & -> & H).
  exists tr. split; [exact Hrun | exact H].
Qed.

Lemma no_session_inv (w : World) :
  active_session w = None ->
  (exists s, w _ auth_getSession 0 = Returned s /\ auth_session s = None)
  \/ (exists e, w _ auth_getSession 0 = Threw e).
Proof.
  unfold active_session.
  destruct (w _ auth_getSession 0) as [s|e]; eauto.
Qed.

(** X15.  getSession returns no session.  ProtectedRoute then makes no
    further call and sets [isAuthenticated = false, userRole = null];
    since its render tests [userRole === null] before anything else,
    every state along the way, the last one included, renders the
    loading placeholder: the redirect to [/login] is never rendered. *)
Theorem ProtectedRoute_no_session (w : World) allowedRoles location s :
  w _ auth_getSession 0 = Returned s ->
  auth_session s = None ->
  let tr := snd (exec w (ProtectedRoute_checkAuth allowedRoles)) in
  tr = [EvCall auth_getSession (Returned s);
        EvOut (SetIsAuthenticated false); EvOut (SetUserRole None)]
  /\ state_after tr = signed_off
  /\ Forall (fun st => ProtectedRoute_render allowedRoles location st = Loading)
            (states_along tr)
  /\ first_settled_view (ProtectedRoute_render allowedRoles location) tr = None.
Proof.
  intros Hs Hnone tr. subst tr.
  unfold exec, ProtectedRoute_checkAuth. run.
  split; [reflexivity|]. split; [reflexivity|].
  split; [|reflexivity].
  repeat constructor.
Qed.

Lemma ProtectedRoute_no_session_witness :
  let tr := snd (exec world_no_session (ProtectedRoute_checkAuth ["admin"])) in
  state_after tr = signed_off
  /\ Forall (fun st => ProtectedRoute_render ["admin"] "/admin" st = Loading)
            (states_along tr)
  /\ first_settled_view (ProtectedRoute_render ["admin"] "/admin") tr = None.
Proof.
  destruct (ProtectedRoute_no_session world_no_session ["admin"] "/admin"
              {| auth_session := None; session_error := None |}
              eq_refl eq_refl)
    as (_ & H1 & H2 & H3).
  repeat split; assumption.
Defined.

(** X16.  A session is active, the role lookup and the doctor step
    succeed, and the resolved role is in the allow-list of the route.
    ProtectedRoute then ends authenticated with that role and renders
    its children; the children are the first thing it shows after the
    loading placeholder, and it renders the redirect in no state along
    the way.  It issues no sign-out and shows no toast.  It looks for
    the doctor record only when the role is doctor, and does not call
    create_doctor_profile when the record is found. *)
Theorem ProtectedRoute_allows_role (w : World) allowedRoles location session k row s0 :
  active_session w = Some session ->
  k < 5 ->
  first_success (w _ (users_select_role (au_id (session_user session)))) k row ->
  doctor_verified w (au_id (session_user session)) (rr_role row) = true ->
  includes allowedRoles (rr_role row) = true ->
  let tr := snd (exec w (ProtectedRoute_checkAuth allowedRoles)) in
  let view := ProtectedRoute_render allowedRoles location in
  state_after tr
  = {| isAuthenticated := Some true; userRole := Some (rr_role row) |}
  /\ view (state_after tr) = Children
  /\ first_settled_view view tr = Some Children
  /\ Forall (fun st => view st = Loading \/ view st = Children) (states_along tr)
  /\ count_op op_auth_signOut tr = 0
  /\ toasts tr = []
  /\ session_after s0 tr = s0
  /\ count_op op_doctors_select_id tr
     = (if rr_role row =? "doctor" then 1 else 0)
  /\ (attempt_succeeds (w _ (doctors_select_id (au_id (session_user session))) 0)
      = true ->
      count_op op_rpc_create_doctor_profile tr = 0).
Proof.
  intros Hsession Hk Hfirst Hdoctor Hallowed tr view. subst tr view.
  enough (Hrun : exists x tr,
             exec w (ProtectedRoute_checkAuth allowedRoles) = (x, tr)
             /\ state_after tr
                = {| isAuthenticated := Some true; userRole := Some (rr_role row) |}
             /\ first_settled_view
                  (ProtectedRoute_render allowedRoles location) tr
                = Some Children
             /\ Forall (fun st =>
                          ProtectedRoute_render allowedRoles location st = Loading
                          \/ ProtectedRoute_render allowedRoles location st = Children)
                       (states_along tr)
             /\ count_op op_auth_signOut tr = 0
             /\ toasts tr = []
             /\ session_after s0 tr = s0
             /\ count_op op_doctors_select_id tr
                = (if rr_role row =? "doctor" then 1 else 0)
             /\ (attempt_succeeds
                   (w _ (doctors_select_id (au_id (session_user session))) 0)
                 = true ->
                 count_op op_rpc_create_doctor_profile tr = 0)).
  { destruct Hrun as (x & tr & -> & H1 & H2 & H3 & H4). cbn [snd].
    split; [exact H1|]. split; [|split; [exact H2 | split; [exact H3 | exact H4]]].
    rewrite H1. unfold ProtectedRoute_render. cbn. rewrite Hallowed. reflexivity. }
  destruct (active_session_inv w session Hsession) as (s & Hs & Hss).
  unfold exec, ProtectedRoute_checkAuth. run.
  match goal with
  | |- context [run w (try_catch (bind (getUserDataWithRetry ?uid) _) _) ?tr] =>
      destruct (getUserDataWithRetry_first_success w uid k row tr eq_refl Hk Hfirst)
        as (evs & Hrun & Hev & Hc)
  end.
  rewrite run_try_catch, run_bind, Hrun. cbn.
  unfold doctor_verified in Hdoctor. rewrite Hallowed. revert Hdoctor.
  destruct (rr_role row =? "doctor") eqn:Hrole.
  all: run; intros Hdoctor; try discriminate Hdoctor.
  all: eexists; eexists; split; [reflexivity|]; norm_trace.
  all: split; [trace_state_after|].
  all: split;
    [ trace_first_settled;
      cbn [states_from apply_event map find settled ProtectedRoute_render
           isAuthenticated userRole negb orb];
      rewrite Hallowed; reflexivity |].
  all: split;
    [ trace_forall ltac:(unfold ProtectedRoute_render;
                         cbn [isAuthenticated userRole negb orb];
                         rewrite ?Hallowed; auto) |].
  all: split_all; trace_norm; try reflexivity.
  all: intros Hfound; cbn in Hfound; congruence.
Qed.

Lemma ProtectedRoute_allows_role_witness :
  let tr := snd (exec world_doctor_with_record (ProtectedRoute_checkAuth ["doctor"])) in
  state_after tr = {| isAuthenticated := Some true; userRole := Some "doctor" |}
  /\ first_settled_view (ProtectedRoute_render ["doctor"] "/doctor") tr
     = Some Children
  /\ count_op op_auth_signOut tr = 0
  /\ count_op op_doctors_select_id tr = 1
  /\ count_op op_rpc_create_doctor_profile tr = 0.
Proof.
  assert (Hfirst : first_success
                     (world_doctor_with_record _
                        (users_select_role (au_id alice_principal)))
                     0 {| rr_role := "doctor" |}).
  { split; [|split; reflexivity]. intros i Hi. lia. }
  destruct (ProtectedRoute_allows_role world_doctor_with_record ["doctor"] "/doctor"
              {| session_user := alice_principal |} 0
              {| rr_role := "doctor" |} None
              eq_refl ltac:(lia) Hfirst eq_refl eq_refl)
    as (H1 & _ & H2 & _ & H3 & _ & _ & H4 & H5).
  split; [exact H1|]. split; [exact H2|]. split; [exact H3|].
  split; [exact H4|]. apply H5. reflexivity.
Defined.

(** X17.  A session is active and each of the five role lookups fails.
    ProtectedRoute then logs the failure, issues one sign-out and, the
    sign-out call having returned, sets
    [isAuthenticated = false, userRole = null] and shows the toast
    'Failed to load user data. Please try logging in again.'.  Every
    state along the way renders the loading placeholder: neither the
    children nor the redirect is ever rendered. *)
Theorem ProtectedRoute_lookup_exhausted (w : World) allowedRoles location session so :
  active_session w = Some session ->
  (forall j, j < 5 ->
     lookup_fails (w _ (users_select_role (au_id (session_user session))) j) = true) ->
  w _ auth_signOut 0 = Returned so ->
  let tr := snd (exec w (ProtectedRoute_checkAuth allowedRoles)) in
  ops_called tr
  = op_auth_getSession :: repeat op_users_select_role 5 ++ [op_auth_signOut]
  /\ In (EvOut (ConsoleError "Failed to get user data:"
                  (Some (exhausted_error
                           (w _ (users_select_role (au_id (session_user session))) 4)))))
        tr
  /\ toasts tr = ["Failed to load user data. Please try logging in again."]
  /\ total_wait tr = 4000
  /\ state_after tr = signed_off
  /\ Forall (fun st => ProtectedRoute_render allowedRoles location st = Loading)
            (states_along tr).
Proof.
  intros Hsession Hfail Hso tr. subst tr.
  enough (Hrun : exists x tr,
             exec w (ProtectedRoute_checkAuth allowedRoles) = (x, tr)
             /\ ops_called tr
                = op_auth_getSession
                    :: repeat op_users_select_role 5 ++ [op_auth_signOut]
             /\ In (EvOut (ConsoleError "Failed to get user data:"
                             (Some (exhausted_error
                                      (w _ (users_select_role
                                              (au_id (session_user session))) 4)))))
                   tr
             /\ toasts tr = ["Failed to load user data. Please try logging in again."]
             /\ total_wait tr = 4000
             /\ state_after tr = signed_off
             /\ Forall (fun st =>
                          ProtectedRoute_render allowedRoles location st = Loading)
                       (states_along tr)).
  { destruct Hrun as (x & tr & -> & H). exact H. }
  destruct (active_session_inv w session Hsession) as (s & Hs & Hss).
  unfold exec, ProtectedRoute_checkAuth. run.
  match goal with
  | |- context [run w (try_catch (bind (getUserDataWithRetry ?uid) _) _) ?tr] =>
      destruct (getUserDataWithRetry_all_fail w uid tr Hfail)
        as (evs & Hrun & Hev & Hc & Hw)
  end.
  rewrite run_try_catch, run_bind, Hrun. run.
  eexists; eexists; split; [reflexivity|]. norm_trace.
  split; [trace_norm; reflexivity|].
  split; [trace_in|].
  split; [trace_norm; reflexivity|].
  split; [trace_norm; reflexivity|].
  split; [trace_norm; reflexivity|].
  trace_forall ltac:(reflexivity).
Qed.

Lemma ProtectedRoute_lookup_exhausted_witness :
  let tr := snd (exec world_role_lookup_fails (ProtectedRoute_checkAuth ["admin"])) in
  ops_called tr
  = op_auth_getSession :: repeat op_users_select_role 5 ++ [op_auth_signOut]
  /\ toasts tr = ["Failed to load user data. Please try logging in again."]
  /\ state_after tr = signed_off
  /\ Forall (fun st => ProtectedRoute_render ["admin"] "/admin" st = Loading)
            (states_along tr).
Proof.
  destruct (ProtectedRoute_lookup_exhausted world_role_lookup_fails ["admin"] "/admin"
              {| session_user := alice_principal |} {| signout_error := None |}
              eq_refl)
    as (H1 & _ & H2 & _ & H3 & H4).
  - intros j Hj. do 5 (destruct j as [|j]; [reflexivity|]). lia.
  - reflexivity.
  - split; [exact H1|]. split; [exact H2|]. split; [exact H3 | exact H4].
Defined.

(** X18.  A session is active and the role is doctor, the look for the
    doctor record comes back without one, create_doctor_profile returns
    an error, and the sign-out call returns.  ProtectedRoute then logs
    'Doctor profile creation failed:' with that error, right after the
    call and right before its one sign-out, sets
    [isAuthenticated = false, userRole = null] and shows the toast
    'Failed to create doctor profile. Please contact your
    administrator.'; it was authenticated in no state along the way, and
    every state renders the loading placeholder. *)
Theorem ProtectedRoute_doctor_rpc_fails (w : World) allowedRoles location session k row so :
  active_session w = Some session ->
  k < 5 ->
  first_success (w _ (users_select_role (au_id (session_user session)))) k row ->
  rr_role row = "doctor" ->
  attempt_fails (w _ (doctors_select_id (au_id (session_user session))) 0) = true ->
  reports_error (w _ rpc_create_doctor_profile 0) = true ->
  w _ auth_signOut 0 = Returned so ->
  let tr := snd (exec w (ProtectedRoute_checkAuth allowedRoles)) in
  ops_called tr
  = op_auth_getSession
      :: repeat op_users_select_role (S k)
      ++ [op_doctors_select_id; op_rpc_create_doctor_profile; op_auth_signOut]
  /\ toasts tr
     = ["Failed to create doctor profile. Please contact your administrator."]
  /\ state_after tr = signed_off
  /\ Forall (fun st => isAuthenticated st <> Some true) (states_along tr)
  /\ Forall (fun st => ProtectedRoute_render allowedRoles location st = Loading)
            (states_along tr)
  /\ (exists c createError,
        w _ rpc_create_doctor_profile 0 = Returned c
        /\ pg_error c = Some createError
        /\ exists before after,
             tr = before
                  ++ EvCall rpc_create_doctor_profile (Returned c)
                  :: EvOut (ConsoleError "Doctor profile creation failed:"
                              (Some (FromPlatform createError)))
                  :: EvCall auth_signOut (Returned so)
                  :: after).
Proof.
  intros Hsession Hk Hfirst Hrole Hrecord Hrpc Hso tr. subst tr.
  enough (Hrun : exists x tr,
             exec w (ProtectedRoute_checkAuth allowedRoles) = (x, tr)
             /\ ops_called tr
                = op_auth_getSession
                    :: repeat op_users_select_role (S k)
                    ++ [op_doctors_select_id; op_rpc_create_doctor_profile;
                        op_auth_signOut]
             /\ toasts tr
                = ["Failed to create doctor profile. Please contact your administrator."]
             /\ state_after tr = signed_off
             /\ Forall (fun st => isAuthenticated st <> Some true) (states_along tr)
             /\ Forall (fun st =>
                          ProtectedRoute_render allowedRoles location st = Loading)
                       (states_along tr)
             /\ (exists c createError,
                   w _ rpc_create_doctor_profile 0 = Returned c
                   /\ pg_error c = Some createError
                   /\ exists before after,
                        tr = before
                             ++ EvCall rpc_create_doctor_profile (Returned c)
                             :: EvOut (ConsoleError "Doctor profile creation failed:"
                                         (Some (FromPlatform createError)))
                             :: EvCall auth_signOut (Returned so)
                             :: after)).
  { destruct Hrun as (x & tr & -> & H). exact H. }
  destruct (active_session_inv w session Hsession) as (s & Hs & Hss).
  apply attempt_fails_inv in Hrecord. destruct Hrecord as (d & Hd & Hdn).
  unfold reports_error in Hrpc.
  unfold exec, ProtectedRoute_checkAuth. run.
  match goal with
  | |- context [run w (try_catch (bind (getUserDataWithRetry ?uid) _) _) ?tr] =>
      destruct (getUserDataWithRetry_first_success w uid k row tr eq_refl Hk Hfirst)
        as (evs & Hrun & Hev & Hc)
  end.
  rewrite run_try_catch, run_bind, Hrun. cbn. rewrite Hrole. cbn.
  run. rewrite Hdn. revert Hrpc. run. all: intros Hrpc; try discriminate Hrpc.
  eexists; eexists; split; [reflexivity|]. norm_trace.
  split; [trace_norm; reflexivity|].
  split; [trace_norm; reflexivity|].
  split; [trace_norm; reflexivity|].
  split; [trace_forall ltac:(cbn [isAuthenticated]; discriminate)|].
  split; [trace_forall ltac:(reflexivity)|].
  eexists; eexists. split; [reflexivity|]. split; [eassumption|].
  match goal with
  | |- exists before after, ?a :: evs ++ ?d :: _ = _ => exists (a :: evs ++ [d])
  end.
  eexists. cbn [app]. rewrite <- app_assoc. reflexivity.
Qed.

Lemma ProtectedRoute_doctor_rpc_fails_witness :
  let tr := snd (exec world_doctor_without_record (ProtectedRoute_checkAuth ["doctor"])) in
  ops_called tr
  = [op_auth_getSession; op_users_select_role; op_doctors_select_id;
     op_rpc_create_doctor_profile; op_auth_signOut]
  /\ toasts tr
     = ["Failed to create doctor profile. Please contact your administrator."]
  /\ state_after tr = signed_off
  /\ In (EvOut (ConsoleError "Doctor profile creation failed:"
                  (Some (FromPlatform {| perr_message := "no department" |}))))
        tr.
Proof.
  assert (Hfirst : first_success
                     (world_doctor_without_record _
                        (users_select_role (au_id alice_principal)))
                     0 {| rr_role := "doctor" |}).
  { split; [|split; reflexivity]. intros i Hi. lia. }
  destruct (ProtectedRoute_doctor_rpc_fails world_doctor_without_record ["doctor"]
              "/doctor" {| session_user := alice_principal |} 0
              {| rr_role := "doctor" |} {| signout_error := None |}
              eq_refl ltac:(lia) Hfirst eq_refl eq_refl eq_refl eq_refl)
    as (H1 & H2 & H3 & _ & _ & (c & e & Hc & He & before & after & Htr)).
  split; [exact H1|]. split; [exact H2|]. split; [exact H3|].
  injection Hc as <-. injection He as <-.
  rewrite Htr. apply in_or_app. right. right. left. reflexivity.
Defined.

(** X19.  AuthRoute shows its children, the sign-in or sign-up page,
    when there is no session (getSession returns none or raises) and
    also when a session is active but each of the five role lookups
    fails.  In the second case it issues no sign-out, unlike
    ProtectedRoute: the page is shown while the session is still in
    place. *)
Theorem AuthRoute_shows_children (w : World) location s0 :
  (active_session w = None
   \/ exists session,
        active_session w = Some session
        /\ forall j, j < 5 ->
             lookup_fails (w _ (users_select_role (au_id (session_user session))) j)
             = true) ->
  let tr := snd (exec w AuthRoute_checkAuth) in
  state_after tr = signed_off
  /\ AuthRoute_render location (state_after tr) = Children
  /\ first_settled_view (AuthRoute_render location) tr = Some Children
  /\ count_op op_auth_signOut tr = 0
  /\ session_after s0 tr = s0.
Proof.
  intros Hcase tr. subst tr.
  enough (Hrun : exists x tr,
             exec w AuthRoute_checkAuth = (x, tr)
             /\ state_after tr = signed_off
             /\ first_settled_view (AuthRoute_render location) tr = Some Children
             /\ count_op op_auth_signOut tr = 0
             /\ session_after s0 tr = s0).
  { destruct Hrun as (x & tr & -> & H1 & H2 & H3 & H4). cbn [snd].
    split; [exact H1|]. split; [rewrite H1; reflexivity|]. auto. }
  destruct Hcase as [Hnone | (session & Hsession & Hfail)].
  - unfold exec, AuthRoute_checkAuth.
    destruct (no_session_inv w Hnone) as [(s & Hs & Hss) | (e & He)]; run.
    all: eexists; eexists; split; [reflexivity|].
    all: split; [reflexivity|]; split; [reflexivity|]; split; reflexivity.
  - destruct (active_session_inv w session Hsession) as (s & Hs & Hss).
    unfold exec, AuthRoute_checkAuth. run.
    match goal with
    | |- context [run w (try_catch (bind (getUserDataWithRetry ?uid) _) _) ?tr] =>
        destruct (getUserDataWithRetry_all_fail w uid tr Hfail)
          as (evs & Hrun & Hev & Hc & Hw)
    end.
    rewrite run_try_catch, run_bind, Hrun. run.
    eexists; eexists; split; [reflexivity|]. norm_trace.
    split; [trace_norm; reflexivity|].
    split; [trace_first_settled; reflexivity|].
    split; trace_norm; reflexivity.
Qed.

Lemma AuthRoute_shows_children_witness :
  let tr := snd (exec world_role_lookup_fails AuthRoute_checkAuth) in
  AuthRoute_render "/login" (state_after tr) = Children
  /\ count_op op_auth_signOut tr = 0
  /\ session_after (Some alice_principal) tr = Some alice_principal.
Proof.
  destruct (AuthRoute_shows_children world_role_lookup_fails "/login"
              (Some alice_principal))
    as (_ & H1 & _ & H2 & H3).
  - right. exists {| session_user := alice_principal |}.
    split; [reflexivity|].
    intros j Hj. do 5 (destruct j as [|j]; [reflexivity|]). lia.
  - split; [exact H1|]. split; [exact H2 | exact H3].
Defined.

(* ================================================================== *)
(** ** updateTestType: the subtypes to add, update and delete *)

Lemma same_id_true a b : same_id a b = true <-> a = Some b.
Proof.
  destruct a as [s|]; simpl.
  - rewrite String.eqb_eq. split; [intros ->; reflexivity | intros H; injection H; auto].
  - split; discriminate.
Qed.

Lemma deleteIds_spec existingSubtypes subtypes id :
  In id (deleteIds existingSubtypes subtypes)
  <-> In id (map subtype_id existingSubtypes)
      /\ ~ In (Some id) (map entry_id subtypes).
Proof.
  unfold deleteIds. rewrite !in_map_iff. split.
  - intros (s & <- & Hs). apply filter_In in Hs. destruct Hs as (Hin & Hno).
    split; [eauto|].
    intros (ns & Hid & Hns).
    apply negb_true_iff in Hno.
    assert (Hyes : existsb (fun ns => same_id (entry_id ns) (subtype_id s)) subtypes
                   = true).
    { apply existsb_exists. exists ns. split; [exact Hns|].
      apply same_id_true. exact Hid. }
    congruence.
  - intros ((s & <- & Hin) & Hno).
    exists s. split; [reflexivity|].
    apply filter_In. split; [exact Hin|].
    apply negb_true_iff. apply not_true_is_false. intros Hyes.
    apply existsb_exists in Hyes. destruct Hyes as (ns & Hns & Hsame).
    apply same_id_true in Hsame.
    apply Hno. eauto.
Qed.

(** X20.  The three lists updateTestType computes from the existing
    subtypes and the submitted entries.  A subtype is deleted exactly
    when it exists and no submitted entry carries its id, so no subtype
    is both deleted and updated.  Every submitted entry is either
    inserted as new (it has no id, or the empty one) or issued as an
    update (it has an id), never both, and none is dropped. *)
Theorem updateTestType_diff (existingSubtypes : list SubtypeRow)
    (subtypes : list SubtypeEntry) :
  (forall id,
     In id (deleteIds existingSubtypes subtypes)
     <-> In id (map subtype_id existingSubtypes)
         /\ ~ In (Some id) (map entry_id subtypes))
  /\ (forall id,
        In id (deleteIds existingSubtypes subtypes) ->
        ~ In (Some id) (map entry_id (updateSubtypes subtypes)))
  /\ (forall e,
        In e subtypes <-> In e (newSubtypes subtypes) \/ In e (updateSubtypes subtypes))
  /\ (forall e, In e (newSubtypes subtypes) -> ~ In e (updateSubtypes subtypes))
  /\ length (newSubtypes subtypes) + length (updateSubtypes subtypes)
     = length subtypes.
Proof.
  split; [intros id; apply deleteIds_spec|].
  split.
  { intros id Hdel Hupd. apply deleteIds_spec in Hdel. destruct Hdel as (_ & Hno).
    apply Hno. apply in_map_iff in Hupd. destruct Hupd as (e & He & Hin).
    apply in_map_iff. exists e. split; [exact He|].
    unfold updateSubtypes in Hin. apply filter_In in Hin. tauto. }
  unfold newSubtypes, updateSubtypes.
  split.
  { intros e. rewrite !filter_In.
    destruct (truthy (entry_id e)); simpl; intuition congruence. }
  split.
  { intros e. rewrite !filter_In. intros (_ & H1) (_ & H2).
    rewrite H2 in H1. discriminate. }
  induction subtypes as [|e l IH]; simpl; [reflexivity|].
  destruct (truthy (entry_id e)); simpl; lia.
Qed.

(* ================================================================== *)
(** ** The edit form of TestManagement and updateTestType *)

Lemma indexed_from_app {A} (a c : list A) n :
  combine (seq n (length (a ++ c))) (a ++ c)
  = combine (seq n (length a)) a ++ combine (seq (n + length a) (length c)) c.
Proof.
  revert n. induction a as [|x a IH]; intros n; simpl.
  - rewrite Nat.add_0_r. reflexivity.
  - rewrite IH. replace (S n + length a) with (n + S (length a)) by lia. reflexivity.
Qed.

(** An index outside the range leaves [filter((_, i) => i !== index)]
    and [map((x, i) => i === index ? f(x) : x)] without effect. *)
Lemma filter_index_outside {A} (l : list A) m index :
  index < m \/ m + length l <= index ->
  map snd (filter (fun p => negb (fst p =? index)%nat) (combine (seq m (length l)) l))
  = l.
Proof.
  revert m. induction l as [|x l IH]; intros m Hout; simpl; [reflexivity|].
  destruct (Nat.eqb_spec m index) as [->|Hne]; simpl in *; [exfalso; lia|].
  rewrite IH; [reflexivity | lia].
Qed.

Lemma map_index_outside {A} (f : nat * A -> A) (l : list A) m index :
  index < m \/ m + length l <= index ->
  map (fun p => if (fst p =? index)%nat then f p else snd p)
      (combine (seq m (length l)) l)
  = l.
Proof.
  revert m. induction l as [|x l IH]; intros m Hout; simpl; [reflexivity|].
  destruct (Nat.eqb_spec m index) as [->|Hne]; simpl in *; [exfalso; lia|].
  rewrite IH; [reflexivity | lia].
Qed.

Lemma handleRemoveSubtype_at (a b : list SubtypeEntry) x :
  handleRemoveSubtype (length a) (a ++ x :: b) = a ++ b.
Proof.
  unfold handleRemoveSubtype, indexed.
  rewrite indexed_from_app, filter_app, map_app.
  rewrite filter_index_outside by (simpl; lia).
  simpl. rewrite Nat.eqb_refl. simpl.
  rewrite filter_index_outside by lia. reflexivity.
Qed.

Lemma handleSubtypeChange_at (a b : list SubtypeEntry) x value :
  handleSubtypeChange (length a) value (a ++ x :: b)
  = a ++ {| entry_id := entry_id x; entry_name := value |} :: b.
Proof.
  unfold handleSubtypeChange, indexed.
  rewrite indexed_from_app, map_app.
  rewrite (map_index_outside
             (fun p => {| entry_id := entry_id (snd p); entry_name := value |}))
    by (simpl; lia).
  simpl. rewrite Nat.eqb_refl. simpl.
  rewrite (map_index_outside
             (fun p => {| entry_id := entry_id (snd p); entry_name := value |}))
    by lia.
  reflexivity.
Qed.

Section EditForm.
Variable trim : string -> string.

Lemma handleSubmit_keeps_rows (l : list SubtypeRow) :
  Forall (well_formed_row trim) l ->
  handleSubmit_subtypes trim (edit_form_subtypes (Some l))
  = edit_form_subtypes (Some l).
Proof.
  unfold handleSubmit_subtypes. simpl.
  induction 1 as [|s l (Hid & Hname) Hl IH]; simpl; [reflexivity|].
  apply String.eqb_neq in Hname. rewrite Hname. simpl. rewrite IH. reflexivity.
Qed.

Lemma updateSubtypes_rows (l : list SubtypeRow) :
  Forall (well_formed_row trim) l ->
  updateSubtypes (edit_form_subtypes (Some l)) = edit_form_subtypes (Some l)
  /\ newSubtypes (edit_form_subtypes (Some l)) = [].
Proof.
  unfold updateSubtypes, newSubtypes. simpl.
  induction 1 as [|s l (Hid & Hname) Hl (IH1 & IH2)]; simpl; [auto|].
  apply String.eqb_neq in Hid. rewrite Hid. simpl. rewrite IH1, IH2. auto.
Qed.

Lemma entry_ids_rows (l : list SubtypeRow) :
  map entry_id (edit_form_subtypes (Some l)) = map Some (map subtype_id l).
Proof. simpl. rewrite !map_map. reflexivity. Qed.

Lemma edit_form_subtypes_app (a b : list SubtypeRow) :
  edit_form_subtypes (Some (a ++ b))
  = edit_form_subtypes (Some a) ++ edit_form_subtypes (Some b).
Proof. simpl. apply map_app. Qed.

Lemma deleteIds_app a b subtypes :
  deleteIds (a ++ b) subtypes = deleteIds a subtypes ++ deleteIds b subtypes.
Proof. unfold deleteIds. rewrite filter_app, map_app. reflexivity. Qed.

(** Nothing is deleted among rows whose ids are all submitted. *)
Lemma deleteIds_all_submitted (l : list SubtypeRow) subtypes :
  (forall s, In s l -> In (Some (subtype_id s)) (map entry_id subtypes)) ->
  deleteIds l subtypes = [].
Proof.
  intros Hall.
  destruct (deleteIds l subtypes) as [|id rest] eqn:E; [reflexivity|].
  assert (Hin : In id (deleteIds l subtypes)) by (rewrite E; left; reflexivity).
  apply deleteIds_spec in Hin. destruct Hin as (Hid & Hno).
  apply in_map_iff in Hid. destruct Hid as (s & <- & Hs).
  elim Hno. apply Hall, Hs.
Qed.

Lemma deleteIds_not_submitted (x : SubtypeRow) subtypes :
  ~ In (Some (subtype_id x)) (map entry_id subtypes) ->
  deleteIds [x] subtypes = [subtype_id x].
Proof.
  intros Hno. unfold deleteIds. simpl.
  destruct (existsb _ subtypes) eqn:E; [|reflexivity].
  apply existsb_exists in E. destruct E as (ns & Hns & Hsame).
  apply same_id_true in Hsame. elim Hno.
  apply in_map_iff. eauto.
Qed.

Lemma in_entry_ids_rows (l : list SubtypeRow) id :
  In (Some id) (map entry_id (edit_form_subtypes (Some l)))
  <-> In id (map subtype_id l).
Proof.
  rewrite entry_ids_rows. rewrite in_map_iff. split.
  - intros (y & Hy & Hin). injection Hy as <-. exact Hin.
  - intros Hin. eauto.
Qed.


(** X22.  Clearing the name of a subtype in the edit form deletes it.
    handleSubmit drops the entry whose name has become blank, exactly as
    if its row had been removed with handleRemoveSubtype; the subtype's
    id is then missing from the submission, and updateTestType puts it,
    and no other, into the ids to delete, and inserts nothing.  (The
    subtypes in the table are those the form was filled from, with
    distinct non-empty ids and non-blank names.) *)
Theorem edit_form_cleared_name_deletes (before after : list SubtypeRow)
    (x : SubtypeRow) (value : string) :
  let existingSubtypes := before ++ x :: after in
  let form := edit_form_subtypes (Some existingSubtypes) in
  let submitted :=
    handleSubmit_subtypes trim (handleSubtypeChange (length before) value form) in
  Forall (well_formed_row trim) existingSubtypes ->
  NoDup (map subtype_id existingSubtypes) ->
  trim value = "" ->
  submitted = handleSubmit_subtypes trim (handleRemoveSubtype (length before) form)
  /\ submitted = edit_form_subtypes (Some (before ++ after))
  /\ deleteIds existingSubtypes submitted = [subtype_id x]
  /\ newSubtypes submitted = []
  /\ length (updateSubtypes submitted) = length before + length after.
Proof.
  intros existingSubtypes form submitted Hwf Hnodup Hblank.
  subst existingSubtypes form submitted.
  assert (Hwf' : Forall (well_formed_row trim) (before ++ after)).
  { apply Forall_app in Hwf. destruct Hwf as (H1 & H2).
    apply Forall_app. split; [exact H1|]. inversion H2; assumption. }
  assert (Hlen : length (edit_form_subtypes (Some before)) = length before).
  { simpl. apply length_map. }
  assert (Hchanged :
            handleSubmit_subtypes trim
              (handleSubtypeChange (length before) value
                 (edit_form_subtypes (Some (before ++ x :: after))))
            = edit_form_subtypes (Some (before ++ after))).
  { rewrite edit_form_subtypes_app.
    change (edit_form_subtypes (Some (x :: after)))
      with ({| entry_id := Some (subtype_id x); entry_name := subtype_name x |}
              :: edit_form_subtypes (Some after)).
    rewrite <- Hlen, handleSubtypeChange_at.
    rewrite <- (handleSubmit_keeps_rows _ Hwf'), edit_form_subtypes_app.
    unfold handleSubmit_subtypes. rewrite !filter_app. simpl.
    rewrite Hblank. reflexivity. }
  assert (Hremoved :
            handleSubmit_subtypes trim
              (handleRemoveSubtype (length before)
                 (edit_form_subtypes (Some (before ++ x :: after))))
            = edit_form_subtypes (Some (before ++ after))).
  { rewrite edit_form_subtypes_app.
    change (edit_form_subtypes (Some (x :: after)))
      with ({| entry_id := Some (subtype_id x); entry_name := subtype_name x |}
              :: edit_form_subtypes (Some after)).
    rewrite <- Hlen, handleRemoveSubtype_at.
    rewrite <- edit_form_subtypes_app. apply handleSubmit_keeps_rows, Hwf'. }
  rewrite Hchanged, Hremoved.
  destruct (updateSubtypes_rows _ Hwf') as (Hupd & Hnew).
  split; [reflexivity|]. split; [reflexivity|].
  split; [|split; [exact Hnew|]].
  - change (before ++ x :: after) with (before ++ [x] ++ after).
    rewrite !deleteIds_app.
    rewrite map_app in Hnodup. simpl in Hnodup.
    apply NoDup_remove_2 in Hnodup.
    rewrite (deleteIds_all_submitted before), (deleteIds_all_submitted after).
    + rewrite deleteIds_not_submitted; [reflexivity|].
      rewrite in_entry_ids_rows, map_app. exact Hnodup.
    + intros s Hs. apply in_entry_ids_rows. apply in_map, in_or_app. auto.
    + intros s Hs. apply in_entry_ids_rows. apply in_map, in_or_app. auto.
  - rewrite Hupd. simpl. rewrite length_map, length_app. reflexivity.
Qed.

End EditForm.

Lemma cbc_subtypes_well_formed : Forall (well_formed_row (fun s => s)) cbc_subtypes.
Proof. repeat constructor; discriminate. Qed.


Lemma edit_form_cleared_name_deletes_witness :
  let submitted :=
    handleSubmit_subtypes (fun s => s)
      (handleSubtypeChange 1 "" (edit_form_subtypes (Some cbc_subtypes))) in
  deleteIds cbc_subtypes submitted = ["s-2"]
  /\ newSubtypes submitted = [].
Proof.
  destruct (edit_form_cleared_name_deletes (fun s => s)
              [{| subtype_id := "s-1"; subtype_name := "Hemoglobin" |}]
              [{| subtype_id := "s-3"; subtype_name := "WBC" |}]
              {| subtype_id := "s-2"; subtype_name := "Platelets" |} ""
              cbc_subtypes_well_formed)
    as (_ & _ & H1 & H2 & _).
  - repeat constructor; simpl; intuition discriminate.
  - reflexivity.
  - split; [exact H1 | exact H2].
Defined.


(* ================================================================== *)
(** ** The auth-state callback of ProtectedRoute *)

(** A tree that never calls [op] runs the same way after one more call
    of [op] in the trace. *)
Lemma run_after_call {A} (op : Op) (p : Async A) :
  always (fun evs _ => count_op op evs = 0) p ->
  forall (w : World) {R} (c : Cmd R) (o : Outcome R) tr,
    op_of c = op ->
    exists x evs,
      run w p tr = (x, tr ++ evs)
      /\ run w p (EvCall c o :: tr) = (x, EvCall c o :: tr ++ evs).
Proof.
  induction p as [a|e|R' c' k IH|out k IH]; simpl; intros H w R c o tr Hop.
  - exists (Normal a), []. rewrite app_nil_r. auto.
  - exists (Abrupt e), []. rewrite app_nil_r. auto.
  - assert (Hother : Op_eqb (op_of c') op = false).
    { destruct (always_run _ _ (H (Threw {| perr_message := "" |})) w [])
        as (x & evs & _ & Hcount).
      cbv beta in Hcount. rewrite count_op_cons in Hcount. simpl in Hcount.
      destruct (Op_eqb (op_of c') op); [discriminate | reflexivity]. }
    assert (Hsame : count_op (op_of c') (EvCall c o :: tr) = count_op (op_of c') tr).
    { rewrite count_op_cons. simpl. rewrite Hop.
      replace (Op_eqb op (op_of c')) with false; [reflexivity|].
      symmetry. destruct (Op_eqb op (op_of c')) eqn:E; [|reflexivity].
      apply Op_eqb_eq in E. rewrite <- E, Op_eqb_refl in Hother. discriminate. }
    rewrite Hsame.
    set (o' := w R' c' (count_op (op_of c') tr)).
    destruct (IH o') with (w := w) (c := c) (o := o) (tr := tr ++ [EvCall c' o'])
      as (x & evs & H1 & H2).
    + eapply always_weaken; [apply H|].
      intros evs x Hcount. cbv beta in Hcount.
      rewrite count_op_cons in Hcount. lia.
    + exact Hop.
    + exists x, (EvCall c' o' :: evs).
      change ((EvCall c o :: tr) ++ [EvCall c' o'])
        with (EvCall c o :: tr ++ [EvCall c' o']).
      rewrite H1, H2, <- !app_assoc. auto.
  - destruct (IH H w R c o (tr ++ [EvOut out])) as (x & evs & H1 & H2); [exact Hop|].
    exists x, (EvOut out :: evs).
    change ((EvCall c o :: tr) ++ [EvOut out]) with (EvCall c o :: tr ++ [EvOut out]).
    rewrite H1, H2, <- !app_assoc. auto.
Qed.

Lemma onAuthStateChange_always allowedRoles event session st0 :
  always (fun evs x =>
            count_op op_auth_getSession evs = 0
            /\ count_op op_users_select_role evs <= 5
            /\ count_op op_auth_signOut evs <= 1
            /\ total_wait evs <= 4000
            /\ match x with
               | Normal _ =>
                   (evs = []
                    /\ (event <> "SIGNED_OUT")
                    /\ (event = "SIGNED_IN" -> session = None))
                   \/ fold_left apply_event evs st0 = signed_off
                   \/ (let_in allowedRoles (fold_left apply_event evs st0)
                       /\ count_op op_auth_signOut evs = 0
                       /\ toasts evs = [])
               | Abrupt e =>
                   event = "SIGNED_IN"
                   /\ ends_with_call evs = true
                   /\ exists pe, e = FromPlatform pe
               end)
         (ProtectedRoute_onAuthStateChange allowedRoles event session).
Proof.
  unfold ProtectedRoute_onAuthStateChange. set (limit := 4000).
  destruct (String.eqb_spec event "SIGNED_IN") as [Hin|Hin];
    destruct (String.eqb_spec event "SIGNED_OUT") as [Hout|Hout];
    destruct session as [session|].
  all: always_go.
  all: rewrite ?app_nil_r.
  all: split_all.
  all: match goal with
       | |- _ \/ _ => idtac
       | |- ends_with_call _ = true => trace_ends
       | |- exists _, _ => eexists; reflexivity
       | |- _ = "SIGNED_IN" => assumption
       | _ => trace_norm; rewrite ?app_nil_r
       end.
  all: try reflexivity.
  all: try (subst limit; lia).
  all: try (left; split; [reflexivity|]; split; [assumption|]; intros; congruence).
  all: try (left; split; [reflexivity|]; split; [assumption|]; reflexivity).
  all: try (right; left; trace_norm; reflexivity).
  all: right; right; split_all; trace_norm; try reflexivity.
  all: eexists; split; [reflexivity | assumption].
Qed.

(** X24.  The callback ProtectedRoute registers for auth-state changes,
    in every world, for every event and from every component state.  It
    never calls getSession, makes five role lookups and one sign-out at
    most and waits 4000 ms at most.  When it resolves, either it did
    nothing at all (the event is neither SIGNED_OUT nor a SIGNED_IN
    with a session), or it left the component unauthenticated
    ([isAuthenticated = false, userRole = null]), or it left the user
    authenticated with a role of the allow-list, having issued no
    sign-out and shown no toast.  Having no [try], it may also reject,
    which checkAuth never does (the example after the theorem is such a
    run): only on SIGNED_IN, with an exception raised by the platform,
    straight after the call that raised it. *)
Theorem ProtectedRoute_onAuthStateChange_every_world (w : World)
    allowedRoles event session st0 :
  exists x tr,
    exec w (ProtectedRoute_onAuthStateChange allowedRoles event session) = (x, tr)
    /\ count_op op_auth_getSession tr = 0
    /\ count_op op_users_select_role tr <= 5
    /\ count_op op_auth_signOut tr <= 1
    /\ total_wait tr <= 4000
    /\ match x with
       | Normal _ =>
           (tr = []
            /\ (event <> "SIGNED_OUT")
            /\ (event = "SIGNED_IN" -> session = None))
           \/ fold_left apply_event tr st0 = signed_off
           \/ (let_in allowedRoles (fold_left apply_event tr st0)
               /\ count_op op_auth_signOut tr = 0
               /\ toasts tr = [])
       | Abrupt e =>
           event = "SIGNED_IN"
           /\ ends_with_call tr = true
           /\ exists pe, e = FromPlatform pe
       end.
Proof.
  apply (always_exec _ _ (onAuthStateChange_always allowedRoles event session st0) w).
Qed.

(** A run of the callback that rejects: the role is not allowed and the
    sign-out call raises.  The component is left authenticated with the
    denied role. *)
Example ProtectedRoute_onAuthStateChange_rejects :
  let run_of_callback :=
    exec world_department_user
      (ProtectedRoute_onAuthStateChange ["admin"] "SIGNED_IN"
         (Some {| session_user := alice_principal |})) in
  fst run_of_callback = Abrupt (FromPlatform {| perr_message := "unscripted" |})
  /\ state_after (snd run_of_callback)
     = {| isAuthenticated := Some true; userRole := Some "department" |}.
Proof. split; reflexivity. Qed.

(** X25.  checkAuth and the callback agree.  With a session from
    getSession, checkAuth does, after that call, exactly what the
    callback does on SIGNED_IN with that session in the same world; and
    where the callback rejects with an exception, checkAuth catches it:
    it logs it, sets [isAuthenticated = false, userRole = null] and
    shows the toast 'Authentication error. Please try logging in
    again.'. *)
Theorem ProtectedRoute_checkAuth_as_callback (w : World) allowedRoles s session :
  w _ auth_getSession 0 = Returned s ->
  auth_session s = Some session ->
  exists x evs,
    exec w (ProtectedRoute_onAuthStateChange allowedRoles "SIGNED_IN" (Some session))
    = (x, evs)
    /\ exec w (ProtectedRoute_checkAuth allowedRoles)
       = (Normal tt,
          EvCall auth_getSession (Returned s)
            :: evs
            ++ match x with
               | Normal _ => []
               | Abrupt e =>
                   [EvOut (ConsoleError "Auth check error:" (Some e));
                    EvOut (SetIsAuthenticated false);
                    EvOut (SetUserRole None);
                    EvOut (ToastError
                             "Authentication error. Please try logging in again.")]
               end).
Proof.
  intros Hs Hss.
  assert (Hnever : always (fun evs _ => count_op op_auth_getSession evs = 0)
                     (ProtectedRoute_onAuthStateChange allowedRoles "SIGNED_IN"
                        (Some session))).
  { eapply always_weaken;
      [apply (onAuthStateChange_always allowedRoles "SIGNED_IN" (Some session)
                initial_state)|].
    cbv beta. intros evs x H. apply H. }
  destruct (run_after_call op_auth_getSession _ Hnever w auth_getSession
              (Returned s) [] eq_refl)
    as (x & evs & H1 & H2).
  exists x, evs. split; [exact H1|].
  unfold exec, ProtectedRoute_checkAuth. run.
  match goal with
  | |- context [run w (try_catch ?body ?h) ?tr] =>
      change body
        with (ProtectedRoute_onAuthStateChange allowedRoles "SIGNED_IN" (Some session))
  end.
  rewrite run_try_catch, H2.
  destruct x as [[]|e]; cbn; rewrite ?app_nil_r, <- ?app_assoc; reflexivity.
Qed.

Lemma ProtectedRoute_checkAuth_as_callback_witness :
  exists x evs,
    exec world_registration_clerk
      (ProtectedRoute_onAuthStateChange ["admin"] "SIGNED_IN"
         (Some {| session_user := alice_principal |}))
    = (x, evs)
    /\ exec world_registration_clerk (ProtectedRoute_checkAuth ["admin"])
       = (Normal tt,
          EvCall auth_getSession alice_session
            :: evs
            ++ match x with
               | Normal _ => []
               | Abrupt e =>
                   [EvOut (ConsoleError "Auth check error:" (Some e));
                    EvOut (SetIsAuthenticated false);
                    EvOut (SetUserRole None);
                    EvOut (ToastError
                             "Authentication error. Please try logging in again.")]
               end).
Proof.
  apply (ProtectedRoute_checkAuth_as_callback world_registration_clerk ["admin"]
           {| auth_session := Some {| session_user := alice_principal |};
              session_error := None |}
           {| session_user := alice_principal |} eq_refl eq_refl).
Defined.
